(** * Evaluation of GAN checkpoints: a model of [compare_gan/src/eval_gan_lib.py]

    The development embeds the orchestration code of the evaluation library
    (score-table sweep, per-checkpoint evaluation, discriminator
    accuracy/loss) and proves properties of it.

    Modelling conventions.
    - Python exceptions are values of [exn]; a computation that may raise
      returns [exn + A] ([inl] is a raise).
    - Python floats are modelled by [pyfloat]: an exact rational (kept in
      lowest terms), an infinity or NaN. Rounding of binary floating point is
      not modelled.
    - A [dict] with string keys is a [gmap string _], a [set] a [gset _].
    - A numpy array of images (shape (N,H,W,C)) is a list of N images of a
      common shape (H,W,C), each image an index function.
    - The TensorFlow session, the GAN, the datasets, numpy's random generator
      and the metric libraries are collaborators: they are variables of the
      sections below.
    - Python 2 semantics is assumed where Python 2 and 3 differ (the module
      is written against [six] and TensorFlow 1). *)

From Stdlib Require Import ZArith QArith Qreduction Qround Qabs.
From stdpp Require Import base list gmap strings pretty sorting.

Local Open Scope string_scope.
Local Open Scope list_scope.
Local Open Scope Z_scope.

(** ** Exceptions *)

Inductive exn : Type :=
| KeyError (key : string)
| ValueError (msg : string)
| TypeError (msg : string)
| ZeroDivisionError
| AssertionError
| IndexError
| AttributeError
| NanFoundError (msg : string).

Definition is_ValueError (e : exn) : bool :=
  match e with ValueError _ => true | _ => false end.

Definition is_NanFoundError (e : exn) : bool :=
  match e with NanFoundError _ => true | _ => false end.

(** ** Floats *)

Inductive pyfloat : Type :=
| Fin (q : Q)
| Inf (negative : bool)
| NaN.

Definition fnum (q : Q) : pyfloat := Fin (Qred q).
Definition fint (z : Z) : pyfloat := Fin (inject_Z z).

Definition np_isnan (x : pyfloat) : bool :=
  match x with NaN => true | _ => false end.

Definition fadd (x y : pyfloat) : pyfloat :=
  match x, y with
  | NaN, _ | _, NaN => NaN
  | Fin a, Fin b => fnum (a + b)
  | Inf s, Fin _ | Fin _, Inf s => Inf s
  | Inf s, Inf t => if Bool.eqb s t then Inf s else NaN
  end.

Definition fmul (x y : pyfloat) : pyfloat :=
  match x, y with
  | NaN, _ | _, NaN => NaN
  | Fin a, Fin b => fnum (a * b)
  | Inf s, Fin a | Fin a, Inf s =>
      match Qcompare a 0 with
      | Eq => NaN
      | Gt => Inf s
      | Lt => Inf (negb s)
      end
  | Inf s, Inf t => Inf (xorb s t)
  end.

(** [x / float(n)] for a positive count [n]. *)
Definition fdiv_count (x : pyfloat) (n : nat) : pyfloat :=
  match x with
  | Fin a => fnum (a / inject_Z (Z.of_nat n))
  | other => other
  end.

(** [x >= y] and [x < y]; every comparison with NaN is false. *)
Definition fge (x y : pyfloat) : bool :=
  match x, y with
  | NaN, _ | _, NaN => false
  | Fin a, Fin b => Qle_bool b a
  | Inf s, Inf t => implb s t
  | Inf s, Fin _ => negb s
  | Fin _, Inf t => t
  end.

Definition flt (x y : pyfloat) : bool :=
  match x, y with
  | NaN, _ | _, NaN => false
  | Fin a, Fin b => negb (Qle_bool b a)
  | Inf s, Inf t => s && negb t
  | Inf s, Fin _ => s
  | Fin _, Inf t => negb t
  end.

Definition fsum (l : list pyfloat) : pyfloat := foldl fadd (fint 0) l.

(** [np.mean] of a list: NaN on the empty list. *)
Definition np_mean (l : list pyfloat) : pyfloat :=
  match l with
  | [] => NaN
  | _ => fdiv_count (fsum l) (length l)
  end.

(** ** Strings: ordering, [sorted], ["%.3f"] *)

Definition string_le (s t : string) : Prop := String.leb s t = true.

#[global] Instance string_le_dec : RelDecision string_le :=
  fun s t => bool_eq_dec (String.leb s t) true.

Definition sorted (l : list string) : list string := merge_sort string_le l.

(** Round half to even, as the correctly rounded ["%.3f"] does on the exact
    value of the number. *)
Definition round_half_even (q : Q) : Z :=
  let f := Qfloor q in
  match Qcompare (q - inject_Z f) (1 # 2) with
  | Lt => f
  | Gt => f + 1
  | Eq => if Z.even f then f else f + 1
  end.

Definition digit (d : Z) : Ascii.ascii :=
  Ascii.ascii_of_N (48 + Z.to_N d).

Definition three_digits (m : Z) : string :=
  String (digit (m / 100 mod 10))
    (String (digit (m / 10 mod 10)) (String (digit (m mod 10)) EmptyString)).

Definition format_3f (x : pyfloat) : string :=
  match x with
  | NaN => "nan"
  | Inf s => if s then "-inf" else "inf"
  | Fin q =>
      let m := round_half_even (Qabs q * 1000) in
      (if Qle_bool 0 q then "" else "-")
        +:+ pretty (Z.to_N (m / 1000)) +:+ "." +:+ three_digits (m mod 1000)
  end.

(** ** Computations that may raise *)

Definition result (A : Type) : Type := exn + A.

#[global] Instance result_ret : MRet result := fun A x => inr x.
#[global] Instance result_bind : MBind result :=
  fun A B f m => match m with inl e => inl e | inr x => f x end.

Definition raise {A : Type} (e : exn) : result A := inl e.

Definition py_assert (b : bool) : result unit :=
  if b then inr tt else raise AssertionError.

(** [for x in l: state = body(x, state)], in any of the monads below *)
Fixpoint for_each {Mo : Type -> Type} `{!MBind Mo, !MRet Mo} {A S : Type}
    (l : list A) (body : A -> S -> Mo S) (s : S) : Mo S :=
  match l with
  | [] => mret s
  | x :: l' => s' ← body x s; for_each l' body s'
  end.

(** ** Dictionaries and the values of the options dictionary *)

Inductive pyval : Type :=
| VStr (s : string)
| VInt (z : Z)
| VBool (b : bool)
| VFloat (x : pyfloat).

(** [d[k]] *)
Definition getitem {V : Type} (d : gmap string V) (k : string) : result V :=
  match d !! k with
  | Some v => inr v
  | None => raise (KeyError k)
  end.

(** [d.get(k, dflt)] *)
Definition dict_get {V : Type} (d : gmap string V) (k : string) (dflt : V) : V :=
  default dflt (d !! k).

(** [d.update(e)] *)
Definition dict_update {V : Type} (d e : gmap string V) : gmap string V := e ∪ d.

(** Truth value of an object in a condition. *)
Definition truthy (v : pyval) : bool :=
  match v with
  | VStr s => negb (String.eqb s "")
  | VInt z => negb (z =? 0)
  | VBool b => b
  | VFloat (Fin q) => negb (Qeq_bool q 0)
  | VFloat _ => true
  end.

(** [v == s] and [v in l] for a string [s] and a list of strings [l]. *)
Definition val_eqb (v : pyval) (s : string) : bool :=
  match v with VStr t => String.eqb t s | _ => false end.

Definition val_in (v : pyval) (l : list string) : bool :=
  existsb (val_eqb v) l.

(** An object used as an integer ([bool] is a subclass of [int]). *)
Definition as_int (v : pyval) : result Z :=
  match v with
  | VInt z => inr z
  | VBool b => inr (Z.b2z b)
  | _ => raise (TypeError "an integer is required")
  end.

(** ** Sequences *)

(** [range(n)] *)
Definition range (n : Z) : list Z := seqZ 0 n.

(** [l[start:stop]] with Python's treatment of negative and large bounds. *)
Definition slice_bound (len i : Z) : nat :=
  Z.to_nat (Z.min len (Z.max 0 (if i <? 0 then i + len else i))).

Definition py_slice {A : Type} (l : list A) (start stop : Z) : list A :=
  let len := Z.of_nat (length l) in
  let s := slice_bound len start in
  let e := slice_bound len stop in
  take (e - s)%nat (drop s l).

(** [l[0]] *)
Definition first {A : Type} (l : list A) : result A :=
  match l with
  | x :: _ => inr x
  | [] => raise IndexError
  end.

(** [a // b] and [a % b] on integers. *)
Definition floordiv (a b : Z) : result Z :=
  if b =? 0 then raise ZeroDivisionError else inr (a / b).

Definition pymod (a b : Z) : result Z :=
  if b =? 0 then raise ZeroDivisionError else inr (a mod b).

(** [int(np.ceil(a / b))] *)
Definition ceildiv (a b : Z) : result Z :=
  if b =? 0 then raise ZeroDivisionError else inr (- ((- a) / b)).

(** [sum(bools) / float(len(bools))] *)
Definition count_true (l : list bool) : Z :=
  Z.of_nat (length (filter (fun b => b = true) l)).

Definition fraction_true (l : list bool) : result pyfloat :=
  match l with
  | [] => raise ZeroDivisionError
  | _ => inr (fdiv_count (fint (count_true l)) (length l))
  end.

(** ** Arrays of images *)

Definition image : Type := nat -> nat -> nat -> pyfloat.

Record ndarray : Type := NdArray {
  rows : list image;
  height : nat;
  width : nat;
  channels : nat
}.

Definition shape0 (a : ndarray) : Z := Z.of_nat (length (rows a)).

Definition shape (a : ndarray) : nat * nat * nat * nat :=
  (length (rows a), height a, width a, channels a).

Definition shape_eqb (a b : ndarray) : bool :=
  (length (rows a) =? length (rows b))%nat && (height a =? height b)%nat
  && (width a =? width b)%nat && (channels a =? channels b)%nat.

Definition with_rows (a : ndarray) (l : list image) : ndarray :=
  NdArray l (height a) (width a) (channels a).

(** [np.isnan(x).any()] *)
Definition image_has_nan (h w c : nat) (im : image) : bool :=
  existsb (fun i => existsb (fun j => existsb (fun k => np_isnan (im i j k))
                                        (seq 0 c)) (seq 0 w)) (seq 0 h).

Definition isnan_any (x : ndarray) : bool :=
  existsb (image_has_nan (height x) (width x) (channels x)) (rows x).

(** [x *= v] *)
Definition scale (v : pyfloat) (x : ndarray) : ndarray :=
  with_rows x (map (fun (im : image) i j k => fmul (im i j k) v) (rows x)).

(** [np.tile(x, [1, 1, 1, 3])] *)
Definition tile_channels (x : ndarray) : ndarray :=
  NdArray (map (fun (im : image) i j k => im i j (k mod channels x)%nat) (rows x))
          (height x) (width x) (3 * channels x).

(** [x[:n]] along the first axis *)
Definition truncate (x : ndarray) (n : Z) : ndarray :=
  with_rows x (py_slice (rows x) 0 n).

(** [x[start:stop]] along the first axis *)
Definition slice0 (x : ndarray) (start stop : Z) : ndarray :=
  with_rows x (py_slice (rows x) start stop).

(** [np.concatenate(samples, axis=0)] *)
Definition same_image_shape (a b : ndarray) : bool :=
  (height a =? height b)%nat && (width a =? width b)%nat
  && (channels a =? channels b)%nat.

Definition np_concatenate (samples : list ndarray) : result ndarray :=
  match samples with
  | [] => raise (ValueError "need at least one array to concatenate")
  | a :: rest =>
      if forallb (same_image_shape a) rest
      then inr (with_rows a (concat (map rows samples)))
      else raise (ValueError "all the input array dimensions must match")
  end.

(** An array built from a list of images taken out of [x]. *)
Definition as_array (x : ndarray) (l : list image) : ndarray := with_rows x l.

(** ** Collaborators *)

(** A GAN built in the current graph, with its weights restored: what
    [sess.run] computes for the tensors of the model, as functions of what is
    fed. *)
Record GAN (rng zsample : Type) : Type := MkGAN {
  batch_size : Z;
  z_dim : Z;
  (** [gan.z_generator(batch_size, z_dim)] *)
  z_generator : Z -> Z -> rng -> zsample * rng;
  (** [sess.run(gan.fake_images, {gan.z: z})] *)
  fake_images : zsample -> ndarray;
  (** [sess.run(gan.discriminator_output, {gan.inputs: x})], one output per
      example of the batch *)
  discriminator_output : ndarray -> list pyfloat;
  (** [sess.run(gan.d_loss, {gan.inputs: x, gan.z: z})] *)
  d_loss : ndarray -> zsample -> pyfloat
}.
Arguments batch_size {rng zsample} _.
Arguments z_dim {rng zsample} _.
Arguments z_generator {rng zsample} _ _ _ _.
Arguments fake_images {rng zsample} _ _.
Arguments discriminator_output {rng zsample} _ _.
Arguments d_loss {rng zsample} _ _ _.

(** Everything the module imports or reads from its environment. *)
Class Collaborators : Type := {
  (** state of numpy's global random generator, latent samples *)
  rng : Type;
  zsample : Type;
  np_random_seed : Z -> rng;
  (** [np.random.choice(a, size)] *)
  np_random_choice : Z -> Z -> rng -> list nat * rng;
  (** [str] and [repr] of a float *)
  str_float : pyfloat -> string;
  repr_float : pyfloat -> string;
  (** [gan_lib.load_dataset(dataset, split_name, 1, 0)]: the images of the
      split, in reading order *)
  load_dataset : pyval -> string -> result ndarray;
  (** [params.GetDatasetParameters], [params.GetParameters] *)
  GetDatasetParameters : pyval -> result (gmap string pyval);
  GetParameters : string -> string -> gmap string pyval;
  (** [consts.MODELS_WITH_PENALTIES], [consts.GAN_WITH_PENALTY] *)
  MODELS_WITH_PENALTIES : list string;
  GAN_WITH_PENALTY : string;
  (** [gan_lib.create_gan], [build_model] and [saver.restore] on a
      checkpoint path *)
  restored_gan : gmap string pyval -> string -> GAN rng zsample;
  (** the metric libraries *)
  inception_score_fn : ndarray -> Z -> pyfloat;
  get_fid_function : ndarray -> ndarray -> Z -> pyfloat;
  get_kid_function : ndarray -> ndarray -> Z -> pyfloat;
  ms_ssim_metric : ndarray -> pyfloat;
  fractal_dimension_fit : ndarray -> Z -> Z -> pyfloat -> rng -> pyfloat * rng;
  TrainGILBO :
    GAN rng zsample -> gmap string pyval -> pyfloat * pyfloat * pyfloat * pyfloat;
  log_condition_number : GAN rng zsample -> zsample -> list pyfloat;
  np_std : list pyfloat -> pyfloat;
  (** [tf.train.get_checkpoint_state(checkpoint_dir)]: its
      [all_model_checkpoint_paths], or nothing when there is no state *)
  get_checkpoint_state : option (list string)
}.

(** ** Computations that use numpy's global random generator: its state is
    threaded; a raise leaves the state as it is at the raise *)

Definition M {world : Collaborators} (A : Type) : Type := rng -> result A * rng.

#[global] Instance M_ret {world : Collaborators} : MRet M := fun A x s => (inr x, s).
#[global] Instance M_bind {world : Collaborators} : MBind M :=
  fun A B f m s => match m s with (inl e, s') => (inl e, s') | (inr x, s') => f x s' end.

Definition lift {world : Collaborators} {A : Type} (r : result A) : M A :=
  fun s => (r, s).

Definition draw {world : Collaborators} {A : Type} (f : rng -> A * rng) : M A :=
  fun s => let '(x, s') := f s in (inr x, s').

(** ** [GetRealImages] *)

Definition GetRealImages {world : Collaborators} (dataset : pyval) (split_name : string)
    (num_examples : Z) (failure_on_insufficient_examples : bool) : result ndarray :=
  dataset_content ← load_dataset dataset split_name;
  (* read one image at a time until [num_examples] are read or the data ends *)
  let data_x := take (Z.to_nat num_examples) (rows dataset_content) in
  let real_images := with_rows dataset_content data_x in
  (if negb (shape0 real_images =? num_examples)
      && failure_on_insufficient_examples
   then raise (ValueError "Not enough examples in the dataset")
   else mret tt);;
  mret (scale (Fin 255) real_images).

(** ** [ComputeAccuracyLoss] *)

Definition ShouldRunAccuracyLossTrainVsTest {world : Collaborators}
    (options : gmap string pyval) : result bool :=
  gan_type ← getitem options "gan_type";
  mret (val_eqb gan_type GAN_WITH_PENALTY).

Definition discriminator_threshold : pyfloat := Fin (1 # 2).

(** [prediction[0]] for a prediction that is not empty. *)
Definition first_output {world : Collaborators} (gan : GAN rng zsample) (x : ndarray) : pyfloat :=
  default NaN (head (discriminator_output gan x)).

(** One pass of the loop over batches: the five lists it appends to. *)
Definition batch_step {world : Collaborators} (gan : GAN rng zsample)
    (test_images : ndarray) (train_images : ndarray) (train_subset : list image)
    (i : Z)
    (st : list pyfloat * list pyfloat * list pyfloat * list pyfloat * list pyfloat)
  : M (list pyfloat * list pyfloat * list pyfloat * list pyfloat * list pyfloat) :=
  let '(train_predictions, test_predictions, fake_predictions,
        train_d_losses, test_d_losses) := st in
  z_sample ← draw (z_generator gan (batch_size gan) (z_dim gan));
  let start_idx := i * batch_size gan in
  let end_idx := start_idx + batch_size gan in
  let test_batch := slice0 test_images start_idx end_idx in
  let train_batch := as_array train_images (py_slice train_subset start_idx end_idx) in
  let test_prediction := discriminator_output gan test_batch in
  let test_d_loss := d_loss gan test_batch z_sample in
  let fake_images := fake_images gan z_sample in
  p ← lift (first test_prediction);
  let test_predictions := test_predictions ++ [p] in
  let test_d_losses := test_d_losses ++ [test_d_loss] in
  let train_prediction := discriminator_output gan train_batch in
  let train_d_loss := d_loss gan train_batch z_sample in
  p ← lift (first train_prediction);
  let train_predictions := train_predictions ++ [p] in
  let train_d_losses := train_d_losses ++ [train_d_loss] in
  fake_prediction ← lift (first (discriminator_output gan fake_images));
  let fake_predictions := fake_predictions ++ [fake_prediction] in
  mret (train_predictions, test_predictions, fake_predictions,
        train_d_losses, test_d_losses).

(** A batch made of real images: every image of it is one of the test or of
    the train images. *)
Definition real_batch (test_images train_images x : ndarray) : Prop :=
  Forall (fun im => im ∈ rows test_images \/ im ∈ rows train_images) (rows x).

(** The average of the indicators [cmp(prediction[0], threshold)] over the
    inputs fed in the passes of one repeat. *)
Definition indicator_average {world : Collaborators} (gan : GAN rng zsample)
    (cmp : pyfloat -> pyfloat -> bool) (inputs : list ndarray) : pyfloat :=
  fdiv_count
    (fint (count_true
             (map (fun x => cmp (first_output gan x) discriminator_threshold) inputs)))
    (length inputs).

(** What is fed in the pass [i] of the loop over the batches: the test batch,
    the train batch and the latent sample. *)
Definition fed_in_pass {world : Collaborators} (gan : GAN rng zsample)
    (test_images train_images : ndarray) (train_subset : list image) (i : Z)
    (b : ndarray * ndarray * zsample) : Prop :=
  b.1.1 = slice0 test_images (i * batch_size gan) (i * batch_size gan + batch_size gan)
  /\ b.1.2 = as_array train_images
               (py_slice train_subset (i * batch_size gan)
                  (i * batch_size gan + batch_size gan)).

(** One pass of the loop over repeats. The lists [train_d_losses] and
    [test_d_losses] of the outer scope are the ones the pass rebinds to [[]]
    and fills with the losses of its batches. *)
Definition repeat_step {world : Collaborators} (gan : GAN rng zsample)
    (test_images : ndarray) (train_images : ndarray) (num_batches : Z)
    (repeat : Z)
    (st : list pyfloat * list pyfloat * list pyfloat * list pyfloat * list pyfloat)
  : M (list pyfloat * list pyfloat * list pyfloat * list pyfloat * list pyfloat) :=
  let '(train_accuracies, test_accuracies, fake_accuracies,
        train_d_losses, test_d_losses) := st in
  idx ← draw (np_random_choice (shape0 train_images) (shape0 test_images));
  train_subset ← lift (mapM (fun i => match rows train_images !! i with
                                      | Some im => inr im
                                      | None => raise IndexError
                                      end) idx);
  let train_predictions := [] in
  let test_predictions := [] in
  let fake_predictions := [] in
  let train_d_losses := [] in
  let test_d_losses := [] in
  '(train_predictions, test_predictions, fake_predictions,
    train_d_losses, test_d_losses) ←
    for_each (range num_batches)
      (batch_step gan test_images train_images train_subset)
      (train_predictions, test_predictions, fake_predictions,
       train_d_losses, test_d_losses);
  let train_predictions :=
    map (fun x => fge x discriminator_threshold) train_predictions in
  let test_predictions :=
    map (fun x => fge x discriminator_threshold) test_predictions in
  let fake_predictions :=
    map (fun x => flt x discriminator_threshold) fake_predictions in
  train_accuracy ← lift (fraction_true train_predictions);
  test_accuracy ← lift (fraction_true test_predictions);
  fake_accuracy ← lift (fraction_true fake_predictions);
  let train_d_loss := np_mean train_d_losses in
  let test_d_loss := np_mean test_d_losses in
  let train_accuracies := train_accuracies ++ [train_accuracy] in
  let test_accuracies := test_accuracies ++ [test_accuracy] in
  let fake_accuracies := fake_accuracies ++ [fake_accuracy] in
  let train_d_losses := train_d_losses ++ [train_d_loss] in
  let test_d_losses := test_d_losses ++ [test_d_loss] in
  mret (train_accuracies, test_accuracies, fake_accuracies,
        train_d_losses, test_d_losses).

Definition ComputeAccuracyLoss {world : Collaborators} (options : gmap string pyval)
    (gan : GAN rng zsample) (test_images : ndarray)
    (max_train_examples : Z) (num_repeat : Z) : M (gmap string pyfloat) :=
  dataset ← lift (getitem options "dataset");
  train_images ← lift (GetRealImages dataset "train" max_train_examples false);
  (if shape0 train_images <? shape0 test_images
   then lift (raise (ValueError "num_train must be larger than num_test."))
   else mret tt);;
  num_batches ← lift (floordiv (shape0 test_images) (batch_size gan));
  let train_accuracies := [] in
  let test_accuracies := [] in
  let fake_accuracies := [] in
  let train_d_losses := [] in
  let test_d_losses := [] in
  '(train_accuracies, test_accuracies, fake_accuracies,
    train_d_losses, test_d_losses) ←
    for_each (range num_repeat)
      (repeat_step gan test_images train_images num_batches)
      (train_accuracies, test_accuracies, fake_accuracies,
       train_d_losses, test_d_losses);
  let result_dict : gmap string pyfloat := ∅ in
  let result_dict := <["train_accuracy" := np_mean train_accuracies]> result_dict in
  let result_dict := <["test_accuracy" := np_mean test_accuracies]> result_dict in
  let result_dict := <["fake_accuracy" := np_mean fake_accuracies]> result_dict in
  let result_dict := <["train_d_loss" := np_mean train_d_losses]> result_dict in
  let result_dict := <["test_d_loss" := np_mean test_d_losses]> result_dict in
  mret result_dict.

(** ** Metrics on materialized images *)

Definition NAN_DETECTED : pyfloat := Fin 31337.
Definition INCEPTION_BATCH : Z := 50.

Definition SUPPORTED_GANS {world : Collaborators} : list string :=
  ["GAN"; "GAN_MINMAX"; "WGAN"; "WGAN_GP"; "DRAGAN"; "LSGAN"; "VAE"; "BEGAN"]
    ++ MODELS_WITH_PENALTIES.

Definition GetInceptionScore {world : Collaborators} (fake_images : ndarray) : result pyfloat :=
  py_assert (channels fake_images =? 3)%nat;;
  let num_images := shape0 fake_images in
  py_assert (num_images mod INCEPTION_BATCH =? 0);;
  mret (inception_score_fn fake_images (num_images / INCEPTION_BATCH)).

(** The assertions shared by [ComputeKIDScore] and [ComputeTFGanFIDScore];
    the result is [ratio]. *)
Definition real_fake_ratio (fake_images real_images : ndarray) : result Z :=
  py_assert (channels fake_images =? 3)%nat;;
  py_assert (channels real_images =? 3)%nat;;
  let bs_real := shape0 real_images in
  let bs_fake := shape0 fake_images in
  py_assert (bs_real mod INCEPTION_BATCH =? 0);;
  py_assert (bs_fake mod INCEPTION_BATCH =? 0);;
  ok ← (if bs_real >=? bs_fake
        then m ← pymod bs_real bs_fake; mret (m =? 0)
        else mret false);
  py_assert ok;;
  floordiv bs_real bs_fake.

Definition ComputeKIDScore {world : Collaborators} (fake_images real_images : ndarray)
  : result pyfloat :=
  ratio ← real_fake_ratio fake_images real_images;
  mret (get_kid_function fake_images real_images ratio).

Definition ComputeTFGanFIDScore {world : Collaborators} (fake_images real_images : ndarray)
  : result pyfloat :=
  ratio ← real_fake_ratio fake_images real_images;
  mret (get_fid_function fake_images real_images ratio).

Definition ShouldRunMultiscaleSSIM (options : gmap string pyval) : result bool :=
  let msssim_datasets := ["celeba"; "celebahq128"] in
  dataset ← getitem options "dataset";
  mret (val_in dataset msssim_datasets).

Definition ComputeMultiscaleSSIMScore {world : Collaborators} (fake_images : ndarray) : pyfloat :=
  ms_ssim_metric fake_images.

(** The assertions of [ComputeFractalDimension]; the numerical part (pairwise
    distances, log-log least squares) is the collaborator
    [fractal_dimension_fit]. *)
Definition ComputeFractalDimension {world : Collaborators} (fake_images : ndarray)
    (num_fd_seeds n_bins : Z) (scale : pyfloat) : M pyfloat :=
  lift (py_assert (shape0 fake_images >=? num_fd_seeds));;
  draw (fractal_dimension_fit fake_images num_fd_seeds n_bins scale).

Definition ComputeGeneratorConditionNumber {world : Collaborators} (gan : GAN rng zsample)
  : M (list pyfloat) :=
  z_sample ← draw (z_generator gan (batch_size gan) (z_dim gan));
  mret (log_condition_number gan z_sample).

(** ** Evaluation tasks *)

Record EvalTask {world : Collaborators} : Type := MkEvalTask {
  MetricsList : gset string;
  RunInSession :
    gmap string pyval -> GAN rng zsample -> ndarray -> M (gmap string pyfloat);
  RunAfterSession :
    gmap string pyval -> ndarray -> ndarray -> M (gmap string pyfloat)
}.

(** The hooks of the base class. *)
Definition RunInSession_base {world : Collaborators}
  : gmap string pyval -> GAN rng zsample -> ndarray -> M (gmap string pyfloat) :=
  fun _ _ _ => mret ∅.

Definition RunAfterSession_base {world : Collaborators}
  : gmap string pyval -> ndarray -> ndarray -> M (gmap string pyfloat) :=
  fun _ _ _ => mret ∅.

Definition InceptionScoreTask {world : Collaborators} : EvalTask :=
  MkEvalTask _ {["inception_score"]} RunInSession_base
    (fun options fake_images real_images =>
       score ← lift (GetInceptionScore fake_images);
       mret (<["inception_score" := score]> ∅)).

Definition FIDScoreTask {world : Collaborators} : EvalTask :=
  MkEvalTask _ {["fid_score"]} RunInSession_base
    (fun options fake_images real_images =>
       score ← lift (ComputeTFGanFIDScore fake_images real_images);
       mret (<["fid_score" := score]> ∅)).

Definition KIDScoreTask {world : Collaborators} : EvalTask :=
  MkEvalTask _ {["kid_score"]} RunInSession_base
    (fun options fake_images real_images =>
       if truthy (dict_get options "compute_kid_score" (VBool false))
       then score ← lift (ComputeKIDScore fake_images real_images);
            mret (<["kid_score" := score]> ∅)
       else mret ∅).

Definition MultiscaleSSIMTask {world : Collaborators} : EvalTask :=
  MkEvalTask _ {["ms_ssim"]} RunInSession_base
    (fun options fake_images real_images =>
       run ← lift (ShouldRunMultiscaleSSIM options);
       if run : bool
       then mret (<["ms_ssim" := ComputeMultiscaleSSIMScore fake_images]> ∅)
       else mret ∅).

Definition ComputeAccuracyTask {world : Collaborators} : EvalTask :=
  MkEvalTask _
    (list_to_set ["train_accuracy"; "test_accuracy"; "fake_accuracy";
                  "train_d_loss"; "test_d_loss"])
    (fun options gan real_images =>
       run ← lift (ShouldRunAccuracyLossTrainVsTest options);
       if run : bool
       then ComputeAccuracyLoss options gan real_images 50000 5
       else mret ∅)
    RunAfterSession_base.

Definition FractalDimensionTask {world : Collaborators} : EvalTask :=
  MkEvalTask _ {["fractal_dimension"]} RunInSession_base
    (fun options fake_images real_images =>
       if truthy (dict_get options "compute_fractal_dimension" (VBool false))
       then d ← ComputeFractalDimension fake_images 100 1000 (Fin (1 # 10));
            mret (<["fractal_dimension" := d]> ∅)
       else mret ∅).

Definition GILBOTask {world : Collaborators} (dataset_name : pyval) : EvalTask :=
  MkEvalTask _
    (list_to_set ["gilbo"; "gilbo_train_consistency"; "gilbo_eval_consistency";
                  "gilbo_self_consistency"])
    (fun options gan real_images =>
       if truthy (dict_get options "compute_gilbo" (VBool false))
       then
         let '(gilbo, gilbo_train_consistency, gilbo_eval_consistency,
               gilbo_self_consistency) := TrainGILBO gan options in
         let result_dict : gmap string pyfloat := ∅ in
         let result_dict := <["gilbo" := gilbo]> result_dict in
         let result_dict :=
           <["gilbo_train_consistency" := gilbo_train_consistency]> result_dict in
         let result_dict :=
           <["gilbo_eval_consistency" := gilbo_eval_consistency]> result_dict in
         let result_dict :=
           <["gilbo_self_consistency" := gilbo_self_consistency]> result_dict in
         mret result_dict
       else mret ∅)
    RunAfterSession_base.

Definition GeneratorConditionNumberTask {world : Collaborators} : EvalTask :=
  MkEvalTask _
    (list_to_set ["log_condition_number_count"; "log_condition_number_mean";
                  "log_condition_number_std"])
    (fun options gan real_images =>
       if truthy (dict_get options "compute_generator_condition_number" (VBool false))
       then
         result ← ComputeGeneratorConditionNumber gan;
         let result_dict : gmap string pyfloat := ∅ in
         let result_dict :=
           <["log_condition_number_count" := fint (Z.of_nat (length result))]>
             result_dict in
         let result_dict :=
           <["log_condition_number_mean" := np_mean result]> result_dict in
         let result_dict :=
           <["log_condition_number_std" := np_std result]> result_dict in
         mret result_dict
       else mret ∅)
    RunAfterSession_base.

(** ** [RunCheckpointEval] *)

(** [np.random.seed(seed)] *)
Definition np_seed {world : Collaborators} (seed : Z) : M unit :=
  fun _ => (inr tt, np_random_seed seed).

(** The number of test examples: the option or 10000, brought down to a
    multiple of the inception batch. *)
Definition target_test_examples (dataset_params : gmap string pyval) : result Z :=
  num_test_examples ← as_int (dict_get dataset_params "eval_test_samples" (VInt 10000));
  if negb (num_test_examples mod INCEPTION_BATCH =? 0)
  then mret (num_test_examples - num_test_examples mod INCEPTION_BATCH)
  else mret num_test_examples.

(** The loop that generates the fake images, batch by batch. *)
Definition generate_step {world : Collaborators} (gan : GAN rng zsample)
    (_ : Z) (samples : list ndarray) : M (list ndarray) :=
  z_sample ← draw (z_generator gan (batch_size gan) (z_dim gan));
  let x := fake_images gan z_sample in
  if isnan_any x
  then lift (raise (NanFoundError "Detected NaN in fake images."))
  else mret (samples ++ [x]).

Definition generate_samples {world : Collaborators} (gan : GAN rng zsample)
    (num_test_examples : Z) : M (list ndarray) :=
  num_batches ← lift (ceildiv num_test_examples (batch_size gan));
  for_each (range num_batches) (generate_step gan) [].

Definition run_in_session {world : Collaborators} (tasks_to_run : list EvalTask)
    (options : gmap string pyval) (gan : GAN rng zsample) (real_images : ndarray)
    (result_dict : gmap string pyfloat) : M (gmap string pyfloat) :=
  for_each tasks_to_run
    (fun task result_dict =>
       r ← RunInSession task options gan real_images;
       mret (dict_update result_dict r))
    result_dict.

Definition run_after_session {world : Collaborators} (tasks_to_run : list EvalTask)
    (options : gmap string pyval) (fake_images real_images : ndarray)
    (result_dict : gmap string pyfloat) : M (gmap string pyfloat) :=
  for_each tasks_to_run
    (fun task result_dict =>
       r ← RunAfterSession task options fake_images real_images;
       mret (dict_update result_dict r))
    result_dict.

(** From the generated batches to the two populations handed to the
    [RunAfterSession] hooks. *)
Definition materialize (samples : list ndarray) (real_images : ndarray)
    (num_test_examples : Z) : result (ndarray * ndarray) :=
  fake_images ← np_concatenate samples;
  let fake_images := truncate fake_images num_test_examples in
  py_assert (shape_eqb fake_images real_images);;
  let '(fake_images, real_images) :=
    if (channels fake_images =? 1)%nat
    then (tile_channels fake_images, tile_channels real_images)
    else (fake_images, real_images) in
  let fake_images := scale (Fin 255) fake_images in
  mret (fake_images, real_images).

(** [RunCheckpointEval] up to the point where the [RunAfterSession] hooks
    start: the results of the session and the two populations. *)
Definition eval_populations {world : Collaborators} (checkpoint_path : string)
    (options : gmap string pyval) (tasks_to_run : list EvalTask)
  : M (gmap string pyfloat * ndarray * ndarray) :=
  np_seed 42;;
  gan_type ← lift (getitem options "gan_type");
  (if negb (val_in gan_type SUPPORTED_GANS)
   then lift (raise (ValueError "Gan type is not supported."))
   else mret tt);;
  dataset ← lift (getitem options "dataset");
  dataset_params ← lift (GetDatasetParameters dataset);
  let dataset_params := dict_update dataset_params options in
  num_test_examples ← lift (target_test_examples dataset_params);
  dataset' ← lift (getitem options "dataset");
  real_images ← lift (GetRealImages dataset' "test" num_test_examples true);
  let result_dict : gmap string pyfloat := ∅ in
  let gan := restored_gan options checkpoint_path in
  samples ← generate_samples gan num_test_examples;
  result_dict ← run_in_session tasks_to_run options gan real_images result_dict;
  '(fake_images, real_images) ←
    lift (materialize samples real_images num_test_examples);
  mret (result_dict, fake_images, real_images).

Definition RunCheckpointEval {world : Collaborators} (checkpoint_path : string)
    (options : gmap string pyval) (tasks_to_run : list EvalTask)
  : M (gmap string pyfloat) :=
  '(result_dict, fake_images, real_images) ←
    eval_populations checkpoint_path options tasks_to_run;
  run_after_session tasks_to_run options fake_images real_images result_dict.

(** ** The score table *)

Definition DEFAULT_VALUES : gmap string pyval :=
  list_to_map
    [("weight_clipping", VFloat (Fin (-1)));
     ("y_dim", VInt (-1));
     ("lambda", VFloat (Fin (-1)));
     ("disc_iters", VInt (-1));
     ("beta1", VFloat (Fin (-1)));
     ("beta2", VFloat (Fin (-1)));
     ("gamma", VFloat (Fin (-1)));
     ("penalty_type", VStr "none");
     ("discriminator_spectralnorm", VBool false);
     ("architecture", VStr "unknown")].

(** [str(v)], and the text [csv.writer] puts in a field for [v] (it uses
    [repr] on floats). *)
Definition py_str {world : Collaborators} (v : pyval) : string :=
  match v with
  | VStr s => s
  | VInt z => pretty z
  | VBool b => if b then "True" else "False"
  | VFloat x => str_float x
  end.

Definition csv_str {world : Collaborators} (v : pyval) : string :=
  match v with
  | VFloat x => repr_float x
  | _ => py_str v
  end.

Definition GetAllTrainingParams {world : Collaborators} : list string :=
  let all_params : gset string := {["architecture"]} in
  let all_params :=
    foldl (fun all_params gan_type =>
             foldl (fun (all_params : gset string) (_ : string) =>
                      let p := GetParameters gan_type "wide" in
                      all_params ∪ dom p)
                   all_params ["mnist"; "fashion-mnist"; "cifar10"; "celeba"])
          all_params SUPPORTED_GANS in
  sorted (elements all_params).

(** The content of a CSV file: its records, the first one being the header.
    The text encoding of records (quoting, line ends) is not modelled. *)
Definition csv_content : Type := list (list string).

(** [csv.DictReader]: a row is a dictionary from the field names to the
    fields; fields beyond the field names go under the key [None], missing
    fields are [None]. Blank records are skipped. *)
Inductive cell : Type :=
| CStr (s : string)
| CNone
| CRest (l : list string).

Definition DictReader_row (fieldnames row : list string) : gmap (option string) cell :=
  let d : gmap (option string) cell :=
    foldl (fun d kv => <[Some kv.1 := CStr kv.2]> d) ∅ (zip fieldnames row) in
  let lf := length fieldnames in
  let lr := length row in
  if (lf <? lr)%nat then <[None := CRest (drop lf row)]> d
  else if (lr <? lf)%nat
       then foldl (fun d key => <[Some key := CNone]> d) d (drop lr fieldnames)
       else d.

Definition DictReader (content : csv_content) : list (gmap (option string) cell) :=
  match content with
  | [] => []
  | fieldnames :: records =>
      DictReader_row fieldnames <$> filter (fun row => row ≠ []) records
  end.

(** Order of the keys of a row under [sorted]: [None] is below every string. *)
Definition key_le (a b : option string) : Prop :=
  match a, b with
  | None, _ => True
  | Some _, None => False
  | Some s, Some t => string_le s t
  end.

#[global] Instance key_le_dec : RelDecision key_le.
Proof.
  intros [s|] [t|]; simpl; apply _.
Defined.

Definition sorted_keys (l : list (option string)) : list (option string) :=
  merge_sort key_le l.

(** The body of the loop over the rows of the table. *)
Definition check_row (csv_header : list string) (row : gmap (option string) cell)
    (finished_checkpoints : gset (option string)) : result (gset (option string)) :=
  if bool_decide (Some <$> sorted csv_header ≠ sorted_keys (elements (dom row)))
  then raise (ValueError "wrong csv keys.")
  else
    match row !! Some "checkpoint_path" with
    | None => raise (KeyError "checkpoint_path")
    | Some (CStr s) => mret (finished_checkpoints ∪ {[Some s]})
    | Some CNone => mret (finished_checkpoints ∪ {[None]})
    | Some (CRest _) => raise (TypeError "unhashable type: 'list'")
    end.

(** ** The sweep: the scores file, numpy's random state, and a log of the
    checkpoints handed to [RunCheckpointEval] *)

Record sweep_state {world : Collaborators} : Type := MkSweepState {
  scores_file : option csv_content;
  np_random : rng;
  evaluated : list string
}.

Definition Sweep {world : Collaborators} (A : Type) : Type :=
  sweep_state -> result A * sweep_state.

#[global] Instance Sweep_ret {world : Collaborators} : MRet Sweep := fun A x st => (inr x, st).
#[global] Instance Sweep_bind {world : Collaborators} : MBind Sweep :=
  fun A B f m st =>
    match m st with (inl e, st') => (inl e, st') | (inr x, st') => f x st' end.

Definition lift_result {world : Collaborators} {A : Type} (r : result A) : Sweep A :=
  fun st => (r, st).

(** [tf.gfile.Exists(scores_path)] *)
Definition file_exists {world : Collaborators} : Sweep bool :=
  fun st => (inr (bool_decide (is_Some (scores_file st))), st).

(** Open for writing and [DictWriter.writeheader()] *)
Definition write_header {world : Collaborators} (csv_header : list string) : Sweep unit :=
  fun st => (inr tt, MkSweepState _ (Some [csv_header]) (np_random st) (evaluated st)).

(** The records of the file. *)
Definition read_records {world : Collaborators} : Sweep csv_content :=
  fun st => (inr (default [] (scores_file st)), st).

(** [writer.writerow(row)] on the file opened for appending, and [f.flush()] *)
Definition append_row {world : Collaborators} (row : list string) : Sweep unit :=
  fun st => (inr tt, MkSweepState _ (Some (default [] (scores_file st) ++ [row]))
                       (np_random st) (evaluated st)).

(** The call of [RunCheckpointEval] with its [except NanFoundError]: the
    result dictionary and the default value of the metrics. *)
Definition try_RunCheckpointEval {world : Collaborators} (checkpoint_path : string)
    (options : gmap string pyval) (tasks_to_run : list EvalTask)
  : Sweep (gmap string pyfloat * pyfloat) :=
  fun st =>
    let default_value := Fin (-1) in
    let '(r, s) := RunCheckpointEval checkpoint_path options tasks_to_run (np_random st) in
    let st' := MkSweepState _ (scores_file st) s (evaluated st ++ [checkpoint_path]) in
    match r with
    | inr result_dict => (inr (result_dict, default_value), st')
    | inl (NanFoundError _) => (inr (∅, NAN_DETECTED), st')
    | inl e => (inl e, st')
    end.

Definition output_row {world : Collaborators} (options : gmap string pyval)
    (checkpoint_path : string) (task_headers train_params : list string)
    (result_dict : gmap string pyfloat) (default_value : pyfloat)
  : result (list string) :=
  let tf_seed := py_str (dict_get options "tf_seed" (VInt (-1))) in
  let sample_id := py_str (dict_get options "sample_id" (VInt (-1))) in
  gan_type ← getitem options "gan_type";
  dataset ← getitem options "dataset";
  let output_row :=
    [checkpoint_path; csv_str gan_type; csv_str dataset; tf_seed; sample_id] in
  let output_row :=
    foldl (fun output_row task_metric =>
             output_row ++ [format_3f (dict_get result_dict task_metric default_value)])
          output_row task_headers in
  for_each train_params
    (fun param output_row =>
       match options !! param with
       | Some v => mret (output_row ++ [csv_str v])
       | None => v ← getitem DEFAULT_VALUES param; mret (output_row ++ [py_str v])
       end)
    output_row.

(** The body of the loop over the checkpoints. *)
Definition sweep_step {world : Collaborators} (options : gmap string pyval)
    (tasks_to_run : list EvalTask) (task_headers train_params : list string)
    (finished_checkpoints : gset (option string))
    (checkpoint_path : string) (_ : unit) : Sweep unit :=
  if bool_decide (Some checkpoint_path ∈ finished_checkpoints)
  then mret tt
  else
    '(result_dict, default_value) ←
      try_RunCheckpointEval checkpoint_path options tasks_to_run;
    output_row ← lift_result (output_row options checkpoint_path task_headers
                                train_params result_dict default_value);
    append_row output_row.

Definition tasks_for {world : Collaborators} (options : gmap string pyval)
  : result (list EvalTask) :=
  dataset ← getitem options "dataset";
  mret [InceptionScoreTask; FIDScoreTask; MultiscaleSSIMTask; ComputeAccuracyTask;
        FractalDimensionTask; KIDScoreTask; GeneratorConditionNumberTask;
        GILBOTask dataset].

Definition task_headers_of {world : Collaborators} (tasks_to_run : list EvalTask) : list string :=
  foldl (fun task_headers task => task_headers ++ sorted (elements (MetricsList task)))
        [] tasks_to_run.

Definition csv_header_of {world : Collaborators} (tasks_to_run : list EvalTask) : list string :=
  let csv_header := ["checkpoint_path"; "model"; "dataset"; "tf_seed"; "sample_id"] in
  let csv_header := csv_header ++ task_headers_of tasks_to_run in
  csv_header ++ GetAllTrainingParams.

(** The records already computed, with the [except ValueError] that rewrites
    the file. *)
Definition finished_checkpoints_of {world : Collaborators} (csv_header : list string)
  : Sweep (gset (option string)) :=
  records ← read_records;
  match for_each (DictReader records) (check_row csv_header) (∅ : gset (option string)) with
  | inr finished_checkpoints => mret finished_checkpoints
  | inl (ValueError _) => write_header csv_header;; mret ∅
  | inl e => lift_result (raise e)
  end.

Definition RunTaskEval {world : Collaborators} (options : gmap string pyval) : Sweep unit :=
  tasks_to_run ← lift_result (tasks_for options);
  let task_headers := task_headers_of tasks_to_run in
  let train_params := GetAllTrainingParams in
  let csv_header := csv_header_of tasks_to_run in
  file_present ← file_exists;
  (if negb file_present then write_header csv_header else mret tt);;
  finished_checkpoints ← finished_checkpoints_of csv_header;
  all_checkpoint_paths ← lift_result (match get_checkpoint_state with
                                      | Some paths => inr paths
                                      | None => raise AttributeError
                                      end);
  for_each all_checkpoint_paths
    (sweep_step options tasks_to_run task_headers train_params finished_checkpoints)
    tt.

(** ** Statements about the score table *)

(** The header as the specification words it: the fixed columns, all the
    metric names in sorted order, the hyperparameter names in sorted order. *)
Definition spec_csv_header {world : Collaborators} (tasks_to_run : list EvalTask)
  : list string :=
  ["checkpoint_path"; "model"; "dataset"; "tf_seed"; "sample_id"]
    ++ sorted (elements (⋃ (MetricsList <$> tasks_to_run)))
    ++ GetAllTrainingParams.

(** A table with the expected header whose rows all have one field per
    column. *)
Definition well_formed_table (csv_header : list string) (content : csv_content) : Prop :=
  exists records,
    content = csv_header :: records
    /\ Forall (fun row : list string => length row = length csv_header) records.

(** The checkpoint paths recorded in the rows of a table. *)
Definition recorded_paths (content : csv_content) : gset (option string) :=
  list_to_set (head <$> drop 1 content).

Definition is_digit (a : Ascii.ascii) : bool :=
  (48 <=? Ascii.N_of_ascii a)%N && (Ascii.N_of_ascii a <=? 57)%N.

(** The state of the sweep after a checkpoint is evaluated and its row is
    written. *)
Definition after_row {world : Collaborators} (st : sweep_state)
    (checkpoint_path : string) (row : list string) (s : rng) : sweep_state :=
  MkSweepState _ (Some (default [] (scores_file st) ++ [row])) s
    (evaluated st ++ [checkpoint_path]).

(** The state with the scores file replaced. *)
Definition with_file {world : Collaborators} (st : sweep_state)
    (content : csv_content) : sweep_state :=
  MkSweepState _ (Some content) (np_random st) (evaluated st).

(** The checkpoints a sweep has to evaluate. *)
Definition pending (finished : gset (option string)) (paths : list string)
  : list string :=
  filter (fun checkpoint_path => Some checkpoint_path ∉ finished) paths.

(** ** A small concrete environment

    A toy dataset of 1x1 single-channel images, a generator whose images are
    dark (or NaN for the checkpoint ["ckpt-nan"]) and a discriminator that
    separates bright from dark. The random state is a counter. *)

Definition toy_image (v : pyfloat) : image := fun _ _ _ => v.

Definition toy_array (n : nat) (v : pyfloat) : ndarray :=
  NdArray (replicate n (toy_image v)) 1 1 1.

Definition toy_str_float (x : pyfloat) : string :=
  match x with
  | Fin q => if (Zpos (Qden q) =? 1) then pretty (Qnum q) +:+ ".0" else format_3f x
  | _ => format_3f x
  end.

Definition toy_gan (checkpoint_path : string) : GAN nat nat :=
  MkGAN nat nat 64 8
    (fun _ _ s => (s, S s))
    (fun _ => toy_array 64 (if String.eqb checkpoint_path "ckpt-nan"
                            then NaN else Fin (1 # 4)))
    (fun x => map (fun im : image => if fge (im 0 0 0)%nat (Fin 100)
                                     then Fin 1 else Fin 0) (rows x))
    (fun _ z => fint (2 * Z.of_nat z)).

#[local] Instance toy_world : Collaborators := {|
  rng := nat;
  zsample := nat;
  np_random_seed := fun _ => 1%nat;
  np_random_choice := fun a size s => (seq 0 (Z.to_nat size), s);
  str_float := toy_str_float;
  repr_float := toy_str_float;
  load_dataset := fun dataset split_name =>
    if val_eqb dataset "toy"
    then inr (toy_array (if String.eqb split_name "test" then 130 else 150) (Fin 1))
    else raise (ValueError "unknown dataset");
  GetDatasetParameters := fun _ => inr ∅;
  GetParameters := fun _ _ =>
    <["lambda" := VFloat (Fin 1)]> (<["learning_rate" := VFloat (Fin (1 # 10))]> ∅);
  MODELS_WITH_PENALTIES := ["GAN_PENALTY"; "WGAN_PENALTY"];
  GAN_WITH_PENALTY := "GAN_PENALTY";
  restored_gan := fun _ checkpoint_path => toy_gan checkpoint_path;
  inception_score_fn := fun _ _ => Fin 2;
  get_fid_function := fun _ _ _ => Fin (7 # 2);
  get_kid_function := fun _ _ _ => Fin (1 # 8);
  ms_ssim_metric := fun _ => Fin (1 # 2);
  fractal_dimension_fit := fun _ _ _ _ s => (Fin 2, s);
  TrainGILBO := fun _ _ => (Fin 0, Fin 0, Fin 0, Fin 0);
  log_condition_number := fun _ _ => [Fin 1];
  np_std := fun _ => Fin 0;
  get_checkpoint_state := Some ["ckpt-1"; "ckpt-nan"; "ckpt-3"]
|}.

Definition toy_options : gmap string pyval :=
  list_to_map
    [("gan_type", VStr "GAN_PENALTY");
     ("dataset", VStr "toy");
     ("eval_test_samples", VInt 120);
     ("learning_rate", VFloat (Fin (1 # 10)))].

Definition toy_start : sweep_state := MkSweepState _ None 0%nat [].

(** Test images of the toy environment, already scaled to 0..255, and the
    train images [GetRealImages] obtains. *)
Definition toy_test (n : nat) : ndarray := toy_array n (Fin 255).

Definition toy_train : ndarray :=
  match GetRealImages (VStr "toy") "train" 50000 false with
  | inr train_images => train_images
  | inl _ => toy_array 0 NaN
  end.

Definition toy_tasks : list EvalTask :=
  match tasks_for toy_options with
  | inr tasks_to_run => tasks_to_run
  | inl _ => []
  end.

(** Two generated batches and what [materialize] makes of them. *)
Definition toy_samples : list ndarray :=
  [toy_array 64 (Fin (1 # 4)); toy_array 64 (Fin (1 # 4))].

Definition toy_materialized : ndarray * ndarray :=
  match materialize toy_samples (toy_test 100) 100 with
  | inr populations => populations
  | inl _ => (toy_array 0 NaN, toy_array 0 NaN)
  end.

(** The state a first sweep leaves on the toy environment, and a state whose
    scores file holds only a header that is not the expected one. *)
Definition toy_after_sweep : sweep_state := (RunTaskEval toy_options toy_start).2.

Definition toy_stale_start : sweep_state := with_file toy_start [["a"; "b"]].


(** ** Statements about the metrics *)

(** What the assertions shared by the FID and the KID score ask of the two
    populations. *)
Definition populations_accepted (fake_images real_images : ndarray) : Prop :=
  channels fake_images = 3%nat /\ channels real_images = 3%nat
  /\ shape0 real_images mod INCEPTION_BATCH = 0
  /\ shape0 fake_images mod INCEPTION_BATCH = 0
  /\ 0 < shape0 fake_images <= shape0 real_images
  /\ shape0 real_images mod shape0 fake_images = 0.


(** ** More of the small environment: options of a model type without the
    accuracy task *)

Definition toy_plain_options : gmap string pyval :=
  <["gan_type" := VStr "GAN"]> toy_options.

(** ** Statements about the accuracies *)

(** A finite value between 0 and 1. *)
Definition is_fraction (x : pyfloat) : Prop :=
  exists q, x = Fin q /\ (0 <= q <= 1)%Q.

(** The dictionary [ComputeAccuracyLoss] returns when it has no repeat to
    average over. *)
Definition all_nan_result : gmap string pyfloat :=
  <["test_d_loss" := NaN]> (<["train_d_loss" := NaN]>
    (<["fake_accuracy" := NaN]> (<["test_accuracy" := NaN]>
      (<["train_accuracy" := NaN]> ∅)))).

(** Options with a model type that is not supported, and a scores file with
    one row under a header that is not the expected one. *)
Definition toy_unsupported_options : gmap string pyval :=
  <["gan_type" := VStr "FOO"]> toy_options.

Definition toy_drifted_start : sweep_state :=
  with_file toy_start [["a"; "b"]; ["x"; "y"]].

(** The small environment with no checkpoint state in the work directory. *)
Definition toy_world_without_state : Collaborators := {|
  rng := nat;
  zsample := nat;
  np_random_seed := fun _ => 1%nat;
  np_random_choice := fun a size s => (seq 0 (Z.to_nat size), s);
  str_float := toy_str_float;
  repr_float := toy_str_float;
  load_dataset := fun dataset split_name =>
    if val_eqb dataset "toy"
    then inr (toy_array (if String.eqb split_name "test" then 130 else 150) (Fin 1))
    else raise (ValueError "unknown dataset");
  GetDatasetParameters := fun _ => inr ∅;
  GetParameters := fun _ _ =>
    <["lambda" := VFloat (Fin 1)]> (<["learning_rate" := VFloat (Fin (1 # 10))]> ∅);
  MODELS_WITH_PENALTIES := ["GAN_PENALTY"; "WGAN_PENALTY"];
  GAN_WITH_PENALTY := "GAN_PENALTY";
  restored_gan := fun _ checkpoint_path => toy_gan checkpoint_path;
  inception_score_fn := fun _ _ => Fin 2;
  get_fid_function := fun _ _ _ => Fin (7 # 2);
  get_kid_function := fun _ _ _ => Fin (1 # 8);
  ms_ssim_metric := fun _ => Fin (1 # 2);
  fractal_dimension_fit := fun _ _ _ _ s => (Fin 2, s);
  TrainGILBO := fun _ _ => (Fin 0, Fin 0, Fin 0, Fin 0);
  log_condition_number := fun _ _ => [Fin 1];
  np_std := fun _ => Fin 0;
  get_checkpoint_state := None
|}.

(** Options that ask for fewer test examples than one Inception batch. *)
Definition toy_small_options : gmap string pyval :=
  <["eval_test_samples" := VInt 30]> toy_plain_options.
(** * Properties *)

(** ** Formatting *)

Example format_3f_sentinel : format_3f (Fin 31337) = "31337.000".
Proof. vm_compute. reflexivity. Qed.
Example format_3f_default : format_3f (Fin (-1)) = "-1.000".
Proof. vm_compute. reflexivity. Qed.
Example format_3f_half_even : format_3f (Fin (25 # 2000)) = "0.012".
Proof. vm_compute. reflexivity. Qed.
Example format_3f_round : format_3f (Fin (12346 # 10000)) = "1.235".
Proof. vm_compute. reflexivity. Qed.

(** ** The order on strings *)

Lemma ascii_compare_lt_trans (a b c : Ascii.ascii) :
  Ascii.compare a b = Lt -> Ascii.compare b c = Lt -> Ascii.compare a c = Lt.
Proof.
  unfold Ascii.compare. rewrite !N.compare_lt_iff. lia.
Qed.

Lemma ascii_compare_refl (a : Ascii.ascii) : Ascii.compare a a = Eq.
Proof. unfold Ascii.compare. apply N.compare_refl. Qed.

Lemma string_compare_refl (s : string) : String.compare s s = Eq.
Proof. induction s as [|a s IH]; simpl; [done|]. by rewrite ascii_compare_refl. Qed.

Lemma string_compare_lt_trans (s t u : string) :
  String.compare s t = Lt -> String.compare t u = Lt -> String.compare s u = Lt.
Proof.
  revert t u. induction s as [|a s IH]; intros [|b t] [|c u]; simpl; try done.
  destruct (Ascii.compare a b) eqn:Hab; try done;
    destruct (Ascii.compare b c) eqn:Hbc; try done.
  - apply Ascii.compare_eq_iff in Hab, Hbc. subst.
    rewrite ascii_compare_refl. apply IH.
  - apply Ascii.compare_eq_iff in Hab. subst. rewrite Hbc. done.
  - apply Ascii.compare_eq_iff in Hbc. subst. rewrite Hab. done.
  - rewrite (ascii_compare_lt_trans _ _ _ Hab Hbc). done.
Qed.

#[global] Instance string_le_total : Total string_le.
Proof. intros s t. apply String.leb_total. Qed.

#[global] Instance string_le_antisym : AntiSymm (=) string_le.
Proof. intros s t. apply String.leb_antisym. Qed.

#[global] Instance string_le_trans : Transitive string_le.
Proof.
  intros s t u. unfold string_le, String.leb.
  destruct (String.compare s t) eqn:Hst; try done;
    destruct (String.compare t u) eqn:Htu; try done; intros _ _.
  - apply String.compare_eq_iff in Hst, Htu. subst.
    by rewrite string_compare_refl.
  - apply String.compare_eq_iff in Hst. subst. by rewrite Htu.
  - apply String.compare_eq_iff in Htu. subst. by rewrite Hst.
  - by rewrite (string_compare_lt_trans _ _ _ Hst Htu).
Qed.

#[global] Instance key_le_total : Total key_le.
Proof. intros [s|] [t|]; simpl; auto. apply string_le_total. Qed.

#[global] Instance key_le_antisym : AntiSymm (=) key_le.
Proof.
  intros [s|] [t|]; simpl; try done. intros H1 H2. f_equal.
  by apply string_le_antisym.
Qed.

#[global] Instance key_le_trans : Transitive key_le.
Proof.
  intros [s|] [t|] [u|]; simpl; try done. apply string_le_trans.
Qed.

Lemma sorted_is_sorted (l : list string) : StronglySorted string_le (sorted l).
Proof. apply StronglySorted_merge_sort; apply _. Qed.

Lemma sorted_Permutation (l : list string) : sorted l ≡ₚ l.
Proof. apply merge_sort_Permutation. Qed.

(** ** The monads *)

Section Monads.
Context {world : Collaborators}.

Lemma result_bind_ok {A B : Type} (m : result A) (f : A -> result B) (y : B) :
  m ≫= f = inr y <-> exists x, m = inr x /\ f x = inr y.
Proof.
  destruct m as [e|x]; simpl; split.
  - done.
  - by intros (x & ? & _).
  - eauto.
  - by intros (x' & [= <-] & ?).
Qed.

Lemma M_bind_ok {A B : Type} (m : M A) (f : A -> M B) (s s2 : rng) (y : B) :
  (m ≫= f) s = (inr y, s2) <->
  exists x s1, m s = (inr x, s1) /\ f x s1 = (inr y, s2).
Proof.
  unfold mbind, M_bind. destruct (m s) as [[e|x] s1]; split.
  - done.
  - by intros (x & s1' & ? & _).
  - eauto.
  - by intros (x' & s1' & [= <- <-] & ?).
Qed.

Lemma M_bind_step {A B : Type} (m : M A) (f : A -> M B) (s s1 : rng) (x : A) :
  m s = (inr x, s1) -> (m ≫= f) s = f x s1.
Proof. unfold mbind, M_bind. by intros ->. Qed.

Lemma M_bind_raise {A B : Type} (m : M A) (f : A -> M B) (s s1 : rng) (e : exn) :
  m s = (inl e, s1) -> (m ≫= f) s = (inl e, s1).
Proof. unfold mbind, M_bind. by intros ->. Qed.

Lemma lift_ok {A : Type} (r : result A) (s s' : rng) (x : A) :
  lift r s = (inr x, s') <-> r = inr x /\ s' = s.
Proof. unfold lift. split; [by intros [= -> ->] | by intros [-> ->]]. Qed.

Lemma Sweep_bind_step {A B : Type} (m : Sweep A) (f : A -> Sweep B)
    (st st1 : sweep_state) (x : A) :
  m st = (inr x, st1) -> (m ≫= f) st = f x st1.
Proof. unfold mbind, Sweep_bind. by intros ->. Qed.

Lemma Sweep_bind_raise {A B : Type} (m : Sweep A) (f : A -> Sweep B)
    (st st1 : sweep_state) (e : exn) :
  m st = (inl e, st1) -> (m ≫= f) st = (inl e, st1).
Proof. unfold mbind, Sweep_bind. by intros ->. Qed.
End Monads.

(** ** [GetRealImages] and the error of [ComputeAccuracyLoss] *)

Section RealImages.
Context {world : Collaborators}.

Lemma shape0_scale (v : pyfloat) (x : ndarray) : shape0 (scale v x) = shape0 x.
Proof. unfold shape0, scale, with_rows. simpl. by rewrite length_map. Qed.

(** What [GetRealImages] returns when the data set can be read: the first
    [num_examples] images, or all of them when there are fewer and this is
    not a failure. *)
Lemma GetRealImages_ok (dataset : pyval) (split_name : string) (num_examples : Z)
    (failure : bool) (content : ndarray) :
  load_dataset dataset split_name = inr content ->
  let data_x := take (Z.to_nat num_examples) (rows content) in
  GetRealImages dataset split_name num_examples failure =
    if negb (Z.of_nat (length data_x) =? num_examples) && failure
    then raise (ValueError "Not enough examples in the dataset")
    else inr (scale (Fin 255) (with_rows content data_x)).
Proof.
  intros Hload data_x. unfold GetRealImages. rewrite Hload. simpl.
  unfold shape0 at 1. simpl. fold data_x.
  by destruct (negb (Z.of_nat (length data_x) =? num_examples) && failure).
Qed.

Lemma GetRealImages_required_count (dataset : pyval) (split_name : string)
    (num_examples : Z) (real_images : ndarray) :
  GetRealImages dataset split_name num_examples true = inr real_images ->
  shape0 real_images = num_examples.
Proof.
  unfold GetRealImages. intros Hget.
  apply result_bind_ok in Hget as (content & Hload & Hget).
  apply result_bind_ok in Hget as ([] & Hcheck & Hret).
  injection Hret as <-. rewrite shape0_scale.
  destruct (shape0 _ =? num_examples) eqn:Heq; [lia | done].
Qed.
End RealImages.

(** C10. [ComputeAccuracyLoss] raises [ValueError], and so returns no metric
    value, whenever the images obtained from the training split (at most
    [max_train_examples] of them, a short split being accepted) are fewer
    than the test images. *)
Theorem ComputeAccuracyLoss_raises_on_short_train {world : Collaborators}
    (options : gmap string pyval) (gan : GAN rng zsample) (test_images : ndarray)
    (max_train_examples num_repeat : Z) (dataset : pyval) (content : ndarray)
    (s : rng) :
  options !! "dataset" = Some dataset ->
  load_dataset dataset "train" = inr content ->
  Z.of_nat (length (take (Z.to_nat max_train_examples) (rows content)))
    < shape0 test_images ->
  ComputeAccuracyLoss options gan test_images max_train_examples num_repeat s
  = (inl (ValueError "num_train must be larger than num_test."), s).
Proof.
  intros Hds Hload Hshort. unfold ComputeAccuracyLoss.
  rewrite (M_bind_step _ _ s s dataset); last by (unfold lift, getitem; rewrite Hds).
  erewrite M_bind_step; last first.
  { unfold lift. rewrite (GetRealImages_ok _ _ _ _ _ Hload).
    rewrite andb_false_r. done. }
  apply M_bind_raise. rewrite shape0_scale. unfold shape0 at 1. simpl.
  by rewrite (proj2 (Z.ltb_lt _ _) Hshort).
Qed.

Lemma ComputeAccuracyLoss_raises_on_short_train_witness :
  toy_options !! "dataset" = Some (VStr "toy")
  /\ load_dataset (Collaborators := toy_world) (VStr "toy") "train"
     = inr (toy_array 150 (Fin 1))
  /\ Z.of_nat (length (take (Z.to_nat 50000) (rows (toy_array 150 (Fin 1)))))
     < shape0 (toy_test 200)
  /\ ComputeAccuracyLoss (world := toy_world) toy_options (toy_gan "ckpt-1")
       (toy_test 200) 50000 5 1%nat
     = (inl (ValueError "num_train must be larger than num_test."), 1%nat).
Proof.
  assert (toy_options !! "dataset" = Some (VStr "toy")) as H1
    by (vm_compute; reflexivity).
  assert (load_dataset (Collaborators := toy_world) (VStr "toy") "train"
          = inr (toy_array 150 (Fin 1))) as H2 by (vm_compute; reflexivity).
  assert (Z.of_nat (length (take (Z.to_nat 50000) (rows (toy_array 150 (Fin 1)))))
          < shape0 (toy_test 200)) as H3 by (vm_compute; reflexivity).
  split; [exact H1|]. split; [exact H2|]. split; [exact H3|].
  exact (ComputeAccuracyLoss_raises_on_short_train (world := toy_world)
           toy_options (toy_gan "ckpt-1") (toy_test 200) 50000 5 (VStr "toy")
           (toy_array 150 (Fin 1)) 1%nat H1 H2 H3).
Defined.

(** ** Slices and sums *)

Section Sequences.
Context {A : Type}.

Lemma slice_bound_in (len i : Z) : 0 <= i <= len -> slice_bound len i = Z.to_nat i.
Proof. intros Hi. unfold slice_bound. destruct (Z.ltb_spec i 0); lia. Qed.

Lemma py_slice_in (l : list A) (start stop : Z) :
  0 <= start <= stop -> stop <= Z.of_nat (length l) ->
  py_slice l start stop = take (Z.to_nat (stop - start)) (drop (Z.to_nat start) l).
Proof.
  intros Hs He. unfold py_slice. rewrite !slice_bound_in by lia.
  f_equal. lia.
Qed.

Lemma py_slice_length (l : list A) (start stop : Z) :
  0 <= start <= stop -> stop <= Z.of_nat (length l) ->
  length (py_slice l start stop) = Z.to_nat (stop - start).
Proof.
  intros Hs He. rewrite py_slice_in by done.
  rewrite length_take, length_drop. lia.
Qed.

Lemma py_slice_subseteq (l : list A) (start stop : Z) (x : A) :
  x ∈ py_slice l start stop -> x ∈ l.
Proof.
  unfold py_slice. intros Hx.
  apply subseteq_take in Hx. by apply subseteq_drop in Hx.
Qed.

Lemma py_slice_prefix (l : list A) (n : Z) :
  0 <= n -> py_slice l 0 n = take (Z.to_nat n) l.
Proof.
  intros Hn. unfold py_slice. rewrite (slice_bound_in _ 0) by lia.
  rewrite Z2Nat.inj_0, drop_0, Nat.sub_0_r.
  unfold slice_bound. destruct (Z.ltb_spec n 0); [lia|].
  destruct (Z.le_gt_cases n (Z.of_nat (length l))).
  - f_equal. lia.
  - rewrite !take_ge by lia. done.
Qed.
End Sequences.

Lemma range_elem (n k : Z) : k ∈ range n -> 0 <= k < n.
Proof.
  unfold range. intros Hk. apply elem_of_seqZ in Hk. lia.
Qed.

Lemma range_length (n : Z) : length (range n) = Z.to_nat n.
Proof. unfold range. by rewrite length_seqZ. Qed.

Lemma map_replicate {A B : Type} (f : A -> B) (n : nat) (x : A) :
  map f (replicate n x) = replicate n (f x).
Proof. induction n as [|n IH]; [done|]. simpl. by rewrite IH. Qed.

(** Sums and means of finite values. *)
Lemma fsum_replicate_one (n : nat) (a : Q) :
  exists b, foldl fadd (Fin a) (replicate n (Fin 1)) = Fin b
            /\ (b == a + inject_Z (Z.of_nat n))%Q.
Proof.
  revert a. induction n as [|n IH]; intros a.
  - exists a. split; [done|]. simpl. ring.
  - simpl. destruct (IH (Qred (a + 1))) as (b & Hb & Hq).
    exists b. split; [done|]. rewrite Hq, Qred_correct.
    rewrite Nat2Z.inj_succ, <- Z.add_1_l, inject_Z_plus. ring.
Qed.

Lemma fnum_one_of (a : Q) : (a == 1)%Q -> fnum a = Fin 1.
Proof. intros Ha. unfold fnum. by rewrite (Qred_complete _ _ Ha). Qed.

Lemma inject_count_nonzero (n : nat) :
  (0 < n)%nat -> ~ (inject_Z (Z.of_nat n) == 0)%Q.
Proof.
  intros Hn Hz. unfold Qeq in Hz. simpl in Hz. lia.
Qed.

Lemma np_mean_replicate_one (n : nat) :
  (0 < n)%nat -> np_mean (replicate n (Fin 1)) = Fin 1.
Proof.
  intros Hn. unfold np_mean, fsum.
  destruct (fsum_replicate_one n (inject_Z 0)) as (b & Hb & Hq).
  change (fint 0) with (Fin (inject_Z 0)). rewrite Hb.
  destruct n as [|n]; [lia|].
  change (replicate (S n) (Fin 1)) with (Fin 1 :: replicate n (Fin 1)).
  cbv beta iota. change (Fin 1 :: replicate n (Fin 1)) with (replicate (S n) (Fin 1)).
  rewrite length_replicate. unfold fdiv_count. apply fnum_one_of.
  rewrite Hq. field. by apply inject_count_nonzero.
Qed.

Lemma count_true_replicate (n : nat) : count_true (replicate n true) = Z.of_nat n.
Proof.
  unfold count_true. f_equal. induction n as [|n IH]; [done|].
  change (replicate (S n) true) with (true :: replicate n true).
  rewrite filter_cons_True by done. simpl. by rewrite IH.
Qed.

Lemma fraction_true_all (n : nat) :
  (0 < n)%nat -> fraction_true (replicate n true) = inr (Fin 1).
Proof.
  intros Hn. destruct n as [|n]; [lia|].
  unfold fraction_true. change (replicate (S n) true) with (true :: replicate n true).
  cbv beta iota. change (true :: replicate n true) with (replicate (S n) true).
  rewrite count_true_replicate, length_replicate. f_equal.
  unfold fdiv_count, fint. apply fnum_one_of. field.
  by apply inject_count_nonzero.
Qed.

(** ** The loops of [ComputeAccuracyLoss] *)

Section AccuracyLoops.
Context {world : Collaborators}.
Variables (gan : GAN rng zsample) (test_images train_images : ndarray).

Lemma batch_step_ok (train_subset : list image) (i : Z)
    (trp tep fp trl tel : list pyfloat)
    (st' : list pyfloat * list pyfloat * list pyfloat * list pyfloat * list pyfloat)
    (s s' : rng) :
  batch_step gan test_images train_images train_subset i (trp, tep, fp, trl, tel) s
    = (inr st', s') ->
  exists b : ndarray * ndarray * zsample,
    fed_in_pass gan test_images train_images train_subset i b
    /\ (b.2, s') = z_generator gan (batch_size gan) (z_dim gan) s
    /\ discriminator_output gan b.1.1 <> []
    /\ discriminator_output gan b.1.2 <> []
    /\ discriminator_output gan (fake_images gan b.2) <> []
    /\ st' = (trp ++ [first_output gan b.1.2],
              tep ++ [first_output gan b.1.1],
              fp ++ [first_output gan (fake_images gan b.2)],
              trl ++ [d_loss gan b.1.2 b.2],
              tel ++ [d_loss gan b.1.1 b.2]).
Proof.
  unfold batch_step. intros Hrun.
  apply M_bind_ok in Hrun as (z & s1 & Hz & Hrun).
  unfold draw in Hz. destruct (z_generator _ _ _ s) as [z' s1'] eqn:Hgen.
  injection Hz as -> ->.
  apply M_bind_ok in Hrun as (p1 & s2 & Hp1 & Hrun).
  apply lift_ok in Hp1 as [Hp1 ->].
  apply M_bind_ok in Hrun as (p2 & s3 & Hp2 & Hrun).
  apply lift_ok in Hp2 as [Hp2 ->].
  apply M_bind_ok in Hrun as (p3 & s4 & Hp3 & Hrun).
  apply lift_ok in Hp3 as [Hp3 ->].
  injection Hrun as <- <-.
  eexists (_, _, z). unfold fed_in_pass, first_output. simpl.
  split; [done|]. split; [done|].
  destruct (discriminator_output gan (slice0 _ _ _)); [done|].
  destruct (discriminator_output gan (as_array _ _)); [done|].
  destruct (discriminator_output gan (fake_images gan z)); [done|].
  simpl in *. injection Hp1 as <-. injection Hp2 as <-. injection Hp3 as <-.
  done.
Qed.

(** The loop over the batches appends, for each pass, element [0] of the
    three predictions and the two losses. *)
Lemma batch_loop_ok (train_subset : list image) (ks : list Z)
    (trp tep fp trl tel : list pyfloat)
    (st' : list pyfloat * list pyfloat * list pyfloat * list pyfloat * list pyfloat)
    (s s' : rng) :
  for_each ks (batch_step gan test_images train_images train_subset)
    (trp, tep, fp, trl, tel) s = (inr st', s') ->
  exists fed : list (ndarray * ndarray * zsample),
    Forall2 (fed_in_pass gan test_images train_images train_subset) ks fed
    /\ st' = (trp ++ map (fun b => first_output gan b.1.2) fed,
              tep ++ map (fun b => first_output gan b.1.1) fed,
              fp ++ map (fun b => first_output gan (fake_images gan b.2)) fed,
              trl ++ map (fun b => d_loss gan b.1.2 b.2) fed,
              tel ++ map (fun b => d_loss gan b.1.1 b.2) fed).
Proof.
  revert trp tep fp trl tel s.
  induction ks as [|k ks IH]; intros trp tep fp trl tel s Hrun.
  - injection Hrun as <- <-. exists []. split; [constructor|].
    simpl. by rewrite !app_nil_r.
  - simpl in Hrun. apply M_bind_ok in Hrun as (st1 & s1 & Hstep & Hrun).
    apply batch_step_ok in Hstep as (b & Hfed & _ & _ & _ & _ & ->).
    apply IH in Hrun as (fed & Hfeds & ->).
    exists (b :: fed). split; [by constructor|].
    simpl. by rewrite <- !app_assoc.
Qed.

Lemma fraction_true_ok (l : list bool) (v : pyfloat) :
  fraction_true l = inr v ->
  l <> [] /\ v = fdiv_count (fint (count_true l)) (length l).
Proof. destruct l; [done|]. by intros [= <-]. Qed.

(** One repeat: the accuracies appended are averages over the passes of
    the indicators of element [0]; the two lists of losses that come out
    hold the losses of the batches of this repeat and their mean. *)
Lemma repeat_step_ok (num_batches repeat : Z)
    (tra tea fa trl tel : list pyfloat)
    (st' : list pyfloat * list pyfloat * list pyfloat * list pyfloat * list pyfloat)
    (s s' : rng) :
  repeat_step gan test_images train_images num_batches repeat
    (tra, tea, fa, trl, tel) s = (inr st', s') ->
  exists (train_subset : list image) (fed : list (ndarray * ndarray * zsample)),
    Forall2 (fed_in_pass gan test_images train_images train_subset)
      (range num_batches) fed
    /\ fed <> []
    /\ st' = (tra ++ [indicator_average gan fge (map (fun b => b.1.2) fed)],
              tea ++ [indicator_average gan fge (map (fun b => b.1.1) fed)],
              fa ++ [indicator_average gan flt
                       (map (fun b => fake_images gan b.2) fed)],
              map (fun b => d_loss gan b.1.2 b.2) fed
                ++ [np_mean (map (fun b => d_loss gan b.1.2 b.2) fed)],
              map (fun b => d_loss gan b.1.1 b.2) fed
                ++ [np_mean (map (fun b => d_loss gan b.1.1 b.2) fed)]).
Proof.
  unfold repeat_step. intros Hrun.
  apply M_bind_ok in Hrun as (idx & s1 & _ & Hrun).
  apply M_bind_ok in Hrun as (train_subset & s2 & _ & Hrun).
  apply M_bind_ok in Hrun as ([[[[trp tep] fp] trl1] tel1] & s3 & Hloop & Hrun).
  apply batch_loop_ok in Hloop as (fed & Hfed & [= -> -> -> -> ->]).
  apply M_bind_ok in Hrun as (a1 & s4 & Ha1 & Hrun).
  apply lift_ok in Ha1 as [Ha1 ->].
  apply M_bind_ok in Hrun as (a2 & s5 & Ha2 & Hrun).
  apply lift_ok in Ha2 as [Ha2 ->].
  apply M_bind_ok in Hrun as (a3 & s6 & Ha3 & Hrun).
  apply lift_ok in Ha3 as [Ha3 ->].
  injection Hrun as <- <-.
  apply fraction_true_ok in Ha1 as [Hne ->].
  apply fraction_true_ok in Ha2 as [_ ->].
  apply fraction_true_ok in Ha3 as [_ ->].
  exists train_subset, fed. split; [done|]. split.
  { intros ->. by apply Hne. }
  unfold indicator_average. simpl. rewrite !map_map, !length_map. done.
Qed.

(** After at least one repeat, the two lists of losses hold the losses of
    the batches of the last repeat followed by their mean, whatever the
    earlier repeats computed. *)
Lemma repeat_loop_losses (num_batches : Z) (ks : list Z)
    (tra tea fa trl tel tra' tea' fa' trl' tel' : list pyfloat) (s s' : rng) :
  ks <> [] ->
  for_each ks (repeat_step gan test_images train_images num_batches)
    (tra, tea, fa, trl, tel) s = (inr (tra', tea', fa', trl', tel'), s') ->
  exists (train_subset : list image) (fed : list (ndarray * ndarray * zsample)),
    Forall2 (fed_in_pass gan test_images train_images train_subset)
      (range num_batches) fed
    /\ trl' = map (fun b => d_loss gan b.1.2 b.2) fed
                ++ [np_mean (map (fun b => d_loss gan b.1.2 b.2) fed)]
    /\ tel' = map (fun b => d_loss gan b.1.1 b.2) fed
                ++ [np_mean (map (fun b => d_loss gan b.1.1 b.2) fed)].
Proof.
  revert tra tea fa trl tel s.
  induction ks as [|k ks IH]; intros tra tea fa trl tel s Hne Hrun; [done|].
  cbn [for_each] in Hrun.
  apply M_bind_ok in Hrun as ([[[[tra1 tea1] fa1] trl1] tel1] & s1 & Hstep & Hrun).
  destruct ks as [|k' ks].
  - injection Hrun as <- <- <- <- <- <-.
    destruct (repeat_step_ok _ _ _ _ _ _ _ _ _ _ Hstep)
      as (train_subset & fed & Hfed & _ & Hst).
    injection Hst as _ _ _ -> ->. by exists train_subset, fed.
  - by eapply IH.
Qed.
End AccuracyLoops.

(** C7. On the toy environment with two repeats of one batch each, the
    train losses of the two repeats are 2 and 4 (mean 3) and so are the test
    losses; [ComputeAccuracyLoss] reports 4 for both, the value of the last
    repeat. *)
Theorem reported_d_loss_is_not_mean_over_repeats :
  let gan := toy_gan "ckpt-1" in
  let start : list pyfloat * list pyfloat * list pyfloat * list pyfloat * list pyfloat :=
    ([], [], [], [], []) in
  (* repeat 0: the loss of its batch, and the mean it appends *)
  repeat_step (world := toy_world) gan (toy_test 100) toy_train 1 0 start 1%nat
    = (inr ([Fin 1], [Fin 1], [Fin 1], [Fin 2; Fin 2], [Fin 2; Fin 2]), 2%nat)
  (* repeat 1 *)
  /\ repeat_step (world := toy_world) gan (toy_test 100) toy_train 1 1
       ([Fin 1], [Fin 1], [Fin 1], [Fin 2; Fin 2], [Fin 2; Fin 2]) 2%nat
     = (inr ([Fin 1; Fin 1], [Fin 1; Fin 1], [Fin 1; Fin 1],
             [Fin 4; Fin 4], [Fin 4; Fin 4]), 3%nat)
  (* the mean over the two repeats *)
  /\ np_mean [Fin 2; Fin 4] = Fin 3
  (* what is reported *)
  /\ exists result_dict,
       ComputeAccuracyLoss (world := toy_world) toy_options gan (toy_test 100)
         50000 2 1%nat
         = (inr result_dict, 3%nat)
       /\ result_dict !! "train_d_loss" = Some (Fin 4)
       /\ result_dict !! "test_d_loss" = Some (Fin 4)
       /\ result_dict !! "train_accuracy" = Some (Fin 1).
Proof.
  cbv zeta. split; [vm_compute; reflexivity|]. split; [vm_compute; reflexivity|].
  split; [vm_compute; reflexivity|].
  eexists. split; [vm_compute; reflexivity|].
  split; [vm_compute; reflexivity|]. split; [vm_compute; reflexivity|].
  vm_compute; reflexivity.
Qed.


(** ** A discriminator that is always right *)

Section PerfectDiscriminator.
Context {world : Collaborators}.
Variables (gan : GAN rng zsample) (test_images train_images : ndarray).
Hypothesis Hbs : 0 < batch_size gan.
Hypothesis Hout :
  forall x, length (discriminator_output gan x) = length (rows x).
Hypothesis Hgen : forall z, rows (fake_images gan z) <> [].
Hypothesis Hreal :
  forall x, real_batch test_images train_images x ->
            Forall (fun p => p = Fin 1) (discriminator_output gan x).
Hypothesis Hfake :
  forall z, Forall (fun p => p = Fin 0)
              (discriminator_output gan (fake_images gan z)).
Hypothesis Hchoice :
  forall s, let idx := (np_random_choice (shape0 train_images)
                          (shape0 test_images) s).1 in
            length idx = length (rows test_images)
            /\ Forall (fun i => (i < length (rows train_images))%nat) idx.

Lemma first_all {x : ndarray} {v : pyfloat} :
  Forall (fun p => p = v) (discriminator_output gan x) -> rows x <> [] ->
  first (discriminator_output gan x) = inr v.
Proof using Hout.
  intros Hall Hne. specialize (Hout x).
  destruct (discriminator_output gan x) as [|p l].
  - destruct (rows x); [done | simpl in Hout; lia].
  - apply Forall_cons in Hall as [-> _]. done.
Qed.

Lemma train_subset_ok (idx : list nat) :
  Forall (fun i => (i < length (rows train_images))%nat) idx ->
  exists train_subset,
    mapM (M := result)
         (fun i => match rows train_images !! i with
                   | Some im => inr im
                   | None => raise IndexError
                   end) idx = inr train_subset
    /\ length train_subset = length idx
    /\ Forall (fun im => im ∈ rows train_images) train_subset.
Proof using Type.
  induction 1 as [|i idx Hi _ (sub & Hsub & Hlen & Hin)].
  - exists []. done.
  - apply lookup_lt_is_Some_2 in Hi as [im Him].
    exists (im :: sub). split; [|split].
    + match goal with
      | |- mapM ?f _ = _ =>
          change ((f i ≫= fun y => mapM f idx ≫= fun k => mret (y :: k))
                  = inr (im :: sub))
      end.
      rewrite Hsub. cbv beta. by rewrite Him.
    + simpl. by rewrite Hlen.
    + constructor; [|done]. by eapply list_elem_of_lookup_2.
Qed.

Lemma batch_step_perfect (train_subset : list image) (k : Z)
    (trp tep fp trl tel : list pyfloat) (s : rng) :
  length train_subset = length (rows test_images) ->
  Forall (fun im => im ∈ rows train_images) train_subset ->
  0 <= k -> (k + 1) * batch_size gan <= shape0 test_images ->
  exists l1 l2 s',
    batch_step gan test_images train_images train_subset k
      (trp, tep, fp, trl, tel) s
    = (inr (trp ++ [Fin 1], tep ++ [Fin 1], fp ++ [Fin 0], l1, l2), s').
Proof using Hbs Hout Hgen Hreal Hfake.
  intros Hlen Hsub Hk Hfit. unfold shape0 in Hfit.
  set (start := k * batch_size gan).
  assert (0 <= start <= start + batch_size gan) as Hss by (unfold start; nia).
  assert (start + batch_size gan <= Z.of_nat (length (rows test_images))) as Hstop
    by (unfold start; nia).
  assert (first (discriminator_output gan
                   (slice0 test_images start (start + batch_size gan)))
          = inr (Fin 1)) as Htest.
  { apply first_all.
    - apply Hreal. unfold real_batch. simpl. apply Forall_forall.
      intros im Him. left. by eapply py_slice_subseteq.
    - simpl. intros Hnil. apply (f_equal length) in Hnil.
      rewrite py_slice_length in Hnil by done. simpl in Hnil. lia. }
  assert (first (discriminator_output gan
                   (as_array train_images
                      (py_slice train_subset start (start + batch_size gan))))
          = inr (Fin 1)) as Htrain.
  { apply first_all.
    - apply Hreal. unfold real_batch. simpl. apply Forall_forall.
      intros im Him. right. apply py_slice_subseteq in Him.
      by eapply Forall_forall in Hsub.
    - simpl. intros Hnil. apply (f_equal length) in Hnil.
      rewrite py_slice_length in Hnil by (rewrite ?Hlen; done).
      simpl in Hnil. lia. }
  subst start. unfold batch_step.
  destruct (z_generator gan (batch_size gan) (z_dim gan) s) as [z s1] eqn:Hz.
  rewrite (M_bind_step _ _ s s1 z); last by (unfold draw; rewrite Hz).
  cbv zeta.
  rewrite (M_bind_step _ _ s1 s1 (Fin 1)); last by (unfold lift; rewrite Htest).
  rewrite (M_bind_step _ _ s1 s1 (Fin 1)); last by (unfold lift; rewrite Htrain).
  rewrite (M_bind_step _ _ s1 s1 (Fin 0)); last first.
  { unfold lift. by rewrite (first_all (Hfake z) (Hgen z)). }
  by eexists _, _, _.
Qed.

Lemma batch_loop_perfect (train_subset : list image) (ks : list Z)
    (trp tep fp trl tel : list pyfloat) (s : rng) :
  length train_subset = length (rows test_images) ->
  Forall (fun im => im ∈ rows train_images) train_subset ->
  Forall (fun k => 0 <= k /\ (k + 1) * batch_size gan <= shape0 test_images) ks ->
  exists l1 l2 s',
    for_each ks (batch_step gan test_images train_images train_subset)
      (trp, tep, fp, trl, tel) s
    = (inr (trp ++ replicate (length ks) (Fin 1),
            tep ++ replicate (length ks) (Fin 1),
            fp ++ replicate (length ks) (Fin 0), l1, l2), s').
Proof using Hbs Hout Hgen Hreal Hfake.
  intros Hlen Hsub Hks. revert trp tep fp trl tel s.
  induction Hks as [|k ks [Hk Hfit] _ IH]; intros trp tep fp trl tel s.
  - simpl. rewrite !app_nil_r. by eexists _, _, _.
  - destruct (batch_step_perfect train_subset k trp tep fp trl tel s)
      as (l1 & l2 & s1 & Hstep); try done.
    destruct (IH (trp ++ [Fin 1]) (tep ++ [Fin 1]) (fp ++ [Fin 0]) l1 l2 s1)
      as (l1' & l2' & s2 & Hloop).
    exists l1', l2', s2. simpl.
    rewrite (M_bind_step _ _ _ _ _ Hstep), Hloop.
    by rewrite <- !app_assoc.
Qed.

Lemma repeat_step_perfect (num_batches repeat : Z)
    (tra tea fa trl tel : list pyfloat) (s : rng) :
  num_batches = shape0 test_images / batch_size gan ->
  1 <= num_batches ->
  exists l1 l2 s',
    repeat_step gan test_images train_images num_batches repeat
      (tra, tea, fa, trl, tel) s
    = (inr (tra ++ [Fin 1], tea ++ [Fin 1], fa ++ [Fin 1], l1, l2), s').
Proof using Hbs Hout Hgen Hreal Hfake Hchoice.
  intros Hnb Hpos. unfold repeat_step.
  destruct (np_random_choice (shape0 train_images) (shape0 test_images) s)
    as [idx s1] eqn:Hidx.
  rewrite (M_bind_step _ _ s s1 idx); last by (unfold draw; rewrite Hidx).
  pose proof (Hchoice s) as Hc. rewrite Hidx in Hc. simpl in Hc.
  destruct Hc as [Hlen Hin].
  destruct (train_subset_ok idx Hin) as (train_subset & Hsub & Hlen' & Hmem).
  rewrite (M_bind_step _ _ s1 s1 train_subset); last by (unfold lift; rewrite Hsub).
  destruct (batch_loop_perfect train_subset (range num_batches) [] [] [] [] [] s1)
    as (l1 & l2 & s2 & Hloop).
  { by rewrite Hlen'. }
  { done. }
  { apply Forall_forall. intros k Hk%range_elem. split; [lia|].
    pose proof (Z.mul_div_le (shape0 test_images) (batch_size gan) Hbs).
    nia. }
  rewrite (M_bind_step _ _ _ _ _ Hloop). simpl.
  rewrite range_length.
  assert (0 < Z.to_nat num_batches)%nat as Hn by lia.
  rewrite !map_replicate.
  change (fge (Fin 1) discriminator_threshold) with true.
  change (flt (Fin 0) discriminator_threshold) with true.
  rewrite (M_bind_step _ _ s2 s2 (Fin 1));
    last by (unfold lift; rewrite fraction_true_all).
  rewrite (M_bind_step _ _ s2 s2 (Fin 1));
    last by (unfold lift; rewrite fraction_true_all).
  rewrite (M_bind_step _ _ s2 s2 (Fin 1));
    last by (unfold lift; rewrite fraction_true_all).
  by eexists _, _, _.
Qed.

Lemma repeat_loop_perfect (num_batches : Z) (ks : list Z)
    (tra tea fa trl tel : list pyfloat) (s : rng) :
  num_batches = shape0 test_images / batch_size gan ->
  1 <= num_batches ->
  exists l1 l2 s',
    for_each ks (repeat_step gan test_images train_images num_batches)
      (tra, tea, fa, trl, tel) s
    = (inr (tra ++ replicate (length ks) (Fin 1),
            tea ++ replicate (length ks) (Fin 1),
            fa ++ replicate (length ks) (Fin 1), l1, l2), s').
Proof using Hbs Hout Hgen Hreal Hfake Hchoice.
  intros Hnb Hpos. revert tra tea fa trl tel s.
  induction ks as [|k ks IH]; intros tra tea fa trl tel s.
  - simpl. rewrite !app_nil_r. by eexists _, _, _.
  - destruct (repeat_step_perfect num_batches k tra tea fa trl tel s Hnb Hpos)
      as (l1 & l2 & s1 & Hstep).
    destruct (IH (tra ++ [Fin 1]) (tea ++ [Fin 1]) (fa ++ [Fin 1]) l1 l2 s1)
      as (l1' & l2' & s2 & Hloop).
    exists l1', l2', s2. simpl.
    rewrite (M_bind_step _ _ _ _ _ Hstep), Hloop.
    by rewrite <- !app_assoc.
Qed.
End PerfectDiscriminator.

(** C8, amended. With at least one repeat and at least one whole batch of
    test images, a discriminator that outputs exactly 1.0 on every batch of
    real (train or test) images and exactly 0.0 on every generated batch
    makes [ComputeAccuracyLoss] return train, test and fake accuracies all
    equal to 1.0. The other hypotheses say that the collaborators are well
    formed: the data set is read, there are at least as many train as test
    images, the discriminator has one output per example, a generated batch
    is not empty, and [np.random.choice] returns as many indices as asked,
    all within range. *)
Theorem perfect_discriminator_accuracy {world : Collaborators}
    (options : gmap string pyval) (gan : GAN rng zsample)
    (test_images train_images : ndarray) (max_train_examples num_repeat : Z)
    (dataset : pyval) (s : rng) :
  options !! "dataset" = Some dataset ->
  GetRealImages dataset "train" max_train_examples false = inr train_images ->
  shape0 test_images <= shape0 train_images ->
  0 < batch_size gan ->
  1 <= shape0 test_images / batch_size gan ->
  1 <= num_repeat ->
  (forall x, length (discriminator_output gan x) = length (rows x)) ->
  (forall z, rows (fake_images gan z) <> []) ->
  (forall s, let idx := (np_random_choice (shape0 train_images)
                           (shape0 test_images) s).1 in
             length idx = length (rows test_images)
             /\ Forall (fun i => (i < length (rows train_images))%nat) idx) ->
  (forall x, real_batch test_images train_images x ->
             Forall (fun p => p = Fin 1) (discriminator_output gan x)) ->
  (forall z, Forall (fun p => p = Fin 0)
               (discriminator_output gan (fake_images gan z))) ->
  exists result_dict s',
    ComputeAccuracyLoss options gan test_images max_train_examples num_repeat s
    = (inr result_dict, s')
    /\ result_dict !! "train_accuracy" = Some (Fin 1)
    /\ result_dict !! "test_accuracy" = Some (Fin 1)
    /\ result_dict !! "fake_accuracy" = Some (Fin 1).
Proof.
  intros Hds Htrain Hcount Hbs Hnb Hrep Hout Hgen Hchoice Hreal Hfake.
  unfold ComputeAccuracyLoss.
  rewrite (M_bind_step _ _ s s dataset); last by (unfold lift, getitem; rewrite Hds).
  rewrite (M_bind_step _ _ s s train_images); last by (unfold lift; rewrite Htrain).
  rewrite (proj2 (Z.ltb_ge _ _) Hcount).
  rewrite (M_bind_step _ _ s s tt); last done.
  rewrite (M_bind_step _ _ s s (shape0 test_images / batch_size gan)); last first.
  { unfold lift, floordiv. by rewrite (proj2 (Z.eqb_neq _ 0)) by lia. }
  cbv zeta.
  destruct (repeat_loop_perfect gan test_images train_images Hbs Hout Hgen Hreal
              Hfake Hchoice (shape0 test_images / batch_size gan)
              (range num_repeat) [] [] [] [] [] s eq_refl Hnb)
    as (l1 & l2 & s' & Hloop).
  rewrite (M_bind_step _ _ _ _ _ Hloop). cbv beta iota zeta.
  eexists _, s'. split; [done|].
  rewrite range_length, !app_nil_l.
  rewrite np_mean_replicate_one by lia.
  repeat split; by simplify_map_eq.
Qed.

(** The toy discriminator is always right, and the toy collaborators are
    well formed. *)
Lemma toy_train_rows (im : image) :
  im ∈ rows toy_train -> im 0%nat 0%nat 0%nat = Fin 255.
Proof.
  unfold toy_train. rewrite (GetRealImages_ok (world := toy_world) (VStr "toy")
                               "train" 50000 false (toy_array 150 (Fin 1)) eq_refl).
  rewrite andb_false_r. cbv beta iota zeta.
  unfold scale, with_rows, toy_array. cbn [rows].
  intros Him. apply list_elem_of_In, in_map_iff in Him as (im0 & <- & Him0).
  apply list_elem_of_In, subseteq_take, elem_of_replicate in Him0 as [-> _].
  by vm_compute.
Qed.

Lemma toy_discriminator_real (n : nat) (x : ndarray) :
  real_batch (toy_test n) toy_train x ->
  Forall (fun p => p = Fin 1) (discriminator_output (toy_gan "ckpt-1") x).
Proof.
  unfold real_batch. simpl. intros Hreal. apply Forall_forall.
  intros p Hp. apply list_elem_of_In, in_map_iff in Hp as (im & <- & Him).
  apply list_elem_of_In in Him.
  apply (proj1 (Forall_forall _ _) Hreal) in Him as [Him|Him].
  - apply elem_of_replicate in Him as [-> _]. by vm_compute.
  - by rewrite (toy_train_rows _ Him).
Qed.

Lemma toy_discriminator_fake (z : nat) :
  Forall (fun p => p = Fin 0)
    (discriminator_output (toy_gan "ckpt-1") (fake_images (toy_gan "ckpt-1") z)).
Proof.
  vm_compute. repeat constructor.
Qed.

Lemma toy_choice (n : nat) (s : nat) :
  (n <= 150)%nat ->
  let idx := (np_random_choice (Collaborators := toy_world) (shape0 toy_train)
                (shape0 (toy_test n)) s).1 in
  length idx = length (rows (toy_test n))
  /\ Forall (fun i => (i < length (rows toy_train))%nat) idx.
Proof.
  intros Hn. simpl. unfold shape0. simpl.
  rewrite length_seq, length_replicate, Nat2Z.id. split; [done|].
  apply Forall_forall. intros i Hi%elem_of_seq.
  replace (length (rows toy_train)) with 150%nat by (by vm_compute). lia.
Qed.

Lemma perfect_discriminator_accuracy_witness :
  toy_options !! "dataset" = Some (VStr "toy")
  /\ GetRealImages (world := toy_world) (VStr "toy") "train" 50000 false
     = inr toy_train
  /\ shape0 (toy_test 100) <= shape0 toy_train
  /\ 0 < batch_size (toy_gan "ckpt-1")
  /\ 1 <= shape0 (toy_test 100) / batch_size (toy_gan "ckpt-1")
  /\ 1 <= 5
  /\ exists result_dict s',
       ComputeAccuracyLoss (world := toy_world) toy_options (toy_gan "ckpt-1")
         (toy_test 100) 50000 5 1%nat
       = (inr result_dict, s')
       /\ result_dict !! "train_accuracy" = Some (Fin 1)
       /\ result_dict !! "test_accuracy" = Some (Fin 1)
       /\ result_dict !! "fake_accuracy" = Some (Fin 1).
Proof.
  assert (toy_options !! "dataset" = Some (VStr "toy")) as H1
    by (vm_compute; reflexivity).
  assert (GetRealImages (world := toy_world) (VStr "toy") "train" 50000 false
          = inr toy_train) as H2 by (vm_compute; reflexivity).
  assert (shape0 (toy_test 100) <= shape0 toy_train) as H3 by (by vm_compute).
  assert (0 < batch_size (toy_gan "ckpt-1")) as H4 by (vm_compute; reflexivity).
  assert (1 <= shape0 (toy_test 100) / batch_size (toy_gan "ckpt-1")) as H5
    by (by vm_compute).
  assert (1 <= 5) as H6 by lia.
  repeat (split; [assumption|]).
  apply (perfect_discriminator_accuracy (world := toy_world) toy_options
           (toy_gan "ckpt-1") (toy_test 100) toy_train 50000 5 (VStr "toy") 1%nat
           H1 H2 H3 H4 H5 H6).
  - intros x. apply length_map.
  - intros z. simpl. done.
  - intros s. apply toy_choice. lia.
  - apply toy_discriminator_real.
  - apply toy_discriminator_fake.
Defined.

(** C8, as stated, fails when the test images do not fill one batch: the toy
    discriminator is always right, and with 50 test images and batches of 64
    [ComputeAccuracyLoss] raises [ZeroDivisionError] instead of returning
    accuracies. *)
Lemma perfect_discriminator_zero_batches :
  (forall x, real_batch (toy_test 50) toy_train x ->
             Forall (fun p => p = Fin 1) (discriminator_output (toy_gan "ckpt-1") x))
  /\ (forall z, Forall (fun p => p = Fin 0)
                  (discriminator_output (toy_gan "ckpt-1")
                     (fake_images (toy_gan "ckpt-1") z)))
  /\ shape0 (toy_test 50) / batch_size (toy_gan "ckpt-1") = 0
  /\ ComputeAccuracyLoss (world := toy_world) toy_options (toy_gan "ckpt-1")
       (toy_test 50) 50000 5 1%nat
     = (inl ZeroDivisionError, 1%nat).
Proof.
  split; [apply toy_discriminator_real|]. split; [apply toy_discriminator_fake|].
  split; by vm_compute.
Qed.

(** C9. In each pass over the batches only element [0] of the test, train
    and fake predictions is recorded: when a repeat completes, each accuracy
    it appends is the average, over its [num_batches] passes, of the
    indicator computed from element [0] of the prediction for the batch fed
    in that pass. *)
Theorem accuracy_counts_first_outputs {world : Collaborators}
    (gan : GAN rng zsample) (test_images train_images : ndarray)
    (num_batches repeat : Z) (tra tea fa trl tel tra' tea' fa' trl' tel' : list pyfloat)
    (s s' : rng) :
  repeat_step gan test_images train_images num_batches repeat
    (tra, tea, fa, trl, tel) s = (inr (tra', tea', fa', trl', tel'), s') ->
  exists (train_subset : list image) (fed : list (ndarray * ndarray * zsample)),
    Forall2 (fed_in_pass gan test_images train_images train_subset)
      (range num_batches) fed
    /\ length fed = Z.to_nat num_batches
    /\ tra' = tra ++ [indicator_average gan fge (map (fun b => b.1.2) fed)]
    /\ tea' = tea ++ [indicator_average gan fge (map (fun b => b.1.1) fed)]
    /\ fa' = fa ++ [indicator_average gan flt
                      (map (fun b => fake_images gan b.2) fed)].
Proof.
  intros Hrun.
  apply repeat_step_ok in Hrun as (train_subset & fed & Hfed & _ & Hst).
  injection Hst as -> -> -> -> ->.
  exists train_subset, fed. repeat split; try done.
  apply Forall2_length in Hfed. rewrite <- Hfed.
  unfold range, seqZ. by rewrite length_fmap, length_seq.
Qed.

Lemma accuracy_counts_first_outputs_witness :
  let gan := toy_gan "ckpt-1" in
  repeat_step (world := toy_world) gan (toy_test 100) toy_train 1 0
    ([], [], [], [], []) 1%nat
  = (inr ([Fin 1], [Fin 1], [Fin 1], [Fin 2; Fin 2], [Fin 2; Fin 2]), 2%nat)
  /\ exists (train_subset : list image) (fed : list (ndarray * ndarray * nat)),
       Forall2 (fed_in_pass (world := toy_world) gan (toy_test 100) toy_train
                  train_subset)
         (range 1) fed
       /\ length fed = Z.to_nat 1
       /\ [Fin 1] = [] ++ [indicator_average (world := toy_world) gan fge
                             (map (fun b => b.1.2) fed)]
       /\ [Fin 1] = [] ++ [indicator_average (world := toy_world) gan fge
                             (map (fun b => b.1.1) fed)]
       /\ [Fin 1] = [] ++ [indicator_average (world := toy_world) gan flt
                             (map (fun b => fake_images gan b.2) fed)].
Proof.
  cbv zeta.
  assert (repeat_step (world := toy_world) (toy_gan "ckpt-1") (toy_test 100)
            toy_train 1 0 ([], [], [], [], []) 1%nat
          = (inr ([Fin 1], [Fin 1], [Fin 1], [Fin 2; Fin 2], [Fin 2; Fin 2]), 2%nat))
    as Hrun by (vm_compute; reflexivity).
  split; [exact Hrun|].
  exact (accuracy_counts_first_outputs (world := toy_world) (toy_gan "ckpt-1")
           (toy_test 100) toy_train 1 0 [] [] [] [] [] _ _ _ _ _ 1%nat 2%nat Hrun).
Defined.


(** ** The populations of [RunCheckpointEval] *)

Lemma shape_eqb_eq (a b : ndarray) : shape_eqb a b = true <-> shape a = shape b.
Proof.
  unfold shape_eqb, shape. rewrite !andb_true_iff, !Nat.eqb_eq. split.
  - intros [[[-> ->] ->] ->]. done.
  - intros [= -> -> -> ->]. done.
Qed.

Lemma py_assert_ok (b : bool) (u : unit) : py_assert b = inr u -> b = true.
Proof. by destruct b. Qed.

Lemma target_test_examples_ok (dataset_params : gmap string pyval) (n : Z) :
  target_test_examples dataset_params = inr n ->
  exists m, as_int (dict_get dataset_params "eval_test_samples" (VInt 10000)) = inr m
            /\ n = m - m mod INCEPTION_BATCH
            /\ n mod INCEPTION_BATCH = 0
            /\ n <= m < n + INCEPTION_BATCH.
Proof.
  unfold target_test_examples. intros Hn.
  apply result_bind_ok in Hn as (m & Hm & Hn). exists m. split; [done|].
  unfold INCEPTION_BATCH in *.
  pose proof (Z.mod_pos_bound m 50 eq_refl) as Hbound.
  pose proof (Z.div_mod m 50 ltac:(done)) as Hdiv.
  destruct (Z.eqb_spec (m mod 50) 0) as [Hz|Hz]; simpl in Hn;
    injection Hn as <-.
  - rewrite Hz. repeat split; lia.
  - repeat split; try lia.
    replace (m - m mod 50) with (m / 50 * 50) by lia. apply Z.mod_mul. done.
Qed.

Lemma np_concatenate_ok (samples : list ndarray) (a : ndarray) :
  np_concatenate samples = inr a ->
  samples <> [] /\ rows a = concat (map rows samples).
Proof.
  unfold np_concatenate. destruct samples as [|x rest]; [done|].
  destruct (forallb _ rest); [|done]. by intros [= <-].
Qed.

Lemma concat_rows_length (samples : list ndarray) (bs : Z) :
  Forall (fun x => shape0 x = bs) samples ->
  Z.of_nat (length (concat (map rows samples))) = Z.of_nat (length samples) * bs.
Proof.
  induction 1 as [|x samples Hx _ IH]; [done|].
  simpl. rewrite length_app, Nat2Z.inj_add, IH. unfold shape0 in Hx. lia.
Qed.

Lemma shape0_truncate (a : ndarray) (n : Z) :
  0 <= n <= shape0 a -> shape0 (truncate a n) = n.
Proof.
  intros Hn. unfold shape0, truncate, with_rows in *. simpl.
  rewrite py_slice_length by lia. lia.
Qed.

Section Generation.
Context {world : Collaborators}.
Variable gan : GAN rng zsample.

(** The generation loop appends one whole batch of the generator per
    pass, none of which holds a NaN. *)
Lemma generate_loop_ok (ks : list Z) (acc samples : list ndarray) (s s' : rng) :
  for_each ks (generate_step gan) acc s = (inr samples, s') ->
  exists batches,
    samples = acc ++ batches
    /\ length batches = length ks
    /\ Forall (fun x => (exists z, x = fake_images gan z) /\ isnan_any x = false)
         batches.
Proof.
  revert acc s. induction ks as [|k ks IH]; intros acc s Hrun.
  - injection Hrun as <- <-. exists []. by rewrite app_nil_r.
  - cbn [for_each] in Hrun.
    apply M_bind_ok in Hrun as (acc1 & s1 & Hstep & Hrun).
    unfold generate_step in Hstep.
    apply M_bind_ok in Hstep as (z & s0 & _ & Hstep).
    destruct (isnan_any (fake_images gan z)) eqn:Hnan; [done|].
    injection Hstep as <- <-.
    apply IH in Hrun as (batches & -> & Hlen & Hall).
    exists (fake_images gan z :: batches).
    rewrite <- app_assoc. split; [done|]. split; [simpl; by rewrite Hlen|].
    constructor; [|done]. split; [by exists z | done].
Qed.

(** A NaN in the batch of a pass raises [NanFoundError]. *)
Lemma generate_step_nan (k : Z) (acc : list ndarray) (s : rng) :
  let '(z, s1) := z_generator gan (batch_size gan) (z_dim gan) s in
  isnan_any (fake_images gan z) = true ->
  generate_step gan k acc s
  = (inl (NanFoundError "Detected NaN in fake images."), s1).
Proof.
  destruct (z_generator _ _ _ s) as [z s1] eqn:Hz. intros Hnan.
  unfold generate_step.
  rewrite (M_bind_step _ _ s s1 z); last by (unfold draw; rewrite Hz).
  cbv zeta. by rewrite Hnan.
Qed.
End Generation.

Lemma ceildiv_ok (a b k : Z) :
  ceildiv a b = inr k -> b <> 0 /\ k = - (- a / b).
Proof.
  unfold ceildiv. destruct (Z.eqb_spec b 0); [done|]. by intros [= <-].
Qed.

Lemma ceildiv_bounds (n bs : Z) :
  0 < bs -> n <= - (- n / bs) * bs < n + bs.
Proof.
  intros Hbs.
  pose proof (Z.div_mod (- n) bs ltac:(lia)) as Hdiv.
  pose proof (Z.mod_pos_bound (- n) bs Hbs) as Hmod. nia.
Qed.

Lemma lookup_map {A B : Type} (f : A -> B) (l : list A) (i : nat) :
  map f l !! i = f <$> (l !! i).
Proof. change (map f l) with (f <$> l). apply list_lookup_fmap. Qed.

Lemma fmul_255_range (q : Q) :
  (0 <= q <= 1)%Q ->
  exists q', fmul (Fin q) (Fin 255) = Fin q' /\ (q' == q * 255)%Q
             /\ (0 <= q' <= 255)%Q.
Proof.
  intros [Hlo Hhi]. exists (Qred (q * 255)). split; [done|].
  split; [apply Qred_correct|]. rewrite Qred_correct. split.
  - apply Qmult_le_0_compat; [done|]. by vm_compute.
  - apply Qle_trans with (1 * 255)%Q; [|by vm_compute].
    apply Qmult_le_compat_r; [done|]. by vm_compute.
Qed.

Lemma materialize_ok (samples : list ndarray) (real_images : ndarray)
    (num_test_examples : Z) (fake_images' real_images' : ndarray) :
  materialize samples real_images num_test_examples
    = inr (fake_images', real_images') ->
  exists fake_all,
    np_concatenate samples = inr fake_all
    /\ shape (truncate fake_all num_test_examples) = shape real_images
    /\ (fake_images', real_images')
       = if (channels fake_all =? 1)%nat
         then (scale (Fin 255) (tile_channels (truncate fake_all num_test_examples)),
               tile_channels real_images)
         else (scale (Fin 255) (truncate fake_all num_test_examples), real_images).
Proof.
  unfold materialize. intros Hm.
  apply result_bind_ok in Hm as (fake_all & Hcat & Hm).
  apply result_bind_ok in Hm as (u & Hshape%py_assert_ok%shape_eqb_eq & Hm).
  exists fake_all. split; [done|]. split; [done|].
  cbn [truncate with_rows channels] in Hm.
  destruct (channels fake_all =? 1)%nat; by injection Hm as <- <-.
Qed.

(** C6. When the populations have one channel, the two arrays handed to the
    [RunAfterSession] hooks have shape (N,H,W,3); the three channels of a
    pixel of the real array are the single channel it had, those of a pixel of
    the fake array are the single channel it had times 255, which takes
    [0,1] to [0,255]. *)
Theorem single_channel_populations_broadcast (samples : list ndarray)
    (real_images : ndarray) (num_test_examples : Z)
    (fake_images' real_images' : ndarray) :
  channels real_images = 1%nat ->
  materialize samples real_images num_test_examples
    = inr (fake_images', real_images') ->
  exists fake_all,
    np_concatenate samples = inr fake_all
    /\ shape fake_images'
       = (length (rows real_images), height real_images, width real_images, 3%nat)
    /\ shape real_images'
       = (length (rows real_images), height real_images, width real_images, 3%nat)
    /\ (forall i im,
          rows (truncate fake_all num_test_examples) !! i = Some im ->
          exists im', rows fake_images' !! i = Some im'
                      /\ forall h w c, (c < 3)%nat ->
                           im' h w c = fmul (im h w 0%nat) (Fin 255))
    /\ (forall i im,
          rows real_images !! i = Some im ->
          exists im', rows real_images' !! i = Some im'
                      /\ forall h w c, (c < 3)%nat -> im' h w c = im h w 0%nat)
    /\ (forall q, (0 <= q <= 1)%Q ->
          exists q', fmul (Fin q) (Fin 255) = Fin q' /\ (q' == q * 255)%Q
                     /\ (0 <= q' <= 255)%Q).
Proof.
  intros Hone Hm.
  apply materialize_ok in Hm as (fake_all & Hcat & Hshape & Hres).
  exists fake_all. split; [done|].
  assert (channels fake_all = 1%nat) as Hfake.
  { unfold shape in Hshape. cbn [truncate with_rows channels] in Hshape.
    injection Hshape as _ _ _ ->. done. }
  rewrite Hfake in Hres. cbn [Nat.eqb] in Hres. injection Hres as -> ->.
  unfold shape in *. cbn [truncate with_rows rows height width channels] in Hshape.
  injection Hshape as Hlen Hh Hw _.
  split; [|split; [|split; [|split]]].
  - cbn [scale tile_channels truncate with_rows rows height width channels].
    rewrite !length_map, Hlen, Hh, Hw, Hfake. done.
  - cbn [tile_channels rows height width channels].
    rewrite length_map, Hone. done.
  - intros i im Him.
    cbn [scale tile_channels truncate with_rows rows height width channels] in *.
    unfold image in *. rewrite !lookup_map, Him. eexists. split; [done|].
    intros h w c _. cbv beta. by rewrite Hfake, Nat.mod_1_r.
  - intros i im Him. cbn [tile_channels rows].
    unfold image in *. rewrite lookup_map, Him. eexists. split; [done|].
    intros h w c _. cbv beta. by rewrite Hone, Nat.mod_1_r.
  - apply fmul_255_range.
Qed.

Lemma single_channel_populations_broadcast_witness :
  channels (toy_test 100) = 1%nat
  /\ materialize toy_samples (toy_test 100) 100
     = inr (toy_materialized.1, toy_materialized.2)
  /\ shape toy_materialized.1 = (100%nat, 1%nat, 1%nat, 3%nat)
  /\ shape toy_materialized.2 = (100%nat, 1%nat, 1%nat, 3%nat).
Proof.
  assert (channels (toy_test 100) = 1%nat) as H1 by reflexivity.
  assert (materialize toy_samples (toy_test 100) 100
          = inr (toy_materialized.1, toy_materialized.2)) as H2
    by (vm_compute; reflexivity).
  split; [exact H1|]. split; [exact H2|].
  destruct (single_channel_populations_broadcast toy_samples (toy_test 100) 100
              toy_materialized.1 toy_materialized.2 H1 H2)
    as (fake_all & _ & Hfake & Hreal & _).
  split; [exact Hfake | exact Hreal].
Defined.


Lemma materialize_shapes (samples : list ndarray) (real_images : ndarray)
    (num_test_examples : Z) (fake_images' real_images' : ndarray) :
  materialize samples real_images num_test_examples
    = inr (fake_images', real_images') ->
  shape fake_images' = shape real_images'
  /\ shape0 fake_images' = shape0 real_images
  /\ shape0 real_images' = shape0 real_images.
Proof.
  intros (fake_all & _ & Hshape & Hres)%materialize_ok.
  unfold shape, shape0 in *.
  cbn [truncate with_rows rows height width channels] in Hshape.
  injection Hshape as Hlen Hh Hw Hc.
  destruct (channels fake_all =? 1)%nat; injection Hres as -> ->;
    cbn [scale tile_channels truncate with_rows rows height width channels];
    rewrite ?length_map, ?Hlen, ?Hh, ?Hw, ?Hc; done.
Qed.

(** C4. When [RunCheckpointEval] reaches its [RunAfterSession] hooks, the
    number of test examples [n] is the configured number [m] (from the
    options, or from the parameters of the data set) brought down to a
    multiple of 50; the real images are the [n] images [GetRealImages] reads;
    the samples are what the generation loop returns for [n], that is
    ceil(n / batch_size) whole batches, the least number of batches holding
    [n] images when every batch holds [batch_size] of them; and the fake
    population is made of the images of those batches, in order, cut to the
    first [n] of them (then tiled to three channels when there is one, and
    multiplied by 255). So the fake and the real array have the same shape,
    with [n] images each. *)
Theorem populations_have_target_count {world : Collaborators}
    (checkpoint_path : string) (options : gmap string pyval)
    (tasks_to_run : list EvalTask) (result_dict : gmap string pyfloat)
    (fake real : ndarray) (s s' : rng) :
  eval_populations checkpoint_path options tasks_to_run s
    = (inr (result_dict, fake, real), s') ->
  let gan := restored_gan options checkpoint_path in
  exists (dataset : pyval) (dataset_params : gmap string pyval) (m n : Z)
         (samples : list ndarray) (real_images : ndarray) (s_gen : rng),
    (* the target count *)
    options !! "dataset" = Some dataset
    /\ GetDatasetParameters dataset = inr dataset_params
    /\ as_int (dict_get (dict_update dataset_params options) "eval_test_samples"
                 (VInt 10000)) = inr m
    /\ n = m - m mod INCEPTION_BATCH
    /\ n mod INCEPTION_BATCH = 0
    /\ n <= m < n + INCEPTION_BATCH
    /\ 0 < n
    (* the real images *)
    /\ GetRealImages dataset "test" n true = inr real_images
    /\ shape0 real_images = n
    (* the generated batches *)
    /\ 0 < batch_size gan
    /\ generate_samples gan n (np_random_seed 42) = (inr samples, s_gen)
    /\ length samples = Z.to_nat (- (- n / batch_size gan))
    /\ Forall (fun x => exists z, x = fake_images gan z) samples
    /\ ((forall z, shape0 (fake_images gan z) = batch_size gan) ->
        n <= Z.of_nat (length (concat (map rows samples))) < n + batch_size gan)
    /\ run_in_session tasks_to_run options gan real_images ∅ s_gen
       = (inr result_dict, s')
    (* the fake population: the images of the batches, in order, cut to n *)
    /\ (let generated := concat (map rows samples) in
        let cut := NdArray (take (Z.to_nat n) generated) (height real_images)
                     (width real_images) (channels real_images) in
        n <= Z.of_nat (length generated)
        /\ length (take (Z.to_nat n) generated) = Z.to_nat n
        /\ Forall (fun x => same_image_shape x real_images = true) samples
        /\ (fake, real)
           = if (channels real_images =? 1)%nat
             then (scale (Fin 255) (tile_channels cut), tile_channels real_images)
             else (scale (Fin 255) cut, real_images))
    /\ shape fake = shape real
    /\ shape0 fake = n
    /\ shape0 real = n.
Proof.
  intros Hrun gan. unfold eval_populations in Hrun.
  apply M_bind_ok in Hrun as ([] & s1 & Hseed & Hrun).
  apply M_bind_ok in Hrun as (gan_type & s2 & [_ ->]%lift_ok & Hrun).
  apply M_bind_ok in Hrun as ([] & s3 & Hsup & Hrun).
  apply M_bind_ok in Hrun as (dataset & s4 & [Hds ->]%lift_ok & Hrun).
  apply M_bind_ok in Hrun as (dataset_params & s5 & [Hparams ->]%lift_ok & Hrun).
  apply M_bind_ok in Hrun as (n & s6 & [Hn ->]%lift_ok & Hrun).
  apply M_bind_ok in Hrun as (dataset' & s7 & [Hds' ->]%lift_ok & Hrun).
  apply M_bind_ok in Hrun as (real_images & s8 & [Hreal ->]%lift_ok & Hrun).
  cbv zeta in Hrun. fold gan in Hrun.
  apply M_bind_ok in Hrun as (samples & s9 & Hgen & Hrun).
  apply M_bind_ok in Hrun as (rd & s10 & Hin & Hrun).
  apply M_bind_ok in Hrun as ([fake1 real1] & s11 & [Hmat ->]%lift_ok & Hrun).
  injection Hrun as <- <- <- <-.
  assert (s1 = np_random_seed 42) as -> by (by injection Hseed as <-).
  assert (s3 = np_random_seed 42) as ->.
  { destruct (negb (val_in gan_type SUPPORTED_GANS)); [done|].
    by injection Hsup as <-. }
  rewrite Hds in Hds'. injection Hds' as <-.
  unfold getitem in Hds. destruct (options !! "dataset") as [d|] eqn:Hopt; [|done].
  injection Hds as ->.
  pose proof Hn as Hn'.
  apply target_test_examples_ok in Hn as (m & Hm & Hnm & Hmod & Hbound).
  pose proof (GetRealImages_required_count _ _ _ _ Hreal) as Hcount.
  pose proof Hgen as Hgen'.
  unfold generate_samples in Hgen.
  apply M_bind_ok in Hgen as (k & s0 & [[Hbs ->]%ceildiv_ok ->]%lift_ok & Hgen).
  apply generate_loop_ok in Hgen as (batches & Hsamples & Hlen & Hall).
  rewrite app_nil_l in Hsamples. subst batches. rewrite range_length in Hlen.
  pose proof (materialize_shapes _ _ _ _ _ Hmat) as (Hsh & Hf & Hr).
  pose proof (materialize_ok _ _ _ _ _ Hmat) as (fake_all & Hcat & Hshape & Hres).
  pose proof Hcat as [Hne Hrows]%np_concatenate_ok.
  assert (0 < length samples)%nat as Hpos by (destruct samples; [done | simpl; lia]).
  assert (0 <= n) as Hn0 by (rewrite <- Hcount; unfold shape0; lia).
  assert (0 < batch_size gan) as Hbspos.
  { destruct (Z.lt_trichotomy (batch_size gan) 0) as [Hneg|[Hz|Hp]]; [|done|done].
    exfalso.
    assert (0 <= - n / batch_size gan); [|lia].
    replace (- n / batch_size gan) with (n / - batch_size gan).
    - apply Z.div_pos; lia.
    - rewrite <- (Z.div_opp_opp n (- batch_size gan)) by lia.
      by rewrite Z.opp_involutive. }
  assert (0 < n) as Hnpos.
  { destruct (Z.eq_dec n 0) as [->|]; [|lia].
    rewrite Z.opp_0, Z.div_0_l in Hlen by lia. simpl in Hlen. lia. }
  (* the truncation *)
  unfold shape in Hshape.
  cbn [truncate with_rows rows height width channels] in Hshape.
  injection Hshape as Hcut Hh Hw Hc.
  rewrite py_slice_prefix in Hcut by lia. rewrite Hrows in Hcut.
  assert (length (take (Z.to_nat n) (concat (map rows samples))) = Z.to_nat n)
    as Hcutlen by (rewrite Hcut; unfold shape0 in Hcount; lia).
  assert (truncate fake_all n
          = NdArray (take (Z.to_nat n) (concat (map rows samples)))
              (height real_images) (width real_images) (channels real_images))
    as Htrunc.
  { unfold truncate, with_rows. rewrite py_slice_prefix by lia.
    by rewrite Hrows, Hh, Hw, Hc. }
  exists dataset, dataset_params, m, n, samples, real_images, s9.
  split; [done|]. split; [done|]. split; [done|]. split; [done|].
  split; [done|]. split; [done|]. split; [done|]. split; [done|].
  split; [done|]. split; [done|]. split; [done|]. split; [done|].
  split; [apply (Forall_impl _ _ _ Hall); intros x [Hx _]; exact Hx |].
  split.
  { intros Hbatch.
    rewrite (concat_rows_length samples (batch_size gan)).
    - rewrite Hlen, Z2Nat.id by lia. by apply ceildiv_bounds.
    - apply (Forall_impl _ _ _ Hall). intros x [[z ->] _]. apply Hbatch. }
  split; [done|].
  split.
  { cbv zeta. split.
    { rewrite length_take in Hcutlen. lia. }
    split; [done|]. split.
    { unfold np_concatenate in Hcat. destruct samples as [|a rest]; [done|].
      destruct (forallb (same_image_shape a) rest) eqn:Hsame; [|done].
      injection Hcat as <-. cbn [with_rows height width channels] in Hh, Hw, Hc.
      assert (same_image_shape a real_images = true) as Ha.
      { unfold same_image_shape. rewrite Hh, Hw, Hc, !Nat.eqb_refl. done. }
      constructor; [done|].
      apply Forall_forall. intros x Hx.
      rewrite forallb_forall in Hsame.
      specialize (Hsame x (proj1 (list_elem_of_In _ _) Hx)).
      unfold same_image_shape in *.
      rewrite !andb_true_iff, !Nat.eqb_eq in *.
      destruct Hsame as [[? ?] ?]. destruct Ha as [[? ?] ?].
      repeat split; congruence. }
    rewrite Hres, Htrunc, Hc. done. }
  split; [done|]. split; [by rewrite Hf | by rewrite Hr].
Qed.

Lemma populations_have_target_count_witness :
  exists (result_dict : gmap string pyfloat) (fake real : ndarray) (s' : nat),
    eval_populations (world := toy_world) "ckpt-1" toy_options toy_tasks 0%nat
      = (inr (result_dict, fake, real), s')
    /\ exists (n : Z) (samples : list ndarray) (real_images : ndarray),
         n mod INCEPTION_BATCH = 0
         /\ GetRealImages (world := toy_world) (VStr "toy") "test" n true
            = inr real_images
         /\ length (take (Z.to_nat n) (concat (map rows samples))) = Z.to_nat n
         /\ (let cut := NdArray (take (Z.to_nat n) (concat (map rows samples)))
                          (height real_images) (width real_images)
                          (channels real_images) in
             (fake, real)
             = if (channels real_images =? 1)%nat
               then (scale (Fin 255) (tile_channels cut), tile_channels real_images)
               else (scale (Fin 255) cut, real_images))
         /\ shape fake = shape real /\ shape0 fake = n /\ shape0 real = n.
Proof.
  destruct (eval_populations (world := toy_world) "ckpt-1" toy_options toy_tasks
              0%nat) as [[e|[[result_dict fake] real]] s'] eqn:Hrun.
  - vm_compute in Hrun. discriminate Hrun.
  - exists result_dict, fake, real, s'. split; [reflexivity|].
    destruct (populations_have_target_count (world := toy_world) "ckpt-1"
                toy_options toy_tasks result_dict fake real 0%nat s' Hrun)
      as (dataset & dataset_params & m & n & samples & real_images & s_gen
          & Hds & _ & _ & _ & Hmod & _ & _ & Hreal & _ & _ & _ & _ & _ & _ & _
          & (_ & Hcutlen & _ & Hpair) & Hshape & Hfake & Hrealn).
    assert (dataset = VStr "toy") as ->.
    { assert (toy_options !! "dataset" = Some (VStr "toy")) as Htoy
        by (vm_compute; reflexivity).
      rewrite Htoy in Hds. by injection Hds as <-. }
    exists n, samples, real_images. split; [exact Hmod|]. split; [exact Hreal|].
    split; [exact Hcutlen|]. split; [exact Hpair|]. split; [exact Hshape|].
    split; [exact Hfake | exact Hrealn].
Defined.

(** ** The layout of the score table *)

Lemma digit_is_digit (d : Z) : 0 <= d < 10 -> is_digit (digit d) = true.
Proof.
  intros Hd.
  assert (d = 0 \/ d = 1 \/ d = 2 \/ d = 3 \/ d = 4 \/ d = 5 \/ d = 6 \/ d = 7
          \/ d = 8 \/ d = 9) as Hcases by lia.
  repeat (destruct Hcases as [->|Hcases]; [reflexivity|]). by subst.
Qed.

(** ["%.3f"] of a finite number ends with a point and three decimal
    digits. *)
Lemma format_3f_three_decimals (q : Q) :
  exists (whole : string) (d1 d2 d3 : Ascii.ascii),
    format_3f (Fin q)
    = whole +:+ "." +:+ String d1 (String d2 (String d3 EmptyString))
    /\ is_digit d1 = true /\ is_digit d2 = true /\ is_digit d3 = true.
Proof.
  unfold format_3f.
  set (m := round_half_even (Qabs q * 1000)).
  pose proof (Z.mod_pos_bound m 1000 eq_refl) as Hm.
  exists ((if Qle_bool 0 q then "" else "-") +:+ pretty (Z.to_N (m / 1000))).
  eexists _, _, _. split.
  - unfold three_digits. destruct (Qle_bool 0 q); reflexivity.
  - repeat split; apply digit_is_digit.
    + apply Z.mod_pos_bound. done.
    + apply Z.mod_pos_bound. done.
    + apply Z.mod_pos_bound. done.
Qed.

Section Layout.
Context {world : Collaborators}.

Lemma task_headers_of_concat (tasks_to_run : list EvalTask) :
  task_headers_of tasks_to_run
  = concat (map (fun task => sorted (elements (MetricsList task))) tasks_to_run).
Proof.
  unfold task_headers_of.
  assert (forall acc,
            foldl (fun task_headers task =>
                     task_headers ++ sorted (elements (MetricsList task)))
                  acc tasks_to_run
            = acc ++ concat (map (fun task => sorted (elements (MetricsList task)))
                               tasks_to_run)) as Hgen.
  { induction tasks_to_run as [|t ts IH]; intros acc; simpl.
    - by rewrite app_nil_r.
    - by rewrite IH, app_assoc. }
  apply Hgen.
Qed.

Lemma metric_cells_foldl (result_dict : gmap string pyfloat) (default_value : pyfloat)
    (task_headers : list string) (acc : list string) :
  foldl (fun output_row task_metric =>
           output_row
             ++ [format_3f (dict_get result_dict task_metric default_value)])
        acc task_headers
  = acc ++ map (fun task_metric =>
                  format_3f (dict_get result_dict task_metric default_value))
             task_headers.
Proof.
  revert acc. induction task_headers as [|m ms IH]; intros acc; simpl.
  - by rewrite app_nil_r.
  - by rewrite IH, <- app_assoc.
Qed.

(** The hyperparameter columns of a row: one cell per parameter, after
    what the row holds already. *)
Lemma param_cells_ok (options : gmap string pyval) (train_params : list string)
    (acc row : list string) :
  for_each (Mo := result) train_params
    (fun param output_row =>
       match options !! param with
       | Some v => mret (output_row ++ [csv_str v])
       | None => v ← getitem DEFAULT_VALUES param; mret (output_row ++ [py_str v])
       end) acc = inr row ->
  exists cells, row = acc ++ cells /\ length cells = length train_params.
Proof.
  revert acc. induction train_params as [|p ps IH]; intros acc Hrun.
  - injection Hrun as <-. exists []. by rewrite app_nil_r.
  - cbn [for_each] in Hrun. apply result_bind_ok in Hrun as (acc1 & Hstep & Hrun).
    apply IH in Hrun as (cells & -> & Hlen).
    destruct (options !! p) as [v|].
    + injection Hstep as <-. exists (csv_str v :: cells).
      rewrite <- app_assoc. split; [done|]. simpl. by rewrite Hlen.
    + apply result_bind_ok in Hstep as (v & _ & [= <-]).
      exists (py_str v :: cells).
      rewrite <- app_assoc. split; [done|]. simpl. by rewrite Hlen.
Qed.

Lemma param_cells_run (options : gmap string pyval) (train_params : list string)
    (acc : list string) :
  (forall param, param ∈ train_params ->
                 is_Some (options !! param) \/ is_Some (DEFAULT_VALUES !! param)) ->
  exists row,
    for_each (Mo := result) train_params
      (fun param output_row =>
         match options !! param with
         | Some v => mret (output_row ++ [csv_str v])
         | None => v ← getitem DEFAULT_VALUES param; mret (output_row ++ [py_str v])
         end) acc = inr row.
Proof.
  revert acc. induction train_params as [|p ps IH]; intros acc Hcols.
  - by exists acc.
  - cbn [for_each].
    assert (forall param, param ∈ ps ->
              is_Some (options !! param) \/ is_Some (DEFAULT_VALUES !! param))
      as Hrest by (intros param Hin; apply Hcols; by right).
    destruct (options !! p) as [v|] eqn:Hopt.
    + destruct (IH (acc ++ [csv_str v]) Hrest) as (row & Hrow). by exists row.
    + destruct (Hcols p) as [[v Hv]|[v Hv]]; [by left | congruence |].
      destruct (IH (acc ++ [py_str v]) Hrest) as (row & Hrow).
      exists row. unfold getitem. rewrite Hv. exact Hrow.
Qed.

(** The shape of a row: five fixed cells, one cell per metric column holding
    ["%.3f"] of the metric or of the default, one cell per hyperparameter. *)
Lemma output_row_ok (options : gmap string pyval) (checkpoint_path : string)
    (task_headers train_params : list string)
    (result_dict : gmap string pyfloat) (default_value : pyfloat)
    (row : list string) :
  output_row options checkpoint_path task_headers train_params result_dict
    default_value = inr row ->
  exists (gan_type dataset : pyval) (cells : list string),
    options !! "gan_type" = Some gan_type
    /\ options !! "dataset" = Some dataset
    /\ length cells = length train_params
    /\ row = [checkpoint_path; csv_str gan_type; csv_str dataset;
              py_str (dict_get options "tf_seed" (VInt (-1)));
              py_str (dict_get options "sample_id" (VInt (-1)))]
             ++ map (fun task_metric =>
                       format_3f (dict_get result_dict task_metric default_value))
                  task_headers
             ++ cells.
Proof.
  unfold output_row. intros Hrow.
  apply result_bind_ok in Hrow as (gan_type & Hgt & Hrow).
  apply result_bind_ok in Hrow as (dataset & Hds & Hrow).
  cbv zeta in Hrow. rewrite metric_cells_foldl in Hrow.
  apply param_cells_ok in Hrow as (cells & -> & Hlen).
  exists gan_type, dataset, cells.
  unfold getitem in Hgt, Hds.
  destruct (options !! "gan_type"); [|done]. destruct (options !! "dataset"); [|done].
  injection Hgt as ->. injection Hds as ->.
  repeat (split; [done|]). by rewrite <- app_assoc.
Qed.

Lemma output_row_run (options : gmap string pyval) (checkpoint_path : string)
    (task_headers train_params : list string)
    (result_dict : gmap string pyfloat) (default_value : pyfloat)
    (gan_type dataset : pyval) :
  options !! "gan_type" = Some gan_type ->
  options !! "dataset" = Some dataset ->
  (forall param, param ∈ train_params ->
                 is_Some (options !! param) \/ is_Some (DEFAULT_VALUES !! param)) ->
  exists row,
    output_row options checkpoint_path task_headers train_params result_dict
      default_value = inr row.
Proof.
  intros Hgt Hds Hcols. unfold output_row, getitem. rewrite Hgt, Hds.
  cbn [mbind result_bind]. cbv zeta.
  apply param_cells_run. exact Hcols.
Qed.
End Layout.

Lemma tasks_for_ok {world : Collaborators} (options : gmap string pyval)
    (tasks_to_run : list EvalTask) :
  tasks_for options = inr tasks_to_run ->
  exists dataset,
    options !! "dataset" = Some dataset
    /\ tasks_to_run
       = [InceptionScoreTask; FIDScoreTask; MultiscaleSSIMTask; ComputeAccuracyTask;
          FractalDimensionTask; KIDScoreTask; GeneratorConditionNumberTask;
          GILBOTask dataset].
Proof.
  unfold tasks_for, getitem. destruct (options !! "dataset") as [dataset|]; [|done].
  intros [= <-]. by exists dataset.
Qed.

Lemma task_headers_of_tasks {world : Collaborators} (dataset : pyval) :
  task_headers_of
    [InceptionScoreTask; FIDScoreTask; MultiscaleSSIMTask; ComputeAccuracyTask;
     FractalDimensionTask; KIDScoreTask; GeneratorConditionNumberTask;
     GILBOTask dataset]
  = ["inception_score"; "fid_score"; "ms_ssim";
     "fake_accuracy"; "test_accuracy"; "test_d_loss"; "train_accuracy";
     "train_d_loss";
     "fractal_dimension"; "kid_score";
     "log_condition_number_count"; "log_condition_number_mean";
     "log_condition_number_std";
     "gilbo"; "gilbo_eval_consistency"; "gilbo_self_consistency";
     "gilbo_train_consistency"].
Proof. vm_compute. reflexivity. Qed.

Lemma GetAllTrainingParams_sorted {world : Collaborators} :
  StronglySorted string_le GetAllTrainingParams.
Proof. apply sorted_is_sorted. Qed.

(** C3, amended. The header is the five fixed columns, then the metric names
    task by task in the order of [tasks_to_run], the names of one task being
    sorted, then the hyperparameter names in sorted order. A row lists, after
    its five fixed cells, the metrics in the order of the header, each
    formatted by ["%.3f"], which ends a finite number with a point and three
    decimal digits, and then one cell per hyperparameter. *)
Theorem score_table_layout {world : Collaborators} (options : gmap string pyval)
    (tasks_to_run : list EvalTask) (checkpoint_path : string)
    (result_dict : gmap string pyfloat) (default_value : pyfloat)
    (row : list string) :
  tasks_for options = inr tasks_to_run ->
  output_row options checkpoint_path (task_headers_of tasks_to_run)
    GetAllTrainingParams result_dict default_value = inr row ->
  let task_headers :=
    ["inception_score"; "fid_score"; "ms_ssim";
     "fake_accuracy"; "test_accuracy"; "test_d_loss"; "train_accuracy";
     "train_d_loss";
     "fractal_dimension"; "kid_score";
     "log_condition_number_count"; "log_condition_number_mean";
     "log_condition_number_std";
     "gilbo"; "gilbo_eval_consistency"; "gilbo_self_consistency";
     "gilbo_train_consistency"] in
  csv_header_of tasks_to_run
  = ["checkpoint_path"; "model"; "dataset"; "tf_seed"; "sample_id"]
      ++ task_headers ++ GetAllTrainingParams
  /\ task_headers
     = concat (map (fun task => sorted (elements (MetricsList task))) tasks_to_run)
  /\ Forall (fun task =>
               StronglySorted string_le (sorted (elements (MetricsList task))))
       tasks_to_run
  /\ StronglySorted string_le GetAllTrainingParams
  /\ (exists fixed cells : list string,
        length fixed = 5%nat
        /\ length cells = length GetAllTrainingParams
        /\ row = fixed
                 ++ map (fun task_metric =>
                           format_3f (dict_get result_dict task_metric default_value))
                      task_headers
                 ++ cells)
  /\ (forall q, exists (whole : string) (d1 d2 d3 : Ascii.ascii),
        format_3f (Fin q)
        = whole +:+ "." +:+ String d1 (String d2 (String d3 EmptyString))
        /\ is_digit d1 = true /\ is_digit d2 = true /\ is_digit d3 = true).
Proof.
  intros Htasks Hrow task_headers.
  apply tasks_for_ok in Htasks as (dataset & Hds & ->).
  assert (task_headers_of
            [InceptionScoreTask; FIDScoreTask; MultiscaleSSIMTask;
             ComputeAccuracyTask; FractalDimensionTask; KIDScoreTask;
             GeneratorConditionNumberTask; GILBOTask dataset] = task_headers)
    as Hheaders by apply task_headers_of_tasks.
  split; [|split; [|split; [|split; [|split]]]].
  - unfold csv_header_of. by rewrite Hheaders, <- app_assoc.
  - by rewrite <- Hheaders, task_headers_of_concat.
  - apply Forall_forall. intros task _. apply sorted_is_sorted.
  - apply GetAllTrainingParams_sorted.
  - rewrite Hheaders in Hrow.
    apply output_row_ok in Hrow as (gan_type & dataset' & cells & _ & _ & Hlen & ->).
    eexists _, cells. split; [|split; [exact Hlen | reflexivity]]. done.
  - apply format_3f_three_decimals.
Qed.

Lemma score_table_layout_witness :
  tasks_for (world := toy_world) toy_options = inr toy_tasks
  /\ csv_header_of (world := toy_world) toy_tasks
     = ["checkpoint_path"; "model"; "dataset"; "tf_seed"; "sample_id";
        "inception_score"; "fid_score"; "ms_ssim";
        "fake_accuracy"; "test_accuracy"; "test_d_loss"; "train_accuracy";
        "train_d_loss";
        "fractal_dimension"; "kid_score";
        "log_condition_number_count"; "log_condition_number_mean";
        "log_condition_number_std";
        "gilbo"; "gilbo_eval_consistency"; "gilbo_self_consistency";
        "gilbo_train_consistency"]
       ++ GetAllTrainingParams (world := toy_world).
Proof.
  assert (tasks_for (world := toy_world) toy_options = inr toy_tasks) as H1
    by reflexivity.
  split; [exact H1|].
  destruct (output_row (world := toy_world) toy_options "ckpt-1"
              (task_headers_of toy_tasks) GetAllTrainingParams ∅ (Fin (-1)))
    as [e|row] eqn:Hrow.
  - vm_compute in Hrow. discriminate Hrow.
  - exact (proj1 (score_table_layout (world := toy_world) toy_options toy_tasks
                    "ckpt-1" ∅ (Fin (-1)) row H1 Hrow)).
Defined.

(** C3, as stated, fails: the metric names of the header are not in sorted
    order as a whole (["inception_score"] comes before ["fid_score"]), so the
    header differs from the one with all the metric names sorted. *)
Lemma header_metrics_not_globally_sorted :
  csv_header_of (world := toy_world) toy_tasks !! 5%nat = Some "inception_score"
  /\ csv_header_of (world := toy_world) toy_tasks !! 6%nat = Some "fid_score"
  /\ String.leb "inception_score" "fid_score" = false
  /\ csv_header_of (world := toy_world) toy_tasks
     <> spec_csv_header (world := toy_world) toy_tasks.
Proof.
  split; [by vm_compute|]. split; [by vm_compute|]. split; [by vm_compute|].
  vm_compute. discriminate.
Qed.

(** ** Reading the score table *)

Lemma sorted_keys_Some (l : list string) :
  StronglySorted key_le (Some <$> sorted l).
Proof.
  pose proof (sorted_is_sorted l) as Hs.
  induction Hs as [|x xs Hxs IH Hall]; [constructor|].
  rewrite fmap_cons. constructor; [done|].
  apply Forall_fmap. apply (Forall_impl _ _ _ Hall). by intros y Hy.
Qed.

(** The test of [check_row] passes when the keys of the row are the names of
    the header, each once. *)
Lemma keys_match (csv_header : list string) (keys : gset (option string)) :
  NoDup csv_header ->
  keys = list_to_set (Some <$> csv_header) ->
  Some <$> sorted csv_header = sorted_keys (elements keys).
Proof.
  intros Hnodup ->.
  apply (StronglySorted_unique key_le).
  - apply sorted_keys_Some.
  - apply StronglySorted_merge_sort; apply _.
  - unfold sorted_keys. rewrite merge_sort_Permutation.
    rewrite elements_list_to_set by (by apply NoDup_fmap_2; [apply _|]).
    by rewrite sorted_Permutation.
Qed.

(** The test fails when the set of keys differs from the set of names of the
    header. *)
Lemma keys_mismatch (csv_header : list string) (keys : gset (option string)) :
  keys <> list_to_set (Some <$> csv_header) ->
  Some <$> sorted csv_header <> sorted_keys (elements keys).
Proof.
  intros Hne Heq. apply Hne.
  apply (f_equal (list_to_set (C := gset (option string)))) in Heq.
  unfold sorted_keys in Heq.
  rewrite (list_to_set_perm_L _ _ (merge_sort_Permutation key_le _)) in Heq.
  rewrite list_to_set_elements_L in Heq. rewrite <- Heq.
  apply list_to_set_perm_L. apply fmap_Permutation. apply sorted_Permutation.
Qed.

Section RowDict.
Implicit Types (d : gmap (option string) cell) (h r : list string).

Lemma zip_insert_dom d h r :
  length r = length h ->
  dom (foldl (fun d kv => <[Some kv.1 := CStr kv.2]> d) d (zip h r))
  = dom d ∪ list_to_set (Some <$> h).
Proof.
  revert d r. induction h as [|k h IH]; intros d [|v r] Hlen; simplify_eq/=.
  - set_solver.
  - rewrite IH by done. rewrite dom_insert_L. set_solver.
Qed.

Lemma zip_insert_lookup_other d h r (k : string) :
  k ∉ h ->
  foldl (fun d kv => <[Some kv.1 := CStr kv.2]> d) d (zip h r) !! Some k
  = d !! Some k.
Proof.
  revert d r. induction h as [|k' h IH]; intros d [|v r] Hk; simpl; try done.
  apply not_elem_of_cons in Hk as [Hne Hk].
  rewrite IH by done. apply lookup_insert_ne. congruence.
Qed.

(** A row with one field per column, under a header whose names are
    distinct: its keys are the names of the header and its first name maps
    to its first field. *)
Lemma DictReader_row_full (k : string) h (v : string) r :
  NoDup (k :: h) -> length r = length h ->
  dom (DictReader_row (k :: h) (v :: r)) = list_to_set (Some <$> k :: h)
  /\ DictReader_row (k :: h) (v :: r) !! Some k = Some (CStr v).
Proof.
  intros Hnodup Hlen. apply NoDup_cons in Hnodup as [Hk Hnodup].
  unfold DictReader_row. cbn [length]. rewrite Hlen, Nat.ltb_irrefl.
  split.
  - rewrite zip_insert_dom by (simpl; by rewrite Hlen). set_solver.
  - simpl. rewrite zip_insert_lookup_other by done. by rewrite lookup_insert_eq.
Qed.
End RowDict.

Lemma check_row_ok (csv_header : list string) (row : gmap (option string) cell)
    (finished : gset (option string)) (v : string) :
  NoDup csv_header ->
  dom row = list_to_set (Some <$> csv_header) ->
  row !! Some "checkpoint_path" = Some (CStr v) ->
  check_row csv_header row finished = inr (finished ∪ {[Some v]}).
Proof.
  intros Hnodup Hdom Hlookup. unfold check_row.
  rewrite bool_decide_eq_false_2; last first.
  { intros Hne. apply Hne. by apply keys_match. }
  by rewrite Hlookup.
Qed.

(** The loop over the rows of a well-formed table collects the first field
    of every row. *)
Lemma read_rows_ok (csv_header : list string) (records : list (list string))
    (finished : gset (option string)) :
  NoDup csv_header ->
  head csv_header = Some "checkpoint_path" ->
  Forall (fun row : list string => length row = length csv_header) records ->
  for_each (Mo := result) (DictReader (csv_header :: records)) (check_row csv_header)
    finished
  = inr (finished ∪ list_to_set (head <$> records)).
Proof.
  intros Hnodup Hhead Hrows. revert finished.
  destruct csv_header as [|k h]; [done|]. injection Hhead as ->.
  unfold DictReader.
  induction Hrows as [|row records Hlen _ IH]; intros finished.
  - simpl. f_equal. set_solver.
  - destruct row as [|v r]; [done|]. injection Hlen as Hlen.
    rewrite filter_cons_True by done. rewrite fmap_cons. cbn [for_each].
    destruct (DictReader_row_full "checkpoint_path" h v r Hnodup Hlen)
      as [Hdom Hlookup].
    rewrite (check_row_ok _ _ _ v Hnodup Hdom Hlookup).
    cbn [mbind result_bind]. rewrite IH. f_equal.
    rewrite fmap_cons, list_to_set_cons. cbn [head].
    by rewrite <- (assoc_L (∪)).
Qed.

(** ** The sweep *)

Section Sweep.
Context {world : Collaborators}.
Variables (options : gmap string pyval) (tasks_to_run : list EvalTask).
Variables (task_headers train_params : list string).
Variable finished : gset (option string).

Lemma sweep_step_skip (checkpoint_path : string) (st : sweep_state) :
  Some checkpoint_path ∈ finished ->
  sweep_step options tasks_to_run task_headers train_params finished
    checkpoint_path tt st = (inr tt, st).
Proof. intros Hin. unfold sweep_step. by rewrite bool_decide_eq_true_2. Qed.

(** A checkpoint that is not finished is evaluated; its row is built from
    the result, or from the sentinel when [NanFoundError] is caught. *)
Lemma sweep_step_eval (checkpoint_path : string) (st : sweep_state)
    (r : result (gmap string pyfloat)) (s1 : rng) :
  Some checkpoint_path ∉ finished ->
  RunCheckpointEval checkpoint_path options tasks_to_run (np_random st) = (r, s1) ->
  sweep_step options tasks_to_run task_headers train_params finished
    checkpoint_path tt st
  = let st' := MkSweepState _ (scores_file st) s1
                 (evaluated st ++ [checkpoint_path]) in
    match r with
    | inr result_dict =>
        match output_row options checkpoint_path task_headers train_params
                result_dict (Fin (-1)) with
        | inr row => (inr tt, after_row st checkpoint_path row s1)
        | inl e => (inl e, st')
        end
    | inl (NanFoundError _) =>
        match output_row options checkpoint_path task_headers train_params
                ∅ NAN_DETECTED with
        | inr row => (inr tt, after_row st checkpoint_path row s1)
        | inl e => (inl e, st')
        end
    | inl e => (inl e, st')
    end.
Proof.
  intros Hnot Hrun. unfold sweep_step. rewrite bool_decide_eq_false_2 by done.
  unfold mbind, Sweep_bind, try_RunCheckpointEval. rewrite Hrun.
  destruct r as [e|result_dict].
  - destruct e; try done.
    all: unfold lift_result;
      by destruct (output_row options checkpoint_path task_headers train_params
                     ∅ NAN_DETECTED).
  - unfold lift_result.
    by destruct (output_row options checkpoint_path task_headers train_params
                   result_dict (Fin (-1))).
Qed.

Lemma sweep_step_ok (checkpoint_path : string) (st st1 : sweep_state) :
  sweep_step options tasks_to_run task_headers train_params finished
    checkpoint_path tt st = (inr tt, st1) ->
  (Some checkpoint_path ∈ finished /\ st1 = st)
  \/ ((Some checkpoint_path ∉ finished)
      /\ exists result_dict default_value row s1,
           output_row options checkpoint_path task_headers train_params
             result_dict default_value = inr row
           /\ st1 = after_row st checkpoint_path row s1).
Proof.
  intros Hstep. destruct (decide (Some checkpoint_path ∈ finished)) as [Hin|Hnot].
  - left. rewrite sweep_step_skip in Hstep by done. by injection Hstep as <-.
  - right. split; [done|].
    destruct (RunCheckpointEval checkpoint_path options tasks_to_run (np_random st))
      as [r s1] eqn:Hrun.
    rewrite (sweep_step_eval _ _ _ _ Hnot Hrun) in Hstep. cbv zeta in Hstep.
    destruct r as [e|result_dict].
    + destruct e; try done.
      destruct (output_row _ _ _ _ ∅ NAN_DETECTED) as [e|row] eqn:Hrow; [done|].
      injection Hstep as <-. by eexists _, _, _, _.
    + destruct (output_row _ _ _ _ result_dict (Fin (-1))) as [e|row] eqn:Hrow;
        [done|].
      injection Hstep as <-. by eexists _, _, _, _.
Qed.

(** A sweep that finishes has evaluated the pending checkpoints, in order,
    and appended one row for each, headed by its path. *)
Lemma sweep_loop_ok (paths : list string) (content : csv_content)
    (st st1 : sweep_state) :
  scores_file st = Some content ->
  for_each paths
    (sweep_step options tasks_to_run task_headers train_params finished) tt st
  = (inr tt, st1) ->
  exists new_rows,
    scores_file st1 = Some (content ++ new_rows)
    /\ evaluated st1 = evaluated st ++ pending finished paths
    /\ head <$> new_rows = Some <$> pending finished paths
    /\ Forall (fun row : list string =>
                 length row
                 = (5 + length task_headers + length train_params)%nat)
         new_rows.
Proof.
  revert content st. induction paths as [|c paths IH]; intros content st Hfile Hrun.
  - injection Hrun as <-. exists []. rewrite !app_nil_r. done.
  - cbn [for_each] in Hrun.
    destruct (sweep_step options tasks_to_run task_headers train_params finished
                c tt st) as [[e|[]] st'] eqn:Hstep.
    { by rewrite (Sweep_bind_raise _ _ _ _ _ Hstep) in Hrun. }
    rewrite (Sweep_bind_step _ _ _ _ _ Hstep) in Hrun.
    apply sweep_step_ok in Hstep
        as [[Hin ->]|(Hnot & rd & dv & row & s1 & Hrow & ->)].
    + apply (IH content) in Hrun as (new_rows & Hf & He & Hh & Hl); [|done].
      exists new_rows. unfold pending in *.
      rewrite filter_cons_False by (intros Hn; by apply Hn). done.
    + apply (IH (content ++ [row])) in Hrun as (new_rows & Hf & He & Hh & Hl);
        last by (unfold after_row; simpl; rewrite Hfile).
      exists (row :: new_rows). unfold pending in *.
      rewrite filter_cons_True by done.
      apply output_row_ok in Hrow
          as (gan_type & dataset & cells & _ & _ & Hlen & ->).
      split; [by rewrite Hf, <- app_assoc|].
      split; [by rewrite He; simpl; rewrite <- app_assoc|].
      split; [by rewrite !fmap_cons, Hh|].
      constructor; [|done].
      rewrite !length_app, length_map, Hlen. simpl. lia.
Qed.

Lemma sweep_loop_nothing_pending (paths : list string) (st : sweep_state) :
  (forall c, c ∈ paths -> Some c ∈ finished) ->
  for_each paths
    (sweep_step options tasks_to_run task_headers train_params finished) tt st
  = (inr tt, st).
Proof.
  induction paths as [|c paths IH]; intros Hall; [done|].
  cbn [for_each].
  rewrite (Sweep_bind_step _ _ _ st tt); last by (apply sweep_step_skip, Hall; left).
  apply IH. intros c' Hc'. apply Hall. by right.
Qed.
End Sweep.

Section RunTaskEval.
Context {world : Collaborators}.
Variables (options : gmap string pyval) (tasks_to_run : list EvalTask).
Variable paths : list string.
Hypothesis Htasks : tasks_for options = inr tasks_to_run.
Hypothesis Hpaths : get_checkpoint_state = Some paths.

Lemma csv_header_length :
  length (csv_header_of tasks_to_run)
  = (5 + length (task_headers_of tasks_to_run) + length GetAllTrainingParams)%nat.
Proof using Type. unfold csv_header_of. rewrite !length_app. simpl. lia. Qed.

Lemma csv_header_head :
  head (csv_header_of tasks_to_run) = Some "checkpoint_path".
Proof using Type. done. Qed.

(** With no scores file, the sweep starts by writing the header. *)
Lemma RunTaskEval_no_file (st : sweep_state) :
  scores_file st = None ->
  RunTaskEval options st
  = RunTaskEval options (with_file st [csv_header_of tasks_to_run]).
Proof using Htasks.
  intros Hnone. unfold RunTaskEval.
  rewrite !(Sweep_bind_step (lift_result (tasks_for options)) _ _ _ tasks_to_run)
    by (unfold lift_result; by rewrite Htasks).
  cbv zeta. unfold mbind at 1 3, Sweep_bind at 1 3, file_exists.
  rewrite Hnone. simpl. done.
Qed.

(** On a well-formed table the sweep is the loop over the checkpoints,
    with those recorded in the table finished. *)
Lemma RunTaskEval_on_table (st : sweep_state) (content : csv_content) :
  NoDup (csv_header_of tasks_to_run) ->
  scores_file st = Some content ->
  well_formed_table (csv_header_of tasks_to_run) content ->
  RunTaskEval options st
  = for_each paths
      (sweep_step options tasks_to_run (task_headers_of tasks_to_run)
         GetAllTrainingParams (recorded_paths content)) tt st.
Proof using Htasks Hpaths.
  intros Hnodup Hfile (records & -> & Hrows). unfold RunTaskEval.
  rewrite (Sweep_bind_step _ _ st st tasks_to_run)
    by (unfold lift_result; by rewrite Htasks).
  cbv zeta.
  rewrite (Sweep_bind_step _ _ st st true)
    by (unfold file_exists; by rewrite Hfile).
  cbn [negb]. rewrite (Sweep_bind_step _ _ st st tt) by done.
  rewrite (Sweep_bind_step _ _ st st
             (recorded_paths (csv_header_of tasks_to_run :: records))).
  - rewrite (Sweep_bind_step _ _ st st paths)
      by (unfold lift_result; by rewrite Hpaths).
    done.
  - unfold finished_checkpoints_of.
    rewrite (Sweep_bind_step _ _ st st (csv_header_of tasks_to_run :: records))
      by (unfold read_records; by rewrite Hfile).
    rewrite (read_rows_ok _ _ _ Hnodup csv_header_head Hrows).
    unfold recorded_paths. cbn [drop]. by rewrite (left_id_L ∅ (∪)).
Qed.
End RunTaskEval.

(** ** Corrupted generation *)

(** [RunCheckpointEval] reads the model type and the data set of the options
    before it generates anything. *)
Lemma RunCheckpointEval_nan_options {world : Collaborators}
    (checkpoint_path : string) (options : gmap string pyval)
    (tasks_to_run : list EvalTask) (s s1 : rng) (msg : string) :
  RunCheckpointEval checkpoint_path options tasks_to_run s
    = (inl (NanFoundError msg), s1) ->
  exists gan_type dataset,
    options !! "gan_type" = Some gan_type /\ options !! "dataset" = Some dataset.
Proof.
  unfold RunCheckpointEval, eval_populations. intros Hrun.
  unfold mbind at 1 2 3, M_bind at 1 2 3, np_seed, lift at 1, getitem at 1 in Hrun.
  destruct (options !! "gan_type") as [gan_type|]; [|done].
  exists gan_type.
  unfold mbind at 1 2, M_bind at 1 2 in Hrun.
  destruct (negb (val_in gan_type SUPPORTED_GANS)); [done|].
  unfold mret at 1, M_ret at 1 in Hrun.
  unfold mbind at 1, M_bind at 1, lift at 1, getitem at 1 in Hrun.
  destruct (options !! "dataset") as [dataset|]; [|done].
  by exists dataset.
Qed.

Lemma sentinel_cells (task_headers : list string) :
  map (fun task_metric =>
         format_3f (dict_get (∅ : gmap string pyfloat) task_metric NAN_DETECTED))
      task_headers
  = replicate (length task_headers) "31337.000".
Proof.
  induction task_headers as [|m ms IH]; [done|].
  simpl. rewrite IH. f_equal.
Qed.

(** C1. When the evaluation of a pending checkpoint raises [NanFoundError]
    (a NaN was detected in a generated batch), the sweep does not stop: it
    appends the row of that checkpoint, in which every metric column holds
    ["%.3f"] of [NAN_DETECTED], that is ["31337.000"], and goes on with the
    loop over the remaining checkpoints. The last hypothesis says that every
    hyperparameter column has a value in the options or a default. *)
Theorem nan_checkpoint_gets_sentinel_row {world : Collaborators}
    (options : gmap string pyval) (tasks_to_run : list EvalTask)
    (task_headers train_params : list string) (finished : gset (option string))
    (checkpoint_path : string) (remaining : list string) (st : sweep_state)
    (msg : string) (s1 : rng) :
  Some checkpoint_path ∉ finished ->
  RunCheckpointEval checkpoint_path options tasks_to_run (np_random st)
    = (inl (NanFoundError msg), s1) ->
  (forall param, param ∈ train_params ->
                 is_Some (options !! param) \/ is_Some (DEFAULT_VALUES !! param)) ->
  exists fixed cells : list string,
    length fixed = 5%nat
    /\ head fixed = Some checkpoint_path
    /\ length cells = length train_params
    /\ format_3f NAN_DETECTED = "31337.000"
    /\ for_each (checkpoint_path :: remaining)
         (sweep_step options tasks_to_run task_headers train_params finished) tt st
       = for_each remaining
           (sweep_step options tasks_to_run task_headers train_params finished) tt
           (after_row st checkpoint_path
              (fixed ++ replicate (length task_headers) "31337.000" ++ cells) s1).
Proof.
  intros Hnot Hnan Hcols.
  destruct (RunCheckpointEval_nan_options _ _ _ _ _ _ Hnan)
    as (gan_type & dataset & Hgt & Hds).
  destruct (output_row_run options checkpoint_path task_headers train_params ∅
              NAN_DETECTED gan_type dataset Hgt Hds Hcols) as (row & Hrow).
  pose proof (output_row_ok _ _ _ _ _ _ _ Hrow)
    as (gan_type' & dataset' & cells & _ & _ & Hlen & Hshape).
  rewrite sentinel_cells in Hshape.
  eexists _, cells. split; [|split; [|split; [exact Hlen|split]]];
    [| | by vm_compute |].
  3: { cbn [for_each].
       rewrite (Sweep_bind_step _ _ st (after_row st checkpoint_path row s1) tt).
       - rewrite Hshape. reflexivity.
       - rewrite (sweep_step_eval _ _ _ _ _ _ _ _ _ Hnot Hnan). cbv zeta.
         by rewrite Hrow. }
  - done.
  - done.
Qed.

Lemma toy_columns_have_values (param : string) :
  param ∈ GetAllTrainingParams (world := toy_world) ->
  is_Some (toy_options !! param) \/ is_Some (DEFAULT_VALUES !! param).
Proof.
  intros Hin.
  assert (GetAllTrainingParams (world := toy_world)
          = ["architecture"; "lambda"; "learning_rate"]) as Heq
    by (vm_compute; reflexivity).
  rewrite Heq in Hin.
  apply elem_of_cons in Hin as [->|Hin].
  { right. exists (VStr "unknown"). vm_compute. reflexivity. }
  apply elem_of_cons in Hin as [->|Hin].
  { right. exists (VFloat (Fin (-1))). vm_compute. reflexivity. }
  apply elem_of_cons in Hin as [->|Hin].
  { left. exists (VFloat (Fin (1 # 10))). vm_compute. reflexivity. }
  inversion Hin.
Qed.

Lemma nan_checkpoint_gets_sentinel_row_witness :
  (Some "ckpt-nan" ∉ (∅ : gset (option string)))
  /\ RunCheckpointEval (world := toy_world) "ckpt-nan" toy_options toy_tasks 0%nat
     = (inl (NanFoundError "Detected NaN in fake images."), 2%nat)
  /\ exists fixed cells : list string,
       length fixed = 5%nat
       /\ head fixed = Some "ckpt-nan"
       /\ length cells = length ((GetAllTrainingParams (world := toy_world)))
       /\ format_3f NAN_DETECTED = "31337.000"
       /\ for_each ["ckpt-nan"; "ckpt-3"]
            (sweep_step (world := toy_world) toy_options toy_tasks
               (task_headers_of (world := toy_world) toy_tasks) (GetAllTrainingParams (world := toy_world)) ∅) tt toy_start
          = for_each ["ckpt-3"]
              (sweep_step (world := toy_world) toy_options toy_tasks
                 (task_headers_of (world := toy_world) toy_tasks) (GetAllTrainingParams (world := toy_world)) ∅) tt
              (after_row (world := toy_world) toy_start "ckpt-nan"
                 (fixed ++ replicate (length (task_headers_of (world := toy_world) toy_tasks)) "31337.000"
                    ++ cells) 2%nat).
Proof.
  assert (Some "ckpt-nan" ∉ (∅ : gset (option string))) as H1 by set_solver.
  assert (RunCheckpointEval (world := toy_world) "ckpt-nan" toy_options toy_tasks
            0%nat
          = (inl (NanFoundError "Detected NaN in fake images."), 2%nat)) as H2
    by (vm_compute; reflexivity).
  split; [exact H1|]. split; [exact H2|].
  exact (nan_checkpoint_gets_sentinel_row (world := toy_world) toy_options toy_tasks
           (task_headers_of (world := toy_world) toy_tasks) (GetAllTrainingParams (world := toy_world)) ∅ "ckpt-nan" ["ckpt-3"]
           toy_start "Detected NaN in fake images." 2%nat H1 H2
           toy_columns_have_values).
Defined.

(** ** Resuming a sweep *)

Lemma recorded_paths_cons (csv_header : list string) (records : list (list string)) :
  recorded_paths (csv_header :: records) = list_to_set (head <$> records).
Proof. reflexivity. Qed.

Lemma recorded_paths_app (csv_header : list string)
    (records new_rows : list (list string)) :
  recorded_paths (csv_header :: records ++ new_rows)
  = recorded_paths (csv_header :: records) ∪ list_to_set (head <$> new_rows).
Proof. rewrite !recorded_paths_cons, fmap_app. apply list_to_set_app_L. Qed.

(** C2. On a scores file that is absent, or is a table with the expected
    header, a sweep that finishes has evaluated exactly the checkpoints that
    no row of the table records, and a second sweep from the state it leaves
    evaluates nothing and leaves the state, and so the table, as it is. The
    names of the header are taken to be distinct. *)
Theorem sweep_is_idempotent {world : Collaborators}
    (options : gmap string pyval) (tasks_to_run : list EvalTask)
    (paths : list string) (st st1 : sweep_state) :
  tasks_for options = inr tasks_to_run ->
  get_checkpoint_state = Some paths ->
  NoDup (csv_header_of tasks_to_run) ->
  (scores_file st = None
   \/ exists content, scores_file st = Some content
                      /\ well_formed_table (csv_header_of tasks_to_run) content) ->
  RunTaskEval options st = (inr tt, st1) ->
  evaluated st1
  = evaluated st ++ pending (recorded_paths (default [] (scores_file st))) paths
  /\ RunTaskEval options st1 = (inr tt, st1).
Proof.
  intros Htasks Hpaths Hnodup Hfile Hrun.
  assert (exists st0 content,
            RunTaskEval options st = RunTaskEval options st0
            /\ scores_file st0 = Some content
            /\ evaluated st0 = evaluated st
            /\ recorded_paths content = recorded_paths (default [] (scores_file st))
            /\ well_formed_table (csv_header_of tasks_to_run) content)
    as (st0 & content & Heq & Hfile0 & Hev & Hrec & Hwf).
  { destruct Hfile as [Hnone|(content & Hsome & Hwf)].
    - exists (with_file st [csv_header_of tasks_to_run]), [csv_header_of tasks_to_run].
      split; [by apply RunTaskEval_no_file|]. split; [done|]. split; [done|].
      split; [by rewrite Hnone|]. exists []. by split.
    - exists st, content. rewrite Hsome. by repeat split. }
  rewrite Heq in Hrun.
  rewrite (RunTaskEval_on_table options tasks_to_run paths Htasks Hpaths st0 content
             Hnodup Hfile0 Hwf) in Hrun.
  apply (sweep_loop_ok _ _ _ _ _ _ content) in Hrun
      as (new_rows & Hfile1 & Hev1 & Hheads & Hlens); [|done].
  rewrite Hev, Hrec in Hev1. split; [done|].
  destruct Hwf as (records & -> & Hrows).
  rewrite (RunTaskEval_on_table options tasks_to_run paths Htasks Hpaths st1
             (csv_header_of tasks_to_run :: records ++ new_rows) Hnodup).
  - apply sweep_loop_nothing_pending. intros c Hc.
    rewrite recorded_paths_app.
    destruct (decide (Some c ∈ recorded_paths (csv_header_of tasks_to_run :: records)))
      as [Hin|Hnot].
    + apply elem_of_union_l. exact Hin.
    + apply elem_of_union_r. rewrite Hheads. apply elem_of_list_to_set.
      apply list_elem_of_fmap_2. unfold pending. apply list_elem_of_filter.
      split; [exact Hnot | exact Hc].
  - by rewrite Hfile1.
  - exists (records ++ new_rows). split; [done|].
    apply Forall_app. split; [done|].
    apply (Forall_impl _ _ _ Hlens). intros row ->.
    by rewrite csv_header_length.
Qed.

Lemma toy_header_NoDup : NoDup (csv_header_of (world := toy_world) toy_tasks).
Proof. apply (bool_decide_unpack _). by vm_compute. Qed.

Lemma sweep_is_idempotent_witness :
  tasks_for (world := toy_world) toy_options = inr toy_tasks
  /\ get_checkpoint_state (Collaborators := toy_world)
     = Some ["ckpt-1"; "ckpt-nan"; "ckpt-3"]
  /\ scores_file toy_start = None
  /\ RunTaskEval (world := toy_world) toy_options toy_start = (inr tt, toy_after_sweep)
  /\ evaluated toy_after_sweep
     = evaluated toy_start
         ++ pending (recorded_paths (default [] (scores_file toy_start)))
              ["ckpt-1"; "ckpt-nan"; "ckpt-3"]
  /\ RunTaskEval (world := toy_world) toy_options toy_after_sweep
     = (inr tt, toy_after_sweep).
Proof.
  assert (tasks_for (world := toy_world) toy_options = inr toy_tasks) as H1
    by reflexivity.
  assert (get_checkpoint_state (Collaborators := toy_world)
          = Some ["ckpt-1"; "ckpt-nan"; "ckpt-3"]) as H2 by reflexivity.
  assert (scores_file toy_start = None) as H3 by reflexivity.
  assert ((RunTaskEval (world := toy_world) toy_options toy_start).1 = inr tt)
    as Hr by (vm_compute; reflexivity).
  assert (RunTaskEval (world := toy_world) toy_options toy_start
          = (inr tt, toy_after_sweep)) as H4.
  { unfold toy_after_sweep. revert Hr.
    destruct (RunTaskEval (world := toy_world) toy_options toy_start) as [r st1].
    cbn [fst snd]. by intros ->. }
  split; [exact H1|]. split; [exact H2|]. split; [exact H3|]. split; [exact H4|].
  exact (sweep_is_idempotent (world := toy_world) toy_options toy_tasks
           ["ckpt-1"; "ckpt-nan"; "ckpt-3"] toy_start toy_after_sweep H1 H2
           toy_header_NoDup (or_introl H3) H4).
Defined.

(** ** A header that no longer matches *)

Lemma fieldnames_differ (fieldnames csv_header : list string) :
  (list_to_set fieldnames : gset string) <> list_to_set csv_header ->
  (list_to_set (Some <$> fieldnames) : gset (option string))
  <> list_to_set (Some <$> csv_header).
Proof.
  intros Hne Heq. apply Hne. apply set_eq. intros x.
  rewrite !elem_of_list_to_set.
  assert (forall l : list string, x ∈ l <-> Some x ∈ Some <$> l) as Hsome.
  { intros l. split.
    - apply list_elem_of_fmap_2.
    - intros (y & [= ->] & Hy)%list_elem_of_fmap. done. }
  rewrite !Hsome, <- !(elem_of_list_to_set (C := gset (option string))).
  by rewrite Heq.
Qed.

Lemma check_row_mismatch (csv_header : list string)
    (row : gmap (option string) cell) (finished : gset (option string)) :
  Some <$> sorted csv_header <> sorted_keys (elements (dom row)) ->
  check_row csv_header row finished = raise (ValueError "wrong csv keys.").
Proof. intros Hne. unfold check_row. by rewrite bool_decide_eq_true_2. Qed.

Lemma pending_none_finished (paths : list string) : pending ∅ paths = paths.
Proof.
  unfold pending. induction paths as [|c paths IH]; [done|].
  rewrite filter_cons_True by apply not_elem_of_empty. by rewrite IH.
Qed.

(** X27. When the table has a first row with one field per name of its
    header and the names of that header are not those expected, the file is
    rewritten with the new header alone and the sweep evaluates every
    checkpoint of the checkpoint list. *)
Lemma schema_drift_with_rows_recomputes {world : Collaborators}
    (options : gmap string pyval) (tasks_to_run : list EvalTask)
    (paths : list string) (st : sweep_state)
    (fieldnames row : list string) (records : list (list string)) :
  tasks_for options = inr tasks_to_run ->
  get_checkpoint_state = Some paths ->
  scores_file st = Some (fieldnames :: row :: records) ->
  row <> [] ->
  length row = length fieldnames ->
  (list_to_set fieldnames : gset string) <> list_to_set (csv_header_of tasks_to_run) ->
  RunTaskEval options st
  = for_each paths
      (sweep_step options tasks_to_run (task_headers_of tasks_to_run)
         GetAllTrainingParams ∅) tt
      (with_file st [csv_header_of tasks_to_run])
  /\ pending ∅ paths = paths.
Proof.
  intros Htasks Hpaths Hfile Hrow Hlen Hnames. split.
  - unfold RunTaskEval.
    rewrite (Sweep_bind_step _ _ st st tasks_to_run)
      by (unfold lift_result; by rewrite Htasks).
    cbv zeta.
    rewrite (Sweep_bind_step _ _ st st true)
      by (unfold file_exists; by rewrite Hfile).
    cbn [negb]. rewrite (Sweep_bind_step _ _ st st tt) by done.
    rewrite (Sweep_bind_step _ _ st (with_file st [csv_header_of tasks_to_run]) ∅).
    + rewrite (Sweep_bind_step _ _ _ (with_file st [csv_header_of tasks_to_run]) paths)
        by (unfold lift_result; by rewrite Hpaths).
      done.
    + unfold finished_checkpoints_of.
      rewrite (Sweep_bind_step _ _ st st (fieldnames :: row :: records))
        by (unfold read_records; by rewrite Hfile).
      unfold DictReader. rewrite filter_cons_True by done.
      rewrite fmap_cons. cbn [for_each].
      rewrite check_row_mismatch; [done|].
      apply keys_mismatch.
      unfold DictReader_row. rewrite Hlen, Nat.ltb_irrefl.
      rewrite zip_insert_dom by done. rewrite dom_empty_L, (left_id_L ∅ (∪)).
      by apply fieldnames_differ.
  - apply pending_none_finished.
Qed.

(** C5. The table holds only a header, ["a,b"], which is not the expected
    one. The sweep does not rewrite it: the three checkpoints are evaluated
    and their rows are appended under the old header. *)
Theorem stale_header_without_rows_is_kept :
  let run := RunTaskEval (world := toy_world) toy_options toy_stale_start in
  csv_header_of (world := toy_world) toy_tasks <> ["a"; "b"]
  /\ scores_file toy_stale_start = Some [["a"; "b"]]
  /\ run.1 = inr tt
  /\ (exists row1 row2 row3,
        scores_file run.2 = Some [["a"; "b"]; row1; row2; row3]
        /\ head row1 = Some "ckpt-1" /\ length row1 = 25%nat
        /\ head row2 = Some "ckpt-nan" /\ length row2 = 25%nat
        /\ head row3 = Some "ckpt-3" /\ length row3 = 25%nat)
  /\ evaluated run.2 = ["ckpt-1"; "ckpt-nan"; "ckpt-3"].
Proof.
  cbv zeta. split; [vm_compute; discriminate|]. split; [reflexivity|].
  split; [vm_compute; reflexivity|]. split.
  - eexists _, _, _. split; [vm_compute; reflexivity|].
    repeat (split; [reflexivity|]). reflexivity.
  - vm_compute. reflexivity.
Qed.
(** * More of the module *)

(** ** Reading the real images *)

Lemma with_rows_same (x : ndarray) : with_rows x (rows x) = x.
Proof. by destruct x. Qed.



(** X2. When the split holds fewer than [num_examples] images,
    [GetRealImages] raises [ValueError] if
    [failure_on_insufficient_examples] is set, and otherwise returns all the
    images of the split, every pixel multiplied by 255. *)
Theorem GetRealImages_short_split {world : Collaborators}
    (dataset : pyval) (split_name : string) (num_examples : Z)
    (content : ndarray) :
  load_dataset dataset split_name = inr content ->
  shape0 content < num_examples ->
  GetRealImages dataset split_name num_examples true
  = inl (ValueError "Not enough examples in the dataset")
  /\ GetRealImages dataset split_name num_examples false
     = inr (scale (Fin 255) content).
Proof.
  intros Hload Hn. unfold shape0 in Hn.
  rewrite !(GetRealImages_ok _ _ _ _ _ Hload). cbv zeta.
  rewrite take_ge by lia. rewrite with_rows_same, andb_false_r.
  destruct (Z.eqb_spec (Z.of_nat (length (rows content))) num_examples); [lia|].
  done.
Qed.

Lemma GetRealImages_short_split_witness :
  load_dataset (Collaborators := toy_world) (VStr "toy") "train"
  = inr (toy_array 150 (Fin 1))
  /\ shape0 (toy_array 150 (Fin 1)) < 50000
  /\ GetRealImages (world := toy_world) (VStr "toy") "train" 50000 true
     = inl (ValueError "Not enough examples in the dataset")
  /\ GetRealImages (world := toy_world) (VStr "toy") "train" 50000 false
     = inr (scale (Fin 255) (toy_array 150 (Fin 1))).
Proof.
  assert (load_dataset (Collaborators := toy_world) (VStr "toy") "train"
          = inr (toy_array 150 (Fin 1))) as H1 by reflexivity.
  assert (shape0 (toy_array 150 (Fin 1)) < 50000) as H2 by (vm_compute; reflexivity).
  split; [exact H1|]. split; [exact H2|].
  exact (GetRealImages_short_split (world := toy_world) (VStr "toy") "train" 50000
           (toy_array 150 (Fin 1)) H1 H2).
Defined.

(** X3. A negative [num_examples] reads nothing: with
    [failure_on_insufficient_examples] set this is a [ValueError], otherwise
    the result is an array without images. *)
Theorem GetRealImages_negative_count {world : Collaborators}
    (dataset : pyval) (split_name : string) (num_examples : Z)
    (content : ndarray) :
  load_dataset dataset split_name = inr content ->
  num_examples < 0 ->
  GetRealImages dataset split_name num_examples true
  = inl (ValueError "Not enough examples in the dataset")
  /\ exists real_images,
       GetRealImages dataset split_name num_examples false = inr real_images
       /\ rows real_images = [].
Proof.
  intros Hload Hn.
  rewrite !(GetRealImages_ok _ _ _ _ _ Hload). cbv zeta.
  rewrite Z2Nat.nonpos by lia. rewrite take_0. cbn [length].
  destruct (Z.eqb_spec (Z.of_nat 0) num_examples); [lia|].
  split; [done|]. eexists. split; [done|]. done.
Qed.

Lemma GetRealImages_negative_count_witness :
  load_dataset (Collaborators := toy_world) (VStr "toy") "test"
  = inr (toy_array 130 (Fin 1))
  /\ -1 < 0
  /\ GetRealImages (world := toy_world) (VStr "toy") "test" (-1) true
     = inl (ValueError "Not enough examples in the dataset")
  /\ exists real_images,
       GetRealImages (world := toy_world) (VStr "toy") "test" (-1) false
       = inr real_images
       /\ rows real_images = [].
Proof.
  assert (load_dataset (Collaborators := toy_world) (VStr "toy") "test"
          = inr (toy_array 130 (Fin 1))) as H1 by reflexivity.
  assert (-1 < 0) as H2 by lia.
  split; [exact H1|]. split; [exact H2|].
  exact (GetRealImages_negative_count (world := toy_world) (VStr "toy") "test" (-1)
           (toy_array 130 (Fin 1)) H1 H2).
Defined.

(** ** The number of test examples *)

(** X4. The number of test examples of [RunCheckpointEval] is read from the
    options when they hold ["eval_test_samples"], from the parameters of the
    data set otherwise, and is 10000 when neither holds it; an integer [m]
    found there is brought down to the nearest multiple of 50 below it. *)
Theorem test_examples_precedence (dataset_params options : gmap string pyval)
    (m : Z) :
  default (default (VInt 10000) (dataset_params !! "eval_test_samples"))
    (options !! "eval_test_samples") = VInt m ->
  target_test_examples (dict_update dataset_params options) = inr (50 * (m / 50)).
Proof.
  intros Hm. unfold target_test_examples, dict_update, dict_get.
  assert (default (VInt 10000) ((options ∪ dataset_params) !! "eval_test_samples")
          = VInt m) as ->.
  { rewrite <- Hm, lookup_union.
    destruct (options !! "eval_test_samples"), (dataset_params !! "eval_test_samples");
      done. }
  cbn [as_int mbind result_bind]. unfold INCEPTION_BATCH.
  pose proof (Z.div_mod m 50 ltac:(done)) as Hdiv.
  destruct (Z.eqb_spec (m mod 50) 0) as [Hz|Hz]; cbn [negb]; unfold mret, result_ret;
    f_equal; lia.
Qed.

Lemma test_examples_precedence_witness :
  default (default (VInt 10000)
             ((<["eval_test_samples" := VInt 777]> ∅ : gmap string pyval)
                !! "eval_test_samples"))
    (toy_options !! "eval_test_samples") = VInt 120
  /\ target_test_examples
       (dict_update (<["eval_test_samples" := VInt 777]> ∅) toy_options)
     = inr (50 * (120 / 50)).
Proof.
  assert (default (default (VInt 10000)
             ((<["eval_test_samples" := VInt 777]> ∅ : gmap string pyval)
                !! "eval_test_samples"))
            (toy_options !! "eval_test_samples") = VInt 120) as H1
    by (vm_compute; reflexivity).
  split; [exact H1|].
  exact (test_examples_precedence (<["eval_test_samples" := VInt 777]> ∅)
           toy_options 120 H1).
Defined.

(** ** Generating the fake images *)

Lemma existsb_seq_true (f : nat -> bool) (n : nat) :
  existsb f (seq 0 n) = true <-> exists i, (i < n)%nat /\ f i = true.
Proof.
  rewrite existsb_exists. split.
  - intros (i & Hi%in_seq & Hf). exists i. split; [lia | done].
  - intros (i & Hi & Hf). exists i. split; [apply in_seq; lia | done].
Qed.

Lemma np_isnan_true (x : pyfloat) : np_isnan x = true <-> x = NaN.
Proof. by destruct x. Qed.

(** The NaN test of a batch looks at every pixel inside the shape of the
    batch, and only there. *)
Lemma isnan_any_true (x : ndarray) :
  isnan_any x = true <->
  exists (im : image) (i j k : nat),
    im ∈ rows x /\ (i < height x)%nat /\ (j < width x)%nat /\ (k < channels x)%nat
    /\ im i j k = NaN.
Proof.
  unfold isnan_any, image_has_nan. rewrite existsb_exists. split.
  - intros (im & Him%list_elem_of_In & Hnan).
    apply existsb_seq_true in Hnan as (i & Hi & Hnan).
    apply existsb_seq_true in Hnan as (j & Hj & Hnan).
    apply existsb_seq_true in Hnan as (k & Hk & Hnan%np_isnan_true).
    by exists im, i, j, k.
  - intros (im & i & j & k & Him & Hi & Hj & Hk & Hnan).
    exists im. split; [by apply list_elem_of_In|].
    apply existsb_seq_true. exists i. split; [done|].
    apply existsb_seq_true. exists j. split; [done|].
    apply existsb_seq_true. exists k. split; [done|].
    by apply np_isnan_true.
Qed.

(** X5. One pass of the generation loop draws a latent sample and runs the
    generator on it; the batch is rejected with [NanFoundError] exactly when
    one of its pixels is NaN, and is appended to the samples exactly when
    none is (an infinite pixel does not reject it). *)
Theorem generate_step_rejects_nan_pixels {world : Collaborators}
    (gan : GAN rng zsample) (k : Z) (samples : list ndarray) (s : rng) :
  let z := (z_generator gan (batch_size gan) (z_dim gan) s).1 in
  let s1 := (z_generator gan (batch_size gan) (z_dim gan) s).2 in
  let x := fake_images gan z in
  let has_nan_pixel :=
    exists (im : image) (i j c : nat),
      im ∈ rows x /\ (i < height x)%nat /\ (j < width x)%nat
      /\ (c < channels x)%nat /\ im i j c = NaN in
  (generate_step gan k samples s
   = (inl (NanFoundError "Detected NaN in fake images."), s1) <-> has_nan_pixel)
  /\ (generate_step gan k samples s = (inr (samples ++ [x]), s1)
      <-> ~ has_nan_pixel).
Proof.
  cbv zeta. unfold generate_step.
  destruct (z_generator gan (batch_size gan) (z_dim gan) s) as [z s1] eqn:Hz.
  cbn [fst snd].
  rewrite (M_bind_step _ _ s s1 z) by (unfold draw; by rewrite Hz).
  rewrite <- isnan_any_true.
  destruct (isnan_any (fake_images gan z)); split; split; done.
Qed.

(** The generation loop stops at the first pass that raises. *)
Lemma generate_loop_outcome {world : Collaborators} (gan : GAN rng zsample)
    (ks : list Z) (acc : list ndarray) (s : rng) :
  match for_each ks (generate_step gan) acc s with
  | (inr samples, _) =>
      exists batches,
        samples = acc ++ batches
        /\ length batches = length ks
        /\ Forall (fun x => (exists z, x = fake_images gan z) /\ isnan_any x = false)
             batches
  | (inl e, _) =>
      e = NanFoundError "Detected NaN in fake images."
      /\ exists z, isnan_any (fake_images gan z) = true
  end.
Proof.
  destruct (for_each ks (generate_step gan) acc s) as [[e|samples] s'] eqn:Hrun.
  - revert acc s Hrun. induction ks as [|k ks IH]; intros acc s Hrun; [done|].
    cbn [for_each] in Hrun.
    destruct (generate_step gan k acc s) as [[e1|acc1] s1] eqn:Hstep.
    + rewrite (M_bind_raise _ _ _ _ _ Hstep) in Hrun. injection Hrun as <- <-.
      unfold generate_step in Hstep.
      destruct (z_generator gan (batch_size gan) (z_dim gan) s) as [z s0] eqn:Hz.
      rewrite (M_bind_step _ _ s s0 z) in Hstep by (unfold draw; by rewrite Hz).
      cbv zeta in Hstep.
      destruct (isnan_any (fake_images gan z)) eqn:Hnan; [|done].
      injection Hstep as <- <-. split; [done|]. by exists z.
    + rewrite (M_bind_step _ _ _ _ _ Hstep) in Hrun. by eapply IH.
  - by apply generate_loop_ok in Hrun.
Qed.

(** X6. The generation of the fake images has three outcomes only: the list
    of ceil(num_test_examples / batch_size) batches (none when that number is
    not positive), each an output of the generator without NaN;
    [NanFoundError], when some generated batch holds a NaN; or
    [ZeroDivisionError], when the batch size of the model is 0. It never
    returns a shorter list. *)
Theorem generate_samples_outcomes {world : Collaborators}
    (gan : GAN rng zsample) (num_test_examples : Z) (s : rng) :
  match generate_samples gan num_test_examples s with
  | (inr samples, _) =>
      batch_size gan <> 0
      /\ Z.of_nat (length samples)
         = Z.max 0 (- (- num_test_examples / batch_size gan))
      /\ Forall (fun x => (exists z, x = fake_images gan z) /\ isnan_any x = false)
           samples
  | (inl e, s') =>
      (e = ZeroDivisionError /\ batch_size gan = 0 /\ s' = s)
      \/ (e = NanFoundError "Detected NaN in fake images."
          /\ batch_size gan <> 0
          /\ exists z, isnan_any (fake_images gan z) = true)
  end.
Proof.
  unfold generate_samples, ceildiv.
  destruct (Z.eqb_spec (batch_size gan) 0) as [Hz|Hnz].
  { left. done. }
  unfold mbind at 1, M_bind at 1, lift at 1.
  pose proof (generate_loop_outcome gan
                (range (- (- num_test_examples / batch_size gan))) [] s) as Hloop.
  destruct (for_each _ (generate_step gan) [] s) as [[e|samples] s'].
  - right. destruct Hloop as [-> Hz]. done.
  - destruct Hloop as (batches & -> & Hlen & Hall).
    split; [done|]. split; [|done].
    cbn [app]. rewrite Hlen, range_length. lia.
Qed.

(** ** The assertions of the Inception-based metrics *)

Lemma py_assert_inr (b : bool) : py_assert b = inr tt <-> b = true.
Proof. by destruct b. Qed.

Lemma shape0_nonneg (x : ndarray) : 0 <= shape0 x.
Proof. unfold shape0. lia. Qed.

Lemma real_fake_ratio_ok (fake_images real_images : ndarray) (ratio : Z) :
  real_fake_ratio fake_images real_images = inr ratio <->
  populations_accepted fake_images real_images
  /\ ratio = shape0 real_images / shape0 fake_images.
Proof.
  unfold real_fake_ratio, populations_accepted, pymod, floordiv.
  pose proof (shape0_nonneg fake_images) as Hf.
  destruct (Nat.eqb_spec (channels fake_images) 3) as [Hcf|Hcf];
    [|split; [done | by intros [[? _] _]]].
  destruct (Nat.eqb_spec (channels real_images) 3) as [Hcr|Hcr];
    [|split; [done | by intros [(_ & ? & _) _]]].
  destruct (Z.eqb_spec (shape0 real_images mod INCEPTION_BATCH) 0) as [Hr|Hr];
    [|split; [done | by intros [(_ & _ & ? & _) _]]].
  destruct (Z.eqb_spec (shape0 fake_images mod INCEPTION_BATCH) 0) as [Hk|Hk];
    [|split; [done | by intros [(_ & _ & _ & ? & _) _]]].
  cbn [py_assert mbind result_bind].
  destruct (Z.geb_spec (shape0 real_images) (shape0 fake_images)) as [Hge|Hlt];
    [|split; [done | intros [(_ & _ & _ & _ & ? & _) _]; lia]].
  destruct (Z.eqb_spec (shape0 fake_images) 0) as [Hz|Hnz];
    [split; [done | intros [(_ & _ & _ & _ & ? & _) _]; lia]|].
  cbn [mbind result_bind mret result_ret].
  destruct (Z.eqb_spec (shape0 real_images mod shape0 fake_images) 0) as [Hm|Hm];
    [|split; [done | by intros [(_ & _ & _ & _ & _ & ?) _]]].
  cbn [py_assert mbind result_bind]. split.
  - intros [= <-]. repeat split; try done; lia.
  - by intros [_ ->].
Qed.

Lemma real_fake_ratio_error (fake_images real_images : ndarray) (e : exn) :
  real_fake_ratio fake_images real_images = inl e ->
  e = AssertionError \/ (e = ZeroDivisionError /\ rows fake_images = []).
Proof.
  unfold real_fake_ratio, pymod, floordiv.
  destruct (channels fake_images =? 3)%nat; [|intros [= <-]; by left].
  destruct (channels real_images =? 3)%nat; [|intros [= <-]; by left].
  destruct (shape0 real_images mod INCEPTION_BATCH =? 0); [|intros [= <-]; by left].
  destruct (shape0 fake_images mod INCEPTION_BATCH =? 0); [|intros [= <-]; by left].
  cbn [py_assert mbind result_bind].
  destruct (shape0 real_images >=? shape0 fake_images); [|intros [= <-]; by left].
  destruct (Z.eqb_spec (shape0 fake_images) 0) as [Hz|Hnz].
  - intros [= <-]. right. split; [done|]. unfold shape0 in Hz.
    destruct (rows fake_images); [done | simpl in Hz; lia].
  - cbn [mbind result_bind mret result_ret].
    destruct (shape0 real_images mod shape0 fake_images =? 0); [done|].
    intros [= <-]. by left.
Qed.

Lemma fid_kid_values {world : Collaborators} (fake_images real_images : ndarray) :
  populations_accepted fake_images real_images ->
  ComputeTFGanFIDScore fake_images real_images
  = inr (get_fid_function fake_images real_images
           (shape0 real_images / shape0 fake_images))
  /\ ComputeKIDScore fake_images real_images
     = inr (get_kid_function fake_images real_images
              (shape0 real_images / shape0 fake_images)).
Proof.
  intros Hacc. unfold ComputeTFGanFIDScore, ComputeKIDScore.
  by rewrite (proj2 (real_fake_ratio_ok _ _ _) (conj Hacc eq_refl)).
Qed.

(** X7. [ComputeTFGanFIDScore] and [ComputeKIDScore] return the value of
    their library, called with ratio [bs_real // bs_fake], exactly when both
    populations have 3 channels, both counts are multiples of 50, the fake
    population is not empty and not larger than the real one, and its count
    divides the real count. Every other input fails: with
    [ZeroDivisionError] only when the fake population is empty, with
    [AssertionError] otherwise. *)
Theorem fid_and_kid_preconditions {world : Collaborators}
    (fake_images real_images : ndarray) :
  (forall v, ComputeTFGanFIDScore fake_images real_images = inr v <->
             populations_accepted fake_images real_images
             /\ v = get_fid_function fake_images real_images
                      (shape0 real_images / shape0 fake_images))
  /\ (forall v, ComputeKIDScore fake_images real_images = inr v <->
                populations_accepted fake_images real_images
                /\ v = get_kid_function fake_images real_images
                         (shape0 real_images / shape0 fake_images))
  /\ (forall e, ComputeTFGanFIDScore fake_images real_images = inl e
                \/ ComputeKIDScore fake_images real_images = inl e ->
                e = AssertionError
                \/ (e = ZeroDivisionError /\ rows fake_images = [])).
Proof.
  unfold ComputeTFGanFIDScore, ComputeKIDScore.
  pose proof (real_fake_ratio_ok fake_images real_images) as Hok.
  pose proof (real_fake_ratio_error fake_images real_images) as Herr.
  destruct (real_fake_ratio fake_images real_images) as [e|ratio].
  - split; [|split].
    + intros v. split; [done|]. intros [Hacc _].
      by pose proof (proj2 (Hok _) (conj Hacc eq_refl)).
    + intros v. split; [done|]. intros [Hacc _].
      by pose proof (proj2 (Hok _) (conj Hacc eq_refl)).
    + intros e' [[= <-]|[= <-]]; by apply Herr.
  - destruct (proj1 (Hok ratio) eq_refl) as [Hacc ->].
    split; [|split].
    + intros v. split; [by intros [= <-] | by intros [_ ->]].
    + intros v. split; [by intros [= <-] | by intros [_ ->]].
    + by intros e [?|?].
Qed.

(** X8. On an empty fake population next to a real population that passes
    the assertions before it, both scores raise [ZeroDivisionError] (from
    [bs_real % bs_fake]), not [AssertionError]. *)
Theorem empty_fake_population_divides_by_zero {world : Collaborators}
    (fake_images real_images : ndarray) :
  rows fake_images = [] ->
  channels fake_images = 3%nat -> channels real_images = 3%nat ->
  shape0 real_images mod INCEPTION_BATCH = 0 ->
  ComputeTFGanFIDScore fake_images real_images = inl ZeroDivisionError
  /\ ComputeKIDScore fake_images real_images = inl ZeroDivisionError.
Proof.
  intros Hrows Hcf Hcr Hr.
  unfold ComputeTFGanFIDScore, ComputeKIDScore, real_fake_ratio, shape0 in *.
  rewrite Hrows, Hcf, Hcr, Hr. cbn [length Nat.eqb py_assert mbind result_bind].
  unfold pymod.
  destruct (Z.geb_spec (Z.of_nat (length (rows real_images))) (Z.of_nat 0));
    [done | lia].
Qed.

Lemma empty_fake_population_divides_by_zero_witness :
  rows (NdArray [] 1 1 3) = []
  /\ channels (NdArray [] 1 1 3) = 3%nat
  /\ channels (NdArray (replicate 50 (toy_image (Fin 1))) 1 1 3) = 3%nat
  /\ shape0 (NdArray (replicate 50 (toy_image (Fin 1))) 1 1 3) mod INCEPTION_BATCH = 0
  /\ ComputeTFGanFIDScore (world := toy_world) (NdArray [] 1 1 3)
       (NdArray (replicate 50 (toy_image (Fin 1))) 1 1 3)
     = inl ZeroDivisionError
  /\ ComputeKIDScore (world := toy_world) (NdArray [] 1 1 3)
       (NdArray (replicate 50 (toy_image (Fin 1))) 1 1 3)
     = inl ZeroDivisionError.
Proof.
  assert (shape0 (NdArray (replicate 50 (toy_image (Fin 1))) 1 1 3)
            mod INCEPTION_BATCH = 0) as H4 by (vm_compute; reflexivity).
  split; [reflexivity|]. split; [reflexivity|]. split; [reflexivity|].
  split; [exact H4|].
  exact (empty_fake_population_divides_by_zero (world := toy_world)
           (NdArray [] 1 1 3) (NdArray (replicate 50 (toy_image (Fin 1))) 1 1 3)
           eq_refl eq_refl eq_refl H4).
Defined.

(** X9. [GetInceptionScore] returns the value of the library, called with
    [num_images // 50] batches, exactly when the images have 3 channels and
    their number is a multiple of 50; every other input is an
    [AssertionError]. *)
Theorem GetInceptionScore_preconditions {world : Collaborators}
    (fake_images : ndarray) :
  (forall v, GetInceptionScore fake_images = inr v <->
             channels fake_images = 3%nat
             /\ shape0 fake_images mod INCEPTION_BATCH = 0
             /\ v = inception_score_fn fake_images
                      (shape0 fake_images / INCEPTION_BATCH))
  /\ (forall e, GetInceptionScore fake_images = inl e -> e = AssertionError).
Proof.
  unfold GetInceptionScore.
  destruct (Nat.eqb_spec (channels fake_images) 3) as [Hc|Hc].
  2: { split; [|by intros e [= <-]]. intros v. split; [done | by intros [? _]]. }
  destruct (Z.eqb_spec (shape0 fake_images mod INCEPTION_BATCH) 0) as [Hn|Hn].
  2: { split; [|by intros e [= <-]]. intros v.
       split; [done | by intros (_ & ? & _)]. }
  cbn [py_assert mbind result_bind]. split; [|done].
  intros v. split; [by intros [= <-] | by intros (_ & _ & ->)].
Qed.

(** ** The populations against those assertions *)

Lemma materialize_channels (samples : list ndarray) (real_images : ndarray)
    (num_test_examples : Z) (fake_images' real_images' : ndarray) :
  materialize samples real_images num_test_examples
    = inr (fake_images', real_images') ->
  channels fake_images' = channels real_images'
  /\ channels real_images'
     = if (channels real_images =? 1)%nat then 3%nat else channels real_images.
Proof.
  intros (fake_all & _ & Hshape & Hres)%materialize_ok.
  unfold shape in Hshape.
  cbn [truncate with_rows rows height width channels] in Hshape.
  injection Hshape as _ _ _ Hc. rewrite Hc in Hres.
  destruct (channels real_images =? 1)%nat eqn:H1; injection Hres as -> ->;
    cbn [scale tile_channels truncate with_rows channels].
  - apply Nat.eqb_eq in H1. rewrite Hc, H1. done.
  - done.
Qed.

(** X10. The two populations [RunCheckpointEval] hands to its
    [RunAfterSession] hooks pass the assertions of the Inception score, the
    FID and the KID whenever the data set has 1 or 3 channels and the number
    of test examples is a positive multiple of 50: the scores are computed
    on [n // 50] batches and with ratio 1. *)
Theorem populations_pass_metric_assertions {world : Collaborators}
    (samples : list ndarray) (real_images : ndarray) (n : Z)
    (fake_images' real_images' : ndarray) :
  materialize samples real_images n = inr (fake_images', real_images') ->
  shape0 real_images = n -> 0 < n -> n mod INCEPTION_BATCH = 0 ->
  channels real_images = 1%nat \/ channels real_images = 3%nat ->
  GetInceptionScore fake_images'
  = inr (inception_score_fn fake_images' (n / INCEPTION_BATCH))
  /\ ComputeTFGanFIDScore fake_images' real_images'
     = inr (get_fid_function fake_images' real_images' 1)
  /\ ComputeKIDScore fake_images' real_images'
     = inr (get_kid_function fake_images' real_images' 1).
Proof.
  intros Hm Hreal Hpos Hmod Hch.
  destruct (materialize_shapes _ _ _ _ _ Hm) as (_ & Hf & Hr).
  destruct (materialize_channels _ _ _ _ _ Hm) as (Hcf & Hcr).
  assert (channels real_images' = 3%nat) as Hc3
    by (rewrite Hcr; destruct Hch as [-> | ->]; done).
  rewrite Hc3 in Hcf. rewrite Hreal in Hf, Hr.
  assert (populations_accepted fake_images' real_images') as Hacc.
  { unfold populations_accepted. rewrite Hf, Hr.
    repeat split; try done; try lia. by apply Z_mod_same_full. }
  assert (shape0 real_images' / shape0 fake_images' = 1) as Hratio
    by (rewrite Hf, Hr; apply Z_div_same_full; lia).
  destruct (fid_kid_values fake_images' real_images' Hacc) as [Hfid Hkid].
  rewrite Hratio in Hfid, Hkid. split; [|done].
  unfold GetInceptionScore. rewrite Hcf, Hf, Hmod. done.
Qed.

Lemma populations_pass_metric_assertions_witness :
  materialize toy_samples (toy_test 100) 100
  = inr (toy_materialized.1, toy_materialized.2)
  /\ GetInceptionScore (world := toy_world) toy_materialized.1
     = inr (inception_score_fn (Collaborators := toy_world) toy_materialized.1
              (100 / INCEPTION_BATCH))
  /\ ComputeTFGanFIDScore (world := toy_world) toy_materialized.1 toy_materialized.2
     = inr (get_fid_function (Collaborators := toy_world) toy_materialized.1
              toy_materialized.2 1)
  /\ ComputeKIDScore (world := toy_world) toy_materialized.1 toy_materialized.2
     = inr (get_kid_function (Collaborators := toy_world) toy_materialized.1
              toy_materialized.2 1).
Proof.
  assert (materialize toy_samples (toy_test 100) 100
          = inr (toy_materialized.1, toy_materialized.2)) as H1
    by (vm_compute; reflexivity).
  split; [exact H1|].
  apply (populations_pass_metric_assertions (world := toy_world) toy_samples
           (toy_test 100) 100 toy_materialized.1 toy_materialized.2 H1).
  - vm_compute. reflexivity.
  - lia.
  - vm_compute. reflexivity.
  - left. reflexivity.
Defined.

(** X11. When the data set has neither 1 nor 3 channels, the populations
    keep its channel count and the Inception score, the FID and the KID all
    fail their first assertion. *)
Theorem populations_with_other_channels_fail {world : Collaborators}
    (samples : list ndarray) (real_images : ndarray) (n : Z)
    (fake_images' real_images' : ndarray) :
  materialize samples real_images n = inr (fake_images', real_images') ->
  channels real_images <> 1%nat -> channels real_images <> 3%nat ->
  GetInceptionScore fake_images' = inl AssertionError
  /\ ComputeTFGanFIDScore fake_images' real_images' = inl AssertionError
  /\ ComputeKIDScore fake_images' real_images' = inl AssertionError.
Proof.
  intros Hm H1 H3.
  destruct (materialize_channels _ _ _ _ _ Hm) as (Hcf & Hcr).
  apply Nat.eqb_neq in H1. rewrite H1 in Hcr. rewrite Hcr in Hcf.
  apply Nat.eqb_neq in H3.
  unfold GetInceptionScore, ComputeTFGanFIDScore, ComputeKIDScore, real_fake_ratio.
  by rewrite Hcf, H3.
Qed.

Lemma populations_with_other_channels_fail_witness :
  let two_channels := NdArray (replicate 50 (toy_image (Fin 1))) 1 1 2 in
  materialize [two_channels] two_channels 50
  = inr (scale (Fin 255) two_channels, two_channels)
  /\ GetInceptionScore (world := toy_world) (scale (Fin 255) two_channels)
     = inl AssertionError
  /\ ComputeTFGanFIDScore (world := toy_world) (scale (Fin 255) two_channels)
       two_channels = inl AssertionError
  /\ ComputeKIDScore (world := toy_world) (scale (Fin 255) two_channels)
       two_channels = inl AssertionError.
Proof.
  intros two_channels.
  assert (materialize [two_channels] two_channels 50
          = inr (scale (Fin 255) two_channels, two_channels)) as H1
    by (vm_compute; reflexivity).
  split; [exact H1|].
  apply (populations_with_other_channels_fail (world := toy_world) [two_channels]
           two_channels 50 _ _ H1); vm_compute; discriminate.
Defined.

(** ** The keys the tasks return *)

Lemma ComputeAccuracyLoss_keys {world : Collaborators} (options : gmap string pyval)
    (gan : GAN rng zsample) (test_images : ndarray)
    (max_train_examples num_repeat : Z) (result_dict : gmap string pyfloat)
    (s s' : rng) :
  ComputeAccuracyLoss options gan test_images max_train_examples num_repeat s
    = (inr result_dict, s') ->
  dom result_dict
  = list_to_set ["train_accuracy"; "test_accuracy"; "fake_accuracy";
                 "train_d_loss"; "test_d_loss"].
Proof.
  intros Hrun. unfold ComputeAccuracyLoss in Hrun.
  apply M_bind_ok in Hrun as (dataset & s1 & _ & Hrun).
  apply M_bind_ok in Hrun as (train_images & s2 & _ & Hrun).
  apply M_bind_ok in Hrun as ([] & s3 & _ & Hrun).
  apply M_bind_ok in Hrun as (num_batches & s4 & _ & Hrun).
  apply M_bind_ok in Hrun as ([[[[tra tea] fa] trl] tel] & s5 & _ & Hrun).
  injection Hrun as <- <-. rewrite !dom_insert_L, dom_empty_L. set_solver.
Qed.

(** The tasks [RunTaskEval] runs. *)
Lemma standard_tasks_keep_to_their_keys {world : Collaborators} (dataset : pyval)
    (task : EvalTask) :
  task ∈ [InceptionScoreTask; FIDScoreTask; MultiscaleSSIMTask; ComputeAccuracyTask;
          FractalDimensionTask; KIDScoreTask; GeneratorConditionNumberTask;
          GILBOTask dataset] ->
  (forall options gan real_images s result_dict s',
      RunInSession task options gan real_images s = (inr result_dict, s') ->
      dom result_dict ⊆ MetricsList task)
  /\ (forall options fake_images real_images s result_dict s',
        RunAfterSession task options fake_images real_images s
          = (inr result_dict, s') ->
        dom result_dict ⊆ MetricsList task).
Proof.
  intros Htask.
  repeat (apply elem_of_cons in Htask as [->|Htask]); [..|inversion Htask].
  all: split;
    [intros options gan real_images s result_dict s' Hrun
    |intros options fake_images real_images s result_dict s' Hrun];
    cbn [RunInSession RunAfterSession MetricsList InceptionScoreTask FIDScoreTask
         MultiscaleSSIMTask ComputeAccuracyTask FractalDimensionTask KIDScoreTask
         GeneratorConditionNumberTask GILBOTask] in *;
    unfold RunInSession_base, RunAfterSession_base in *;
    try (injection Hrun as <- <-; rewrite dom_empty_L; apply empty_subseteq).
  - (* inception score *)
    apply M_bind_ok in Hrun as (score & s1 & _ & [= <- <-]).
    rewrite dom_insert_L. set_solver.
  - (* FID *)
    apply M_bind_ok in Hrun as (score & s1 & _ & [= <- <-]).
    rewrite dom_insert_L. set_solver.
  - (* MS-SSIM *)
    apply M_bind_ok in Hrun as ([] & s1 & _ & [= <- <-]).
    + rewrite dom_insert_L. set_solver.
    + rewrite dom_empty_L. apply empty_subseteq.
  - (* accuracy *)
    apply M_bind_ok in Hrun as ([] & s1 & _ & Hrun).
    + apply ComputeAccuracyLoss_keys in Hrun. by rewrite Hrun.
    + injection Hrun as <- <-. rewrite dom_empty_L. apply empty_subseteq.
  - (* fractal dimension *)
    destruct (truthy _).
    + apply M_bind_ok in Hrun as (d & s1 & _ & [= <- <-]).
      rewrite dom_insert_L. set_solver.
    + injection Hrun as <- <-. rewrite dom_empty_L. apply empty_subseteq.
  - (* KID *)
    destruct (truthy _).
    + apply M_bind_ok in Hrun as (score & s1 & _ & [= <- <-]).
      rewrite dom_insert_L. set_solver.
    + injection Hrun as <- <-. rewrite dom_empty_L. apply empty_subseteq.
  - (* condition number *)
    destruct (truthy _).
    + apply M_bind_ok in Hrun as (result & s1 & _ & [= <- <-]).
      rewrite !dom_insert_L, dom_empty_L.
      apply (bool_decide_unpack _). by vm_compute.
    + injection Hrun as <- <-. rewrite dom_empty_L. apply empty_subseteq.
  - (* GILBO *)
    destruct (truthy _).
    + destruct (TrainGILBO gan options) as [[[g1 g2] g3] g4].
      injection Hrun as <- <-. rewrite !dom_insert_L, dom_empty_L.
      apply (bool_decide_unpack _). by vm_compute.
    + injection Hrun as <- <-. rewrite dom_empty_L. apply empty_subseteq.
Qed.

(** X12. Each of the eight tasks of [RunTaskEval] keeps the contract of
    [EvalTask]: whatever the options and the inputs, the keys of the
    dictionary returned by its [RunInSession] and by its [RunAfterSession]
    are among its [MetricsList]. *)
Theorem task_results_within_MetricsList {world : Collaborators}
    (options : gmap string pyval) (tasks_to_run : list EvalTask) (task : EvalTask) :
  tasks_for options = inr tasks_to_run ->
  task ∈ tasks_to_run ->
  (forall options' gan real_images s result_dict s',
      RunInSession task options' gan real_images s = (inr result_dict, s') ->
      dom result_dict ⊆ MetricsList task)
  /\ (forall options' fake_images real_images s result_dict s',
        RunAfterSession task options' fake_images real_images s
          = (inr result_dict, s') ->
        dom result_dict ⊆ MetricsList task).
Proof.
  intros (dataset & _ & ->)%tasks_for_ok Htask.
  by apply (standard_tasks_keep_to_their_keys dataset).
Qed.

Section HookLoops.
Context {world : Collaborators}.
Variables (options : gmap string pyval) (tasks_to_run : list EvalTask).

Lemma run_in_session_keys (gan : GAN rng zsample) (real_images : ndarray)
    (keys : gset string) (tasks : list EvalTask)
    (result_dict result_dict' : gmap string pyfloat) (s s' : rng) :
  (forall task, task ∈ tasks ->
     forall s result_dict s',
       RunInSession task options gan real_images s = (inr result_dict, s') ->
       dom result_dict ⊆ keys) ->
  run_in_session tasks options gan real_images result_dict s
    = (inr result_dict', s') ->
  dom result_dict' ⊆ dom result_dict ∪ keys.
Proof using Type.
  unfold run_in_session. revert result_dict s.
  induction tasks as [|task tasks IH]; intros result_dict s Hkeys Hrun.
  - injection Hrun as <- <-. set_solver.
  - cbn [for_each] in Hrun.
    apply M_bind_ok in Hrun as (rd1 & s1 & Hstep & Hrun).
    apply M_bind_ok in Hstep as (r & s0 & Hhook & [= <- <-]).
    apply IH in Hrun; [|intros t Ht; apply Hkeys; by right].
    apply Hkeys in Hhook; [|by left].
    unfold dict_update in Hrun. rewrite dom_union_L in Hrun. set_solver.
Qed.

Lemma run_after_session_keys (fake_images real_images : ndarray)
    (keys : gset string) (tasks : list EvalTask)
    (result_dict result_dict' : gmap string pyfloat) (s s' : rng) :
  (forall task, task ∈ tasks ->
     forall s result_dict s',
       RunAfterSession task options fake_images real_images s
         = (inr result_dict, s') ->
       dom result_dict ⊆ keys) ->
  run_after_session tasks options fake_images real_images result_dict s
    = (inr result_dict', s') ->
  dom result_dict' ⊆ dom result_dict ∪ keys.
Proof using Type.
  unfold run_after_session. revert result_dict s.
  induction tasks as [|task tasks IH]; intros result_dict s Hkeys Hrun.
  - injection Hrun as <- <-. set_solver.
  - cbn [for_each] in Hrun.
    apply M_bind_ok in Hrun as (rd1 & s1 & Hstep & Hrun).
    apply M_bind_ok in Hstep as (r & s0 & Hhook & [= <- <-]).
    apply IH in Hrun; [|intros t Ht; apply Hkeys; by right].
    apply Hkeys in Hhook; [|by left].
    unfold dict_update in Hrun. rewrite dom_union_L in Hrun. set_solver.
Qed.

(** The result of [RunCheckpointEval] is what the two loops over the tasks
    put together, starting from the empty dictionary. *)
Lemma RunCheckpointEval_hooks (checkpoint_path : string)
    (result_dict : gmap string pyfloat) (s s' : rng) :
  RunCheckpointEval checkpoint_path options tasks_to_run s = (inr result_dict, s') ->
  exists (real_images fake_images' real_images' : ndarray)
         (in_session : gmap string pyfloat) (s1 s2 s3 : rng),
    run_in_session tasks_to_run options (restored_gan options checkpoint_path)
      real_images ∅ s1 = (inr in_session, s2)
    /\ run_after_session tasks_to_run options fake_images' real_images'
         in_session s3 = (inr result_dict, s').
Proof using Type.
  unfold RunCheckpointEval, eval_populations. intros Hrun.
  apply M_bind_ok in Hrun as ([[rd fake] real] & s0 & Hpop & Hafter).
  apply M_bind_ok in Hpop as ([] & s1 & _ & Hpop).
  apply M_bind_ok in Hpop as (gan_type & s2 & _ & Hpop).
  apply M_bind_ok in Hpop as ([] & s3 & _ & Hpop).
  apply M_bind_ok in Hpop as (dataset & s4 & _ & Hpop).
  apply M_bind_ok in Hpop as (dataset_params & s5 & _ & Hpop).
  apply M_bind_ok in Hpop as (n & s6 & _ & Hpop).
  apply M_bind_ok in Hpop as (dataset' & s7 & _ & Hpop).
  apply M_bind_ok in Hpop as (real_images & s8 & _ & Hpop).
  cbv zeta in Hpop.
  apply M_bind_ok in Hpop as (samples & s9 & _ & Hpop).
  apply M_bind_ok in Hpop as (rd1 & s10 & Hin & Hpop).
  apply M_bind_ok in Hpop as ([fake1 real1] & s11 & _ & Hpop).
  injection Hpop as <- <- <- <-.
  by exists real_images, fake1, real1, rd1, s9, s10, s11.
Qed.
End HookLoops.

Lemma elem_of_task_headers {world : Collaborators} (tasks_to_run : list EvalTask)
    (key : string) :
  key ∈ task_headers_of tasks_to_run <->
  exists task, task ∈ tasks_to_run /\ key ∈ MetricsList task.
Proof.
  rewrite task_headers_of_concat, list_elem_of_In, in_concat. split.
  - intros (l & (task & <- & Htask%list_elem_of_In)%in_map_iff & Hkey%list_elem_of_In).
    exists task. split; [done|].
    rewrite sorted_Permutation in Hkey. by apply elem_of_elements in Hkey.
  - intros (task & Htask & Hkey).
    exists (sorted (elements (MetricsList task))). split.
    + apply in_map_iff. exists task. split; [done|]. by apply list_elem_of_In.
    + apply list_elem_of_In. rewrite sorted_Permutation. by apply elem_of_elements.
Qed.

(** X13. Every metric [RunCheckpointEval] returns for the tasks of
    [RunTaskEval] has its column in the score table: the keys of the result
    are among the metric names of the header, so no computed value is left
    out of the row. *)
Theorem computed_metrics_have_columns {world : Collaborators}
    (options : gmap string pyval) (tasks_to_run : list EvalTask)
    (checkpoint_path : string) (result_dict : gmap string pyfloat) (s s' : rng)
    (key : string) :
  tasks_for options = inr tasks_to_run ->
  RunCheckpointEval checkpoint_path options tasks_to_run s = (inr result_dict, s') ->
  key ∈ dom result_dict ->
  key ∈ task_headers_of tasks_to_run.
Proof.
  intros Htasks Hrun Hkey.
  pose proof Htasks as (dataset & _ & Heq)%tasks_for_ok.
  apply RunCheckpointEval_hooks in Hrun
      as (real & fake' & real' & rd1 & s1 & s2 & s3 & Hin & Hafter).
  set (keys := ⋃ (MetricsList <$> tasks_to_run)).
  assert (forall task, task ∈ tasks_to_run -> MetricsList task ⊆ keys) as Hsub.
  { intros task Htask k Hk. apply elem_of_union_list.
    exists (MetricsList task). split; [by apply list_elem_of_fmap_2 | done]. }
  apply (run_in_session_keys _ _ _ keys) in Hin; last first.
  { intros task Htask s0 rd s0' Hhook.
    etrans; [|by apply Hsub]. rewrite Heq in Htask.
    by eapply (proj1 (standard_tasks_keep_to_their_keys dataset task Htask)). }
  apply (run_after_session_keys _ _ _ keys) in Hafter; last first.
  { intros task Htask s0 rd s0' Hhook.
    etrans; [|by apply Hsub]. rewrite Heq in Htask.
    by eapply (proj2 (standard_tasks_keep_to_their_keys dataset task Htask)). }
  rewrite dom_empty_L in Hin.
  assert (key ∈ keys) as Hk.
  { apply Hafter, elem_of_union in Hkey as [Hkey|Hkey]; [|done].
    apply Hin, elem_of_union in Hkey as [Hkey|Hkey]; [|done].
    by apply elem_of_empty in Hkey. }
  apply elem_of_union_list in Hk as (X & (task & -> & Htask)%list_elem_of_fmap & Hk).
  apply elem_of_task_headers. by exists task.
Qed.

Lemma toy_tasks_eq :
  toy_tasks
  = [InceptionScoreTask; FIDScoreTask; MultiscaleSSIMTask; ComputeAccuracyTask;
     FractalDimensionTask; KIDScoreTask; GeneratorConditionNumberTask;
     GILBOTask (VStr "toy")].
Proof. reflexivity. Qed.

Lemma task_results_within_MetricsList_witness :
  tasks_for (world := toy_world) toy_options = inr toy_tasks
  /\ ComputeAccuracyTask ∈ toy_tasks
  /\ (forall options' gan real_images s result_dict s',
        RunInSession (world := toy_world) ComputeAccuracyTask options' gan
          real_images s = (inr result_dict, s') ->
        dom result_dict ⊆ MetricsList ComputeAccuracyTask)
  /\ (forall options' fake_images real_images s result_dict s',
        RunAfterSession (world := toy_world) ComputeAccuracyTask options'
          fake_images real_images s = (inr result_dict, s') ->
        dom result_dict ⊆ MetricsList ComputeAccuracyTask).
Proof.
  assert (tasks_for (world := toy_world) toy_options = inr toy_tasks) as H1
    by reflexivity.
  assert (ComputeAccuracyTask ∈ toy_tasks) as H2.
  { rewrite toy_tasks_eq. do 3 right. left. }
  split; [exact H1|]. split; [exact H2|].
  exact (task_results_within_MetricsList (world := toy_world) toy_options toy_tasks
           ComputeAccuracyTask H1 H2).
Defined.

Lemma computed_metrics_have_columns_witness :
  exists (result_dict : gmap string pyfloat) (s' : nat),
    tasks_for (world := toy_world) toy_options = inr toy_tasks
    /\ RunCheckpointEval (world := toy_world) "ckpt-1" toy_options toy_tasks 0%nat
       = (inr result_dict, s')
    /\ "fid_score" ∈ dom result_dict
    /\ "fid_score" ∈ task_headers_of (world := toy_world) toy_tasks.
Proof.
  assert (tasks_for (world := toy_world) toy_options = inr toy_tasks) as H1
    by reflexivity.
  assert (match (RunCheckpointEval (world := toy_world) "ckpt-1" toy_options
                   toy_tasks 0%nat).1 with
          | inr result_dict => result_dict !! "fid_score"
          | inl _ => None
          end = Some (Fin (7 # 2))) as Hfid by (vm_compute; reflexivity).
  destruct (RunCheckpointEval (world := toy_world) "ckpt-1" toy_options toy_tasks
              0%nat) as [[e|result_dict] s'] eqn:Hrun;
    cbn [fst] in Hfid; [discriminate Hfid|].
  assert ("fid_score" ∈ dom result_dict) as H3
    by (apply elem_of_dom; eexists; exact Hfid).
  exists result_dict, s'. split; [exact H1|]. split; [reflexivity|].
  split; [exact H3|].
  exact (computed_metrics_have_columns (world := toy_world) toy_options toy_tasks
           "ckpt-1" result_dict 0%nat s' "fid_score" H1 Hrun H3).
Defined.

(** ** The tasks that are switched off *)

Section SwitchedOff.
Context {world : Collaborators}.
Variables (options : gmap string pyval) (gan_type dataset : pyval).
Hypothesis Hgan_type : options !! "gan_type" = Some gan_type.
Hypothesis Hdataset : options !! "dataset" = Some dataset.
Hypothesis Hno_accuracy : val_eqb gan_type GAN_WITH_PENALTY = false.
Hypothesis Hno_ms_ssim : val_in dataset ["celeba"; "celebahq128"] = false.
Hypothesis Hno_kid :
  truthy (dict_get options "compute_kid_score" (VBool false)) = false.
Hypothesis Hno_fractal :
  truthy (dict_get options "compute_fractal_dimension" (VBool false)) = false.
Hypothesis Hno_gilbo :
  truthy (dict_get options "compute_gilbo" (VBool false)) = false.
Hypothesis Hno_condition :
  truthy (dict_get options "compute_generator_condition_number" (VBool false))
  = false.

Lemma run_in_session_off (gan : GAN rng zsample) (real_images : ndarray)
    (result_dict : gmap string pyfloat) (s : rng) :
  run_in_session
    [InceptionScoreTask; FIDScoreTask; MultiscaleSSIMTask; ComputeAccuracyTask;
     FractalDimensionTask; KIDScoreTask; GeneratorConditionNumberTask;
     GILBOTask dataset]
    options gan real_images result_dict s
  = (inr result_dict, s).
Proof using Hgan_type Hno_accuracy Hno_gilbo Hno_condition.
  unfold run_in_session. cbn [for_each].
  cbn [RunInSession InceptionScoreTask FIDScoreTask MultiscaleSSIMTask
       ComputeAccuracyTask FractalDimensionTask KIDScoreTask
       GeneratorConditionNumberTask GILBOTask].
  unfold RunInSession_base, ShouldRunAccuracyLossTrainVsTest, getitem.
  rewrite Hgan_type, Hno_gilbo, Hno_condition.
  cbn [mbind result_bind mret result_ret]. rewrite Hno_accuracy.
  unfold mbind, M_bind, mret, M_ret, result_ret, lift, dict_update.
  cbv beta iota. by rewrite !(left_id_L ∅ (∪)).
Qed.

Lemma run_after_session_off (fake_images real_images : ndarray)
    (result_dict result_dict' : gmap string pyfloat) (s s' : rng) :
  run_after_session
    [InceptionScoreTask; FIDScoreTask; MultiscaleSSIMTask; ComputeAccuracyTask;
     FractalDimensionTask; KIDScoreTask; GeneratorConditionNumberTask;
     GILBOTask dataset]
    options fake_images real_images result_dict s
    = (inr result_dict', s') ->
  exists inception fid : pyfloat,
    GetInceptionScore fake_images = inr inception
    /\ ComputeTFGanFIDScore fake_images real_images = inr fid
    /\ result_dict'
       = <["fid_score" := fid]> (<["inception_score" := inception]> result_dict)
    /\ s' = s.
Proof using Hdataset Hno_ms_ssim Hno_kid Hno_fractal.
  unfold run_after_session. cbn [for_each].
  cbn [RunAfterSession InceptionScoreTask FIDScoreTask MultiscaleSSIMTask
       ComputeAccuracyTask FractalDimensionTask KIDScoreTask
       GeneratorConditionNumberTask GILBOTask].
  unfold RunAfterSession_base, ShouldRunMultiscaleSSIM, getitem.
  rewrite Hdataset, Hno_kid, Hno_fractal.
  cbn [mbind result_bind mret result_ret]. rewrite Hno_ms_ssim.
  destruct (GetInceptionScore fake_images) as [e|inception]; [done|].
  destruct (ComputeTFGanFIDScore fake_images real_images) as [e|fid]; [done|].
  unfold mbind, M_bind, mret, M_ret, result_ret, lift, dict_update.
  cbv beta iota. rewrite !(left_id_L ∅ (∪)). intros [= <- <-].
  exists inception, fid. repeat split; try done.
  by rewrite !insert_empty, <- !insert_union_singleton_l.
Qed.
End SwitchedOff.

(** X14. With a model type other than [GAN_WITH_PENALTY], a data set other
    than celeba and celebahq128, and none of the four [compute_...] options
    set, a successful [RunCheckpointEval] returns exactly the Inception score
    and the FID; every other metric column of the row then holds the default
    ["-1.000"]. *)
Theorem default_run_reports_inception_and_fid {world : Collaborators}
    (options : gmap string pyval) (gan_type dataset : pyval)
    (tasks_to_run : list EvalTask) (checkpoint_path : string)
    (result_dict : gmap string pyfloat) (s s' : rng) :
  options !! "gan_type" = Some gan_type ->
  options !! "dataset" = Some dataset ->
  val_eqb gan_type GAN_WITH_PENALTY = false ->
  val_in dataset ["celeba"; "celebahq128"] = false ->
  truthy (dict_get options "compute_kid_score" (VBool false)) = false ->
  truthy (dict_get options "compute_fractal_dimension" (VBool false)) = false ->
  truthy (dict_get options "compute_gilbo" (VBool false)) = false ->
  truthy (dict_get options "compute_generator_condition_number" (VBool false))
  = false ->
  tasks_for options = inr tasks_to_run ->
  RunCheckpointEval checkpoint_path options tasks_to_run s = (inr result_dict, s') ->
  dom result_dict = {["inception_score"; "fid_score"]}
  /\ forall task_metric,
       task_metric <> "inception_score" -> task_metric <> "fid_score" ->
       format_3f (dict_get result_dict task_metric (Fin (-1))) = "-1.000".
Proof.
  intros Hgt Hds Hacc Hms Hkid Hfd Hgilbo Hcond Htasks Hrun.
  apply tasks_for_ok in Htasks as (dataset' & Hds' & ->).
  rewrite Hds in Hds'. injection Hds' as <-.
  apply RunCheckpointEval_hooks in Hrun
      as (real & fake' & real' & rd1 & s1 & s2 & s3 & Hin & Hafter).
  rewrite (run_in_session_off options gan_type dataset Hgt Hacc Hgilbo Hcond)
    in Hin.
  injection Hin as <- <-.
  apply (run_after_session_off options dataset Hds Hms Hkid Hfd) in Hafter
      as (inception & fid & _ & _ & -> & _).
  split.
  - rewrite !dom_insert_L, dom_empty_L. apply (bool_decide_unpack _). by vm_compute.
  - intros task_metric H1 H2. unfold dict_get.
    rewrite !lookup_insert_ne by done. by rewrite lookup_empty.
Qed.

Lemma default_run_reports_inception_and_fid_witness :
  exists (result_dict : gmap string pyfloat) (s' : nat),
    RunCheckpointEval (world := toy_world) "ckpt-1" toy_plain_options toy_tasks 0%nat
    = (inr result_dict, s')
    /\ dom result_dict = {["inception_score"; "fid_score"]}
    /\ forall task_metric,
         task_metric <> "inception_score" -> task_metric <> "fid_score" ->
         format_3f (dict_get result_dict task_metric (Fin (-1))) = "-1.000".
Proof.
  assert (is_Some (match (RunCheckpointEval (world := toy_world) "ckpt-1"
                            toy_plain_options toy_tasks 0%nat).1 with
                   | inr _ => Some tt
                   | inl _ => None
                   end)) as Hok by (vm_compute; eexists; reflexivity).
  destruct (RunCheckpointEval (world := toy_world) "ckpt-1" toy_plain_options
              toy_tasks 0%nat) as [[e|result_dict] s'] eqn:Hrun;
    cbn [fst] in Hok; [by destruct Hok|].
  exists result_dict, s'. split; [reflexivity|].
  assert (toy_plain_options !! "gan_type" = Some (VStr "GAN")) as H1
    by (vm_compute; reflexivity).
  assert (toy_plain_options !! "dataset" = Some (VStr "toy")) as H2
    by (vm_compute; reflexivity).
  assert (val_eqb (VStr "GAN") (GAN_WITH_PENALTY (Collaborators := toy_world))
          = false) as H3 by (vm_compute; reflexivity).
  assert (val_in (VStr "toy") ["celeba"; "celebahq128"] = false) as H4
    by (vm_compute; reflexivity).
  assert (truthy (dict_get toy_plain_options "compute_kid_score" (VBool false))
          = false) as H5 by (vm_compute; reflexivity).
  assert (truthy (dict_get toy_plain_options "compute_fractal_dimension"
                    (VBool false)) = false) as H6 by (vm_compute; reflexivity).
  assert (truthy (dict_get toy_plain_options "compute_gilbo" (VBool false))
          = false) as H7 by (vm_compute; reflexivity).
  assert (truthy (dict_get toy_plain_options "compute_generator_condition_number"
                    (VBool false)) = false) as H8 by (vm_compute; reflexivity).
  assert (tasks_for (world := toy_world) toy_plain_options = inr toy_tasks) as H9
    by reflexivity.
  exact (default_run_reports_inception_and_fid (world := toy_world)
           toy_plain_options (VStr "GAN") (VStr "toy") toy_tasks "ckpt-1"
           result_dict 0%nat s' H1 H2 H3 H4 H5 H6 H7 H8 H9 Hrun).
Defined.

(** ** Edge cases of [ComputeAccuracyLoss] *)

Section AccuracyEdges.
Context {world : Collaborators}.
Variables (options : gmap string pyval) (gan : GAN rng zsample).
Variables (test_images train_images : ndarray) (dataset : pyval).
Variable max_train_examples : Z.
Hypothesis Hdataset : options !! "dataset" = Some dataset.
Hypothesis Htrain :
  GetRealImages dataset "train" max_train_examples false = inr train_images.
Hypothesis Henough : shape0 test_images <= shape0 train_images.

(** [ComputeAccuracyLoss] from the loop over the repeats on. *)
Lemma ComputeAccuracyLoss_from_loop (num_repeat : Z) (s : rng) :
  batch_size gan <> 0 ->
  ComputeAccuracyLoss options gan test_images max_train_examples num_repeat s
  = ('(train_accuracies, test_accuracies, fake_accuracies,
       train_d_losses, test_d_losses) ←
       for_each (range num_repeat)
         (repeat_step gan test_images train_images
            (shape0 test_images / batch_size gan))
         ([], [], [], [], []);
     mret (<["test_d_loss" := np_mean test_d_losses]>
             (<["train_d_loss" := np_mean train_d_losses]>
                (<["fake_accuracy" := np_mean fake_accuracies]>
                   (<["test_accuracy" := np_mean test_accuracies]>
                      (<["train_accuracy" := np_mean train_accuracies]> ∅)))))) s.
Proof using Hdataset Htrain Henough.
  intros Hbs. unfold ComputeAccuracyLoss.
  rewrite (M_bind_step _ _ s s dataset)
    by (unfold lift, getitem; by rewrite Hdataset).
  rewrite (M_bind_step _ _ s s train_images) by (unfold lift; by rewrite Htrain).
  rewrite (M_bind_step _ _ s s tt); last first.
  { destruct (Z.ltb_spec (shape0 train_images) (shape0 test_images)); [lia | done]. }
  rewrite (M_bind_step _ _ s s (shape0 test_images / batch_size gan)); last first.
  { unfold lift, floordiv. destruct (Z.eqb_spec (batch_size gan) 0); done. }
  done.
Qed.
End AccuracyEdges.

(** X15. With no repeat ([num_repeat] of 0 or less) [ComputeAccuracyLoss]
    still returns its five metrics, and every one of them is NaN (the mean of
    an empty list); numpy's random generator is not used. *)
Theorem ComputeAccuracyLoss_without_repeats {world : Collaborators}
    (options : gmap string pyval) (gan : GAN rng zsample)
    (test_images train_images : ndarray) (dataset : pyval)
    (max_train_examples num_repeat : Z) (s : rng) :
  options !! "dataset" = Some dataset ->
  GetRealImages dataset "train" max_train_examples false = inr train_images ->
  shape0 test_images <= shape0 train_images ->
  batch_size gan <> 0 ->
  num_repeat <= 0 ->
  ComputeAccuracyLoss options gan test_images max_train_examples num_repeat s
  = (inr all_nan_result, s).
Proof.
  intros Hds Htrain Henough Hbs Hrep.
  rewrite (ComputeAccuracyLoss_from_loop options gan test_images train_images
             dataset max_train_examples Hds Htrain Henough num_repeat s Hbs).
  unfold range, seqZ. rewrite Z2Nat.nonpos by lia. done.
Qed.

Lemma toy_train_images :
  GetRealImages (world := toy_world) (VStr "toy") "train" 50000 false
  = inr toy_train.
Proof. reflexivity. Qed.

Lemma ComputeAccuracyLoss_without_repeats_witness :
  toy_options !! "dataset" = Some (VStr "toy")
  /\ shape0 (toy_test 100) <= shape0 toy_train
  /\ batch_size (toy_gan "ckpt-1") <> 0
  /\ ComputeAccuracyLoss (world := toy_world) toy_options (toy_gan "ckpt-1")
       (toy_test 100) 50000 0 1%nat
     = (inr all_nan_result, 1%nat).
Proof.
  assert (toy_options !! "dataset" = Some (VStr "toy")) as H1
    by (vm_compute; reflexivity).
  assert (shape0 (toy_test 100) <= shape0 toy_train) as H3
    by (vm_compute; discriminate).
  assert (batch_size (toy_gan "ckpt-1") <> 0) as H4 by (vm_compute; discriminate).
  split; [exact H1|]. split; [exact H3|]. split; [exact H4|].
  exact (ComputeAccuracyLoss_without_repeats (world := toy_world) toy_options
           (toy_gan "ckpt-1") (toy_test 100) toy_train (VStr "toy") 50000 0 1%nat
           H1 toy_train_images H3 H4 ltac:(lia)).
Defined.

(** X16. When the test images do not fill one batch, the loop over the
    batches does not run and the first repeat divides by the length of an
    empty list: [ComputeAccuracyLoss] raises [ZeroDivisionError] after one
    call of [np.random.choice]. The last hypothesis says that the indices
    [np.random.choice] returns are below its first argument. *)
Theorem ComputeAccuracyLoss_without_batches {world : Collaborators}
    (options : gmap string pyval) (gan : GAN rng zsample)
    (test_images train_images : ndarray) (dataset : pyval)
    (max_train_examples num_repeat : Z) (s : rng) :
  options !! "dataset" = Some dataset ->
  GetRealImages dataset "train" max_train_examples false = inr train_images ->
  shape0 test_images <= shape0 train_images ->
  shape0 test_images < batch_size gan ->
  1 <= num_repeat ->
  Forall (fun i => (i < length (rows train_images))%nat)
    (np_random_choice (shape0 train_images) (shape0 test_images) s).1 ->
  ComputeAccuracyLoss options gan test_images max_train_examples num_repeat s
  = (inl ZeroDivisionError,
     (np_random_choice (shape0 train_images) (shape0 test_images) s).2).
Proof.
  intros Hds Htrain Henough Hsmall Hrep Hidx.
  pose proof (shape0_nonneg test_images) as Hnn.
  rewrite (ComputeAccuracyLoss_from_loop options gan test_images train_images
             dataset max_train_examples Hds Htrain Henough num_repeat s)
    by lia.
  rewrite Z.div_small by lia.
  apply M_bind_raise.
  assert (exists ks, range num_repeat = 0 :: ks) as (ks & ->).
  { unfold range, seqZ. destruct (Z.to_nat num_repeat) as [|n] eqn:Hn; [lia|].
    eexists. reflexivity. }
  cbn [for_each]. apply M_bind_raise. unfold repeat_step.
  destruct (np_random_choice (shape0 train_images) (shape0 test_images) s)
    as [idx s1] eqn:Hchoice.
  cbn [fst snd] in *.
  rewrite (M_bind_step _ _ s s1 idx) by (unfold draw; by rewrite Hchoice).
  destruct (train_subset_ok train_images idx Hidx) as (train_subset & Hsub & _).
  rewrite (M_bind_step _ _ s1 s1 train_subset) by (unfold lift; by rewrite Hsub).
  done.
Qed.

Lemma ComputeAccuracyLoss_without_batches_witness :
  toy_options !! "dataset" = Some (VStr "toy")
  /\ shape0 (toy_test 50) <= shape0 toy_train
  /\ shape0 (toy_test 50) < batch_size (toy_gan "ckpt-1")
  /\ ComputeAccuracyLoss (world := toy_world) toy_options (toy_gan "ckpt-1")
       (toy_test 50) 50000 5 1%nat
     = (inl ZeroDivisionError,
        (np_random_choice (Collaborators := toy_world) (shape0 toy_train)
           (shape0 (toy_test 50)) 1%nat).2).
Proof.
  assert (toy_options !! "dataset" = Some (VStr "toy")) as H1
    by (vm_compute; reflexivity).
  assert (shape0 (toy_test 50) <= shape0 toy_train) as H3
    by (vm_compute; discriminate).
  assert (shape0 (toy_test 50) < batch_size (toy_gan "ckpt-1")) as H4
    by (vm_compute; reflexivity).
  assert (Forall (fun i => (i < length (rows toy_train))%nat)
            (np_random_choice (Collaborators := toy_world) (shape0 toy_train)
               (shape0 (toy_test 50)) 1%nat).1) as H6.
  { apply (bool_decide_unpack _). vm_compute. reflexivity. }
  split; [exact H1|]. split; [exact H3|]. split; [exact H4|].
  exact (ComputeAccuracyLoss_without_batches (world := toy_world) toy_options
           (toy_gan "ckpt-1") (toy_test 50) toy_train (VStr "toy") 50000 5 1%nat
           H1 toy_train_images H3 H4 ltac:(lia) H6).
Defined.

(** X17. A batch size of 0 is a [ZeroDivisionError], raised once the train
    images are read and before anything is drawn or evaluated. *)
Theorem ComputeAccuracyLoss_zero_batch_size {world : Collaborators}
    (options : gmap string pyval) (gan : GAN rng zsample)
    (test_images train_images : ndarray) (dataset : pyval)
    (max_train_examples num_repeat : Z) (s : rng) :
  options !! "dataset" = Some dataset ->
  GetRealImages dataset "train" max_train_examples false = inr train_images ->
  shape0 test_images <= shape0 train_images ->
  batch_size gan = 0 ->
  ComputeAccuracyLoss options gan test_images max_train_examples num_repeat s
  = (inl ZeroDivisionError, s).
Proof.
  intros Hds Htrain Henough Hbs. unfold ComputeAccuracyLoss.
  rewrite (M_bind_step _ _ s s dataset)
    by (unfold lift, getitem; by rewrite Hds).
  rewrite (M_bind_step _ _ s s train_images) by (unfold lift; by rewrite Htrain).
  rewrite (M_bind_step _ _ s s tt); last first.
  { destruct (Z.ltb_spec (shape0 train_images) (shape0 test_images)); [lia | done]. }
  apply M_bind_raise. unfold lift, floordiv. by rewrite Hbs.
Qed.

Lemma ComputeAccuracyLoss_zero_batch_size_witness :
  let gan := MkGAN nat nat 0 8 (fun _ _ s => (s, S s)) (fun _ => toy_array 1 (Fin 0))
               (fun _ => []) (fun _ _ => Fin 0) in
  toy_options !! "dataset" = Some (VStr "toy")
  /\ shape0 (toy_test 100) <= shape0 toy_train
  /\ batch_size gan = 0
  /\ ComputeAccuracyLoss (world := toy_world) toy_options gan (toy_test 100)
       50000 5 1%nat
     = (inl ZeroDivisionError, 1%nat).
Proof.
  intros gan.
  assert (toy_options !! "dataset" = Some (VStr "toy")) as H1
    by (vm_compute; reflexivity).
  assert (shape0 (toy_test 100) <= shape0 toy_train) as H3
    by (vm_compute; discriminate).
  split; [exact H1|]. split; [exact H3|]. split; [reflexivity|].
  exact (ComputeAccuracyLoss_zero_batch_size (world := toy_world) toy_options gan
           (toy_test 100) toy_train (VStr "toy") 50000 5 1%nat
           H1 toy_train_images H3 eq_refl).
Defined.

(** ** The range of the accuracies *)

Lemma count_true_bounds (l : list bool) : 0 <= count_true l <= Z.of_nat (length l).
Proof.
  unfold count_true. pose proof (length_filter (fun b => b = true) l). lia.
Qed.

Lemma fraction_of_count (c : Z) (n : nat) :
  (0 < n)%nat -> 0 <= c <= Z.of_nat n ->
  is_fraction (fdiv_count (fint c) n).
Proof.
  intros Hn Hc. unfold fdiv_count, fint, fnum. eexists. split; [done|].
  rewrite Qred_correct.
  assert (0 < inject_Z (Z.of_nat n))%Q as Hpos.
  { change 0%Q with (inject_Z 0). rewrite <- Zlt_Qlt. lia. }
  split.
  - apply Qle_shift_div_l; [done|]. rewrite Qmult_0_l.
    change 0%Q with (inject_Z 0). rewrite <- Zle_Qle. lia.
  - apply Qle_shift_div_r; [done|]. rewrite Qmult_1_l.
    rewrite <- Zle_Qle. lia.
Qed.

Lemma indicator_average_fraction {world : Collaborators} (gan : GAN rng zsample)
    (cmp : pyfloat -> pyfloat -> bool) (inputs : list ndarray) :
  inputs <> [] -> is_fraction (indicator_average gan cmp inputs).
Proof.
  intros Hne. unfold indicator_average.
  pose proof (count_true_bounds
                (map (fun x => cmp (first_output gan x) discriminator_threshold)
                   inputs)) as Hc.
  rewrite length_map in Hc.
  apply fraction_of_count; [|done]. destruct inputs; [done | simpl; lia].
Qed.

Lemma fsum_fractions (l : list pyfloat) (a : Q) :
  Forall is_fraction l ->
  exists b, foldl fadd (Fin a) l = Fin b
            /\ (a <= b <= a + inject_Z (Z.of_nat (length l)))%Q.
Proof.
  intros Hall. revert a. induction Hall as [|x l (q & -> & Hq0 & Hq1) _ IH]; intros a.
  - exists a. split; [done|]. cbn [length]. change (inject_Z (Z.of_nat 0)) with 0%Q.
    rewrite Qplus_0_r. split; apply Qle_refl.
  - cbn [foldl fadd]. destruct (IH (Qred (a + q))) as (b & Hb & Hlo & Hhi).
    exists b. split; [done|]. rewrite Qred_correct in Hlo, Hhi.
    cbn [length]. rewrite Nat2Z.inj_succ, <- Z.add_1_l, inject_Z_plus.
    split.
    + apply Qle_trans with (a + q)%Q; [|done].
      rewrite <- (Qplus_0_r a) at 1. by apply Qplus_le_r.
    + apply Qle_trans with (a + q + inject_Z (Z.of_nat (length l)))%Q; [done|].
      rewrite <- Qplus_assoc. apply Qplus_le_r. by apply Qplus_le_l.
Qed.

Lemma np_mean_fractions (l : list pyfloat) :
  l <> [] -> Forall is_fraction l -> is_fraction (np_mean l).
Proof.
  intros Hne Hall. unfold np_mean, fsum.
  destruct (fsum_fractions l (inject_Z 0) Hall) as (b & Hb & Hlo & Hhi).
  change (fint 0) with (Fin (inject_Z 0)). rewrite Hb.
  destruct l as [|x l]; [done|]. cbv beta iota.
  unfold fdiv_count, fnum. eexists. split; [done|]. rewrite Qred_correct.
  assert (0 < inject_Z (Z.of_nat (length (x :: l))))%Q as Hpos.
  { change 0%Q with (inject_Z 0). rewrite <- Zlt_Qlt. simpl. lia. }
  rewrite Qplus_0_l in Hhi. split.
  - apply Qle_shift_div_l; [done|]. by rewrite Qmult_0_l.
  - apply Qle_shift_div_r; [done|]. by rewrite Qmult_1_l.
Qed.

(** The loop over the repeats appends one accuracy of each kind per
    repeat, each between 0 and 1. *)
Lemma repeat_loop_fractions {world : Collaborators} (gan : GAN rng zsample)
    (test_images train_images : ndarray) (num_batches : Z) (ks : list Z)
    (tra tea fa trl tel tra' tea' fa' trl' tel' : list pyfloat) (s s' : rng) :
  for_each ks (repeat_step gan test_images train_images num_batches)
    (tra, tea, fa, trl, tel) s = (inr (tra', tea', fa', trl', tel'), s') ->
  exists new_tra new_tea new_fa,
    tra' = tra ++ new_tra /\ tea' = tea ++ new_tea /\ fa' = fa ++ new_fa
    /\ length new_tra = length ks /\ length new_tea = length ks
    /\ length new_fa = length ks
    /\ Forall is_fraction new_tra /\ Forall is_fraction new_tea
    /\ Forall is_fraction new_fa.
Proof.
  revert tra tea fa trl tel s.
  induction ks as [|k ks IH]; intros tra tea fa trl tel s Hrun.
  - injection Hrun as <- <- <- <- <- <-. exists [], [], [].
    rewrite !app_nil_r. by repeat split.
  - cbn [for_each] in Hrun.
    apply M_bind_ok in Hrun as ([[[[tra1 tea1] fa1] trl1] tel1] & s1 & Hstep & Hrun).
    apply repeat_step_ok in Hstep as (train_subset & fed & _ & Hne & Hst).
    injection Hst as -> -> -> -> ->.
    apply IH in Hrun
        as (nt & ne & nf & -> & -> & -> & Hl1 & Hl2 & Hl3 & Hf1 & Hf2 & Hf3).
    assert (forall {A : Type} (f : ndarray * ndarray * zsample -> A),
              map f fed <> []) as Hmap by (intros A f; by destruct fed).
    eexists (_ :: nt), (_ :: ne), (_ :: nf). rewrite <- !app_assoc.
    split; [done|]. split; [done|]. split; [done|].
    cbn [length]. rewrite Hl1, Hl2, Hl3.
    split; [done|]. split; [done|]. split; [done|].
    split; [|split]; (constructor; [|done]);
      apply indicator_average_fraction, Hmap.
Qed.

(** X18. With at least one repeat, the three accuracies
    [ComputeAccuracyLoss] returns are finite numbers between 0 and 1. *)
Theorem reported_accuracies_are_fractions {world : Collaborators}
    (options : gmap string pyval) (gan : GAN rng zsample) (test_images : ndarray)
    (max_train_examples num_repeat : Z) (result_dict : gmap string pyfloat)
    (s s' : rng) :
  1 <= num_repeat ->
  ComputeAccuracyLoss options gan test_images max_train_examples num_repeat s
    = (inr result_dict, s') ->
  exists train_accuracy test_accuracy fake_accuracy,
    result_dict !! "train_accuracy" = Some train_accuracy
    /\ result_dict !! "test_accuracy" = Some test_accuracy
    /\ result_dict !! "fake_accuracy" = Some fake_accuracy
    /\ is_fraction train_accuracy /\ is_fraction test_accuracy
    /\ is_fraction fake_accuracy.
Proof.
  intros Hrep Hrun. unfold ComputeAccuracyLoss in Hrun.
  apply M_bind_ok in Hrun as (dataset & s1 & _ & Hrun).
  apply M_bind_ok in Hrun as (train_images & s2 & _ & Hrun).
  apply M_bind_ok in Hrun as ([] & s3 & _ & Hrun).
  apply M_bind_ok in Hrun as (num_batches & s4 & _ & Hrun).
  apply M_bind_ok in Hrun as ([[[[tra tea] fa] trl] tel] & s5 & Hloop & Hrun).
  injection Hrun as <- <-.
  apply repeat_loop_fractions in Hloop
      as (nt & ne & nf & -> & -> & -> & Hl1 & Hl2 & Hl3 & Hf1 & Hf2 & Hf3).
  rewrite range_length in Hl1, Hl2, Hl3. cbn [app].
  eexists _, _, _.
  split; [by simplify_map_eq|]. split; [by simplify_map_eq|].
  split; [by simplify_map_eq|].
  split; [|split]; apply np_mean_fractions; try done;
    intros ->; simpl in *; lia.
Qed.

Lemma reported_accuracies_are_fractions_witness :
  exists (result_dict : gmap string pyfloat) (s' : nat),
    ComputeAccuracyLoss (world := toy_world) toy_options (toy_gan "ckpt-1")
      (toy_test 100) 50000 2 1%nat = (inr result_dict, s')
    /\ exists train_accuracy test_accuracy fake_accuracy,
         result_dict !! "train_accuracy" = Some train_accuracy
         /\ result_dict !! "test_accuracy" = Some test_accuracy
         /\ result_dict !! "fake_accuracy" = Some fake_accuracy
         /\ is_fraction train_accuracy /\ is_fraction test_accuracy
         /\ is_fraction fake_accuracy.
Proof.
  assert (is_Some (match (ComputeAccuracyLoss (world := toy_world) toy_options
                            (toy_gan "ckpt-1") (toy_test 100) 50000 2 1%nat).1 with
                   | inr _ => Some tt
                   | inl _ => None
                   end)) as Hok by (vm_compute; eexists; reflexivity).
  destruct (ComputeAccuracyLoss (world := toy_world) toy_options (toy_gan "ckpt-1")
              (toy_test 100) 50000 2 1%nat) as [[e|result_dict] s'] eqn:Hrun;
    cbn [fst] in Hok; [by destruct Hok|].
  exists result_dict, s'. split; [reflexivity|].
  exact (reported_accuracies_are_fractions (world := toy_world) toy_options
           (toy_gan "ckpt-1") (toy_test 100) 50000 2 result_dict 1%nat s'
           ltac:(lia) Hrun).
Defined.

(** ** Errors of [RunCheckpointEval] and what the sweep does with them *)

(** X19. [RunCheckpointEval] checks the model type first: for a
    [gan_type] that is not among [SUPPORTED_GANS] it raises [ValueError]
    right after seeding numpy's random generator with 42, whatever the data
    set, the checkpoint and the tasks are. *)
Theorem unsupported_gan_type_raises {world : Collaborators}
    (checkpoint_path : string) (options : gmap string pyval)
    (tasks_to_run : list EvalTask) (gan_type : pyval) (s : rng) :
  options !! "gan_type" = Some gan_type ->
  val_in gan_type SUPPORTED_GANS = false ->
  RunCheckpointEval checkpoint_path options tasks_to_run s
  = (inl (ValueError "Gan type is not supported."), np_random_seed 42).
Proof.
  intros Hgt Hin. unfold RunCheckpointEval, eval_populations.
  apply M_bind_raise.
  rewrite (M_bind_step _ _ s (np_random_seed 42) tt) by done.
  rewrite (M_bind_step _ _ _ (np_random_seed 42) gan_type)
    by (unfold lift, getitem; by rewrite Hgt).
  apply M_bind_raise. by rewrite Hin.
Qed.

Lemma unsupported_gan_type_raises_witness :
  toy_unsupported_options !! "gan_type" = Some (VStr "FOO")
  /\ val_in (VStr "FOO") (SUPPORTED_GANS (world := toy_world)) = false
  /\ RunCheckpointEval (world := toy_world) "ckpt-1" toy_unsupported_options
       toy_tasks 0%nat
     = (inl (ValueError "Gan type is not supported."),
        np_random_seed (Collaborators := toy_world) 42).
Proof.
  assert (toy_unsupported_options !! "gan_type" = Some (VStr "FOO")) as H1
    by (vm_compute; reflexivity).
  assert (val_in (VStr "FOO") (SUPPORTED_GANS (world := toy_world)) = false) as H2
    by (vm_compute; reflexivity).
  split; [exact H1|]. split; [exact H2|].
  exact (unsupported_gan_type_raises (world := toy_world) "ckpt-1"
           toy_unsupported_options toy_tasks (VStr "FOO") 0%nat H1 H2).
Defined.

Section SweepOutcome.
Context {world : Collaborators}.
Variables (options : gmap string pyval) (tasks_to_run : list EvalTask).
Variables (task_headers train_params : list string).
Variable finished : gset (option string).

(** The three outcomes of one pass of the loop over the checkpoints. *)
Lemma sweep_step_outcome (checkpoint_path : string) (st st1 : sweep_state)
    (r : result unit) :
  sweep_step options tasks_to_run task_headers train_params finished
    checkpoint_path tt st = (r, st1) ->
  (Some checkpoint_path ∈ finished /\ r = inr tt /\ st1 = st)
  \/ ((Some checkpoint_path ∉ finished) /\ r = inr tt
      /\ exists row s1,
           length row = (5 + length task_headers + length train_params)%nat
           /\ head row = Some checkpoint_path
           /\ st1 = after_row st checkpoint_path row s1)
  \/ ((Some checkpoint_path ∉ finished) /\ (exists e, r = inl e)
      /\ scores_file st1 = scores_file st
      /\ evaluated st1 = evaluated st ++ [checkpoint_path]).
Proof using Type.
  intros Hstep. destruct (decide (Some checkpoint_path ∈ finished)) as [Hin|Hnot].
  { left. rewrite sweep_step_skip in Hstep by done. by injection Hstep as <- <-. }
  right.
  destruct (RunCheckpointEval checkpoint_path options tasks_to_run (np_random st))
    as [r0 s1] eqn:Hrun.
  rewrite (sweep_step_eval _ _ _ _ _ _ _ _ _ Hnot Hrun) in Hstep. cbv zeta in Hstep.
  assert (forall result_dict default_value,
            match output_row options checkpoint_path task_headers train_params
                    result_dict default_value with
            | inr row => (inr tt, after_row st checkpoint_path row s1)
            | inl e => (inl e, MkSweepState _ (scores_file st) s1
                                 (evaluated st ++ [checkpoint_path]))
            end = (r, st1) ->
            ((Some checkpoint_path ∉ finished) /\ r = inr tt
             /\ exists row s1,
                  length row = (5 + length task_headers + length train_params)%nat
                  /\ head row = Some checkpoint_path
                  /\ st1 = after_row st checkpoint_path row s1)
            \/ ((Some checkpoint_path ∉ finished) /\ (exists e, r = inl e)
                /\ scores_file st1 = scores_file st
                /\ evaluated st1 = evaluated st ++ [checkpoint_path])) as Hrow.
  { intros rd dv Hout.
    destruct (output_row _ _ _ _ rd dv) as [e|row] eqn:Hrow;
      injection Hout as <- <-.
    - right. split; [done|]. split; [by exists e|]. done.
    - left. split; [done|]. split; [done|]. exists row, s1.
      apply output_row_ok in Hrow as (gt & ds & cells & _ & _ & Hlen & ->).
      split; [|done]. rewrite !length_app, length_map, Hlen. simpl. lia. }
  destruct r0 as [e|result_dict]; [|by eapply Hrow].
  destruct e; try (by eapply Hrow);
    injection Hstep as <- <-; right; (split; [done|]); (split; [by eexists|]); done.
Qed.

(** Whatever the outcome of the loop over the checkpoints, the rows it
    has appended are those of the first pending checkpoints, in order. *)
Lemma sweep_loop_outcome (paths : list string) (content : csv_content)
    (st st1 : sweep_state) (r : result unit) :
  scores_file st = Some content ->
  for_each paths
    (sweep_step options tasks_to_run task_headers train_params finished) tt st
  = (r, st1) ->
  exists new_rows,
    scores_file st1 = Some (content ++ new_rows)
    /\ head <$> new_rows
       = Some <$> take (length new_rows) (pending finished paths)
    /\ Forall (fun row : list string =>
                 length row
                 = (5 + length task_headers + length train_params)%nat)
         new_rows
    /\ match r with
       | inr _ => length new_rows = length (pending finished paths)
       | inl _ =>
           (length new_rows < length (pending finished paths))%nat
           /\ evaluated st1
              = evaluated st
                  ++ take (S (length new_rows)) (pending finished paths)
       end.
Proof using Type.
  revert content st. induction paths as [|c paths IH]; intros content st Hfile Hrun.
  - injection Hrun as <- <-. exists []. rewrite app_nil_r. by repeat split.
  - cbn [for_each] in Hrun.
    destruct (sweep_step options tasks_to_run task_headers train_params finished
                c tt st) as [r0 st'] eqn:Hstep.
    destruct (sweep_step_outcome _ _ _ _ Hstep)
        as [(Hin & -> & ->)
           |[(Hnot & -> & row & s1 & Hlen & Hhead & ->)
            |(Hnot & (e & ->) & Hfile' & Hev)]].
    + rewrite (Sweep_bind_step _ _ _ _ _ Hstep) in Hrun.
      apply (IH content) in Hrun as (new_rows & Hf & Hh & Hl & Hr); [|done].
      exists new_rows. unfold pending in *.
      rewrite filter_cons_False by (intros Hn; by apply Hn). done.
    + rewrite (Sweep_bind_step _ _ _ _ _ Hstep) in Hrun.
      apply (IH (content ++ [row])) in Hrun as (new_rows & Hf & Hh & Hl & Hr);
        last by (unfold after_row; simpl; rewrite Hfile).
      exists (row :: new_rows). unfold pending in *.
      rewrite filter_cons_True by done. cbn [length take].
      split; [by rewrite Hf, <- app_assoc|].
      split; [by rewrite !fmap_cons, Hh, Hhead|].
      split; [by constructor|].
      destruct r as [e|u].
      * destruct Hr as [Hlt Hev]. split; [lia|].
        rewrite Hev. unfold after_row. cbn [evaluated take].
        by rewrite <- app_assoc.
      * lia.
    + rewrite (Sweep_bind_raise _ _ _ _ _ Hstep) in Hrun. injection Hrun as <- <-.
      exists []. unfold pending. rewrite filter_cons_True by done.
      rewrite app_nil_r, Hfile'. cbn [length take].
      split; [done|]. split; [done|]. split; [constructor|].
      split; [lia|]. by rewrite take_0.
Qed.
End SweepOutcome.

(** X20. Only [NanFoundError] is caught: when the evaluation of a pending
    checkpoint raises any other exception, the sweep stops with that
    exception, leaves the scores file as it is (no row for that checkpoint)
    and does not evaluate the checkpoints after it. *)
Theorem sweep_stops_on_other_errors {world : Collaborators}
    (options : gmap string pyval) (tasks_to_run : list EvalTask)
    (task_headers train_params : list string) (finished : gset (option string))
    (checkpoint_path : string) (remaining : list string) (st : sweep_state)
    (e : exn) (s1 : rng) :
  Some checkpoint_path ∉ finished ->
  RunCheckpointEval checkpoint_path options tasks_to_run (np_random st)
    = (inl e, s1) ->
  is_NanFoundError e = false ->
  for_each (checkpoint_path :: remaining)
    (sweep_step options tasks_to_run task_headers train_params finished) tt st
  = (inl e, MkSweepState _ (scores_file st) s1 (evaluated st ++ [checkpoint_path])).
Proof.
  intros Hnot Hrun Hother. cbn [for_each]. apply Sweep_bind_raise.
  rewrite (sweep_step_eval _ _ _ _ _ _ _ _ _ Hnot Hrun). cbv zeta.
  by destruct e.
Qed.

Lemma sweep_stops_on_other_errors_witness :
  (Some "ckpt-1" ∉ (∅ : gset (option string)))
  /\ RunCheckpointEval (world := toy_world) "ckpt-1" toy_unsupported_options
       toy_tasks (np_random toy_start)
     = (inl (ValueError "Gan type is not supported."), 1%nat)
  /\ is_NanFoundError (ValueError "Gan type is not supported.") = false
  /\ for_each ["ckpt-1"; "ckpt-nan"; "ckpt-3"]
       (sweep_step (world := toy_world) toy_unsupported_options toy_tasks
          (task_headers_of (world := toy_world) toy_tasks)
          (GetAllTrainingParams (world := toy_world)) ∅) tt toy_start
     = (inl (ValueError "Gan type is not supported."),
        MkSweepState toy_world (scores_file toy_start) 1%nat
          (evaluated toy_start ++ ["ckpt-1"])).
Proof.
  assert (Some "ckpt-1" ∉ (∅ : gset (option string))) as H1 by set_solver.
  assert (RunCheckpointEval (world := toy_world) "ckpt-1" toy_unsupported_options
            toy_tasks (np_random toy_start)
          = (inl (ValueError "Gan type is not supported."), 1%nat)) as H2
    by (vm_compute; reflexivity).
  split; [exact H1|]. split; [exact H2|]. split; [reflexivity|].
  exact (sweep_stops_on_other_errors (world := toy_world) toy_unsupported_options
           toy_tasks (task_headers_of (world := toy_world) toy_tasks)
           (GetAllTrainingParams (world := toy_world)) ∅ "ckpt-1"
           ["ckpt-nan"; "ckpt-3"] toy_start
           (ValueError "Gan type is not supported.") 1%nat H1 H2 eq_refl).
Defined.

(** ** Errors of [RunTaskEval] before the loop *)

(** X21. Without ["dataset"] in the options [RunTaskEval] raises [KeyError]
    while it builds its list of tasks: the scores file is neither created nor
    read and no checkpoint is evaluated. *)
Theorem RunTaskEval_without_dataset {world : Collaborators}
    (options : gmap string pyval) (st : sweep_state) :
  options !! "dataset" = None ->
  RunTaskEval options st = (inl (KeyError "dataset"), st).
Proof.
  intros Hds. unfold RunTaskEval. apply Sweep_bind_raise.
  unfold lift_result, tasks_for, getitem. by rewrite Hds.
Qed.

Lemma RunTaskEval_without_dataset_witness :
  (delete "dataset" toy_options) !! "dataset" = None
  /\ RunTaskEval (world := toy_world) (delete "dataset" toy_options) toy_start
     = (inl (KeyError "dataset"), toy_start).
Proof.
  assert ((delete "dataset" toy_options) !! "dataset" = None) as H1
    by (vm_compute; reflexivity).
  split; [exact H1|].
  exact (RunTaskEval_without_dataset (world := toy_world)
           (delete "dataset" toy_options) toy_start H1).
Defined.

Lemma finished_of_header_only {world : Collaborators} (csv_header : list string)
    (st : sweep_state) :
  scores_file st = Some [csv_header] ->
  finished_checkpoints_of csv_header st = (inr ∅, st).
Proof.
  intros Hfile. unfold finished_checkpoints_of.
  rewrite (Sweep_bind_step _ _ st st [csv_header])
    by (unfold read_records; by rewrite Hfile).
  done.
Qed.

(** X22. When there is no checkpoint state, [RunTaskEval] fails with
    [AttributeError] (it reads [all_model_checkpoint_paths] of [None]), but
    only after it has created a missing scores file: the file then holds the
    header and nothing else. *)
Theorem RunTaskEval_without_checkpoint_state {world : Collaborators}
    (options : gmap string pyval) (tasks_to_run : list EvalTask)
    (st : sweep_state) :
  tasks_for options = inr tasks_to_run ->
  get_checkpoint_state = None ->
  scores_file st = None ->
  RunTaskEval options st
  = (inl AttributeError, with_file st [csv_header_of tasks_to_run]).
Proof.
  intros Htasks Hstate Hfile.
  rewrite (RunTaskEval_no_file options tasks_to_run Htasks st Hfile).
  unfold RunTaskEval.
  rewrite (Sweep_bind_step _ _ _ (with_file st [csv_header_of tasks_to_run])
             tasks_to_run) by (unfold lift_result; by rewrite Htasks).
  cbv zeta.
  rewrite (Sweep_bind_step _ _ _ (with_file st [csv_header_of tasks_to_run]) true)
    by done.
  cbn [negb].
  rewrite (Sweep_bind_step _ _ _ (with_file st [csv_header_of tasks_to_run]) tt)
    by done.
  rewrite (Sweep_bind_step _ _ _ (with_file st [csv_header_of tasks_to_run]) ∅)
    by (by apply finished_of_header_only).
  apply Sweep_bind_raise. unfold lift_result. by rewrite Hstate.
Qed.

(** ** The table a sweep leaves *)

(** X23. A sweep over a table with the expected header only appends: whether
    it finishes or stops on an exception, the table it leaves is the old
    table followed by the rows of the first pending checkpoints, in the order
    of the checkpoint list, and it is still well formed (one field per
    column in every row). When the sweep finishes, every pending checkpoint
    has its row. The names of the header are taken to be distinct. *)
Theorem sweep_only_appends_rows {world : Collaborators}
    (options : gmap string pyval) (tasks_to_run : list EvalTask)
    (paths : list string) (st st1 : sweep_state) (content : csv_content)
    (r : result unit) :
  tasks_for options = inr tasks_to_run ->
  get_checkpoint_state = Some paths ->
  NoDup (csv_header_of tasks_to_run) ->
  scores_file st = Some content ->
  well_formed_table (csv_header_of tasks_to_run) content ->
  RunTaskEval options st = (r, st1) ->
  exists new_rows,
    scores_file st1 = Some (content ++ new_rows)
    /\ well_formed_table (csv_header_of tasks_to_run) (content ++ new_rows)
    /\ head <$> new_rows
       = Some <$> take (length new_rows) (pending (recorded_paths content) paths)
    /\ (r = inr tt ->
        length new_rows = length (pending (recorded_paths content) paths)).
Proof.
  intros Htasks Hpaths Hnodup Hfile Hwf Hrun.
  rewrite (RunTaskEval_on_table options tasks_to_run paths Htasks Hpaths st content
             Hnodup Hfile Hwf) in Hrun.
  apply (sweep_loop_outcome _ _ _ _ _ _ content) in Hrun
      as (new_rows & Hfile1 & Hheads & Hlens & Hr); [|done].
  exists new_rows. split; [done|]. split; [|split; [done|]].
  - destruct Hwf as (records & -> & Hrows). exists (records ++ new_rows).
    split; [done|]. apply Forall_app. split; [done|].
    apply (Forall_impl _ _ _ Hlens). intros row ->.
    by rewrite csv_header_length.
  - by intros ->.
Qed.

Lemma RunTaskEval_without_checkpoint_state_witness :
  let start := MkSweepState toy_world_without_state None 0%nat [] in
  let tasks_to_run :=
    [InceptionScoreTask; FIDScoreTask; MultiscaleSSIMTask; ComputeAccuracyTask;
     FractalDimensionTask; KIDScoreTask; GeneratorConditionNumberTask;
     GILBOTask (world := toy_world_without_state) (VStr "toy")] in
  tasks_for (world := toy_world_without_state) toy_options = inr tasks_to_run
  /\ get_checkpoint_state (Collaborators := toy_world_without_state) = None
  /\ scores_file start = None
  /\ RunTaskEval (world := toy_world_without_state) toy_options start
     = (inl AttributeError,
        with_file start [csv_header_of (world := toy_world_without_state)
                           tasks_to_run]).
Proof.
  intros start tasks_to_run.
  assert (tasks_for (world := toy_world_without_state) toy_options
          = inr tasks_to_run) as H1 by reflexivity.
  split; [exact H1|]. split; [reflexivity|]. split; [reflexivity|].
  exact (RunTaskEval_without_checkpoint_state (world := toy_world_without_state)
           toy_options tasks_to_run start H1 eq_refl eq_refl).
Defined.

Lemma sweep_only_appends_rows_witness :
  let header := csv_header_of (world := toy_world) toy_tasks in
  let start := with_file toy_start [header] in
  exists (r : result unit) (st1 : sweep_state) (new_rows : list (list string)),
    RunTaskEval (world := toy_world) toy_options start = (r, st1)
    /\ well_formed_table header [header]
    /\ scores_file st1 = Some ([header] ++ new_rows)
    /\ well_formed_table header ([header] ++ new_rows)
    /\ head <$> new_rows
       = Some <$> take (length new_rows)
                    (pending (recorded_paths [header])
                       ["ckpt-1"; "ckpt-nan"; "ckpt-3"])
    /\ (r = inr tt ->
        length new_rows
        = length (pending (recorded_paths [header])
                    ["ckpt-1"; "ckpt-nan"; "ckpt-3"])).
Proof.
  intros header start.
  assert (tasks_for (world := toy_world) toy_options = inr toy_tasks) as H1
    by reflexivity.
  assert (get_checkpoint_state (Collaborators := toy_world)
          = Some ["ckpt-1"; "ckpt-nan"; "ckpt-3"]) as H2 by reflexivity.
  assert (scores_file start = Some [header]) as H4 by reflexivity.
  assert (well_formed_table header [header]) as H5.
  { exists []. split; [reflexivity | constructor]. }
  destruct (RunTaskEval (world := toy_world) toy_options start) as [r st1] eqn:Hrun.
  destruct (sweep_only_appends_rows (world := toy_world) toy_options toy_tasks
              ["ckpt-1"; "ckpt-nan"; "ckpt-3"] start st1 [header] r H1 H2
              toy_header_NoDup H4 H5 Hrun)
    as (new_rows & Hfile & Hwf & Hheads & Hdone).
  exists r, st1, new_rows. split; [reflexivity|]. split; [exact H5|].
  split; [exact Hfile|]. split; [exact Hwf|]. split; [exact Hheads | exact Hdone].
Defined.

(** ** The cells of a row *)

Lemma param_cells_values (options : gmap string pyval) (train_params : list string)
    (acc row : list string) {world : Collaborators} :
  for_each (Mo := result) train_params
    (fun param output_row =>
       match options !! param with
       | Some v => mret (output_row ++ [csv_str v])
       | None => v ← getitem DEFAULT_VALUES param; mret (output_row ++ [py_str v])
       end) acc = inr row ->
  forall param, param ∈ train_params ->
                is_Some (options !! param) \/ is_Some (DEFAULT_VALUES !! param).
Proof.
  revert acc. induction train_params as [|p ps IH]; intros acc Hrun param Hin.
  - inversion Hin.
  - cbn [for_each] in Hrun. apply result_bind_ok in Hrun as (acc1 & Hstep & Hrun).
    apply elem_of_cons in Hin as [->|Hin]; [|by eapply IH].
    destruct (options !! p) as [v|]; [left; by eexists|]. right.
    apply result_bind_ok in Hstep as (v & Hv & _). unfold getitem in Hv.
    destruct (DEFAULT_VALUES !! p); [by eexists | done].
Qed.

Lemma param_cells_error (options : gmap string pyval) (train_params : list string)
    (acc : list string) (e : exn) {world : Collaborators} :
  for_each (Mo := result) train_params
    (fun param output_row =>
       match options !! param with
       | Some v => mret (output_row ++ [csv_str v])
       | None => v ← getitem DEFAULT_VALUES param; mret (output_row ++ [py_str v])
       end) acc = inl e ->
  exists param, e = KeyError param /\ param ∈ train_params
                /\ options !! param = None /\ DEFAULT_VALUES !! param = None.
Proof.
  revert acc. induction train_params as [|p ps IH]; intros acc Hrun; [done|].
  cbn [for_each] in Hrun. destruct (options !! p) as [v|] eqn:Hopt.
  - cbn [mbind result_bind mret result_ret] in Hrun.
    apply IH in Hrun as (param & -> & Hin & Ho & Hd).
    exists param. repeat split; try done. by right.
  - unfold getitem in Hrun. destruct (DEFAULT_VALUES !! p) as [v|] eqn:Hdef.
    + cbn [mbind result_bind mret result_ret] in Hrun.
      apply IH in Hrun as (param & -> & Hin & Ho & Hd).
      exists param. repeat split; try done. by right.
    + injection Hrun as <-. exists p. repeat split; try done. by left.
Qed.

(** X24. A row can be built exactly when the options hold ["gan_type"] and
    ["dataset"] and every hyperparameter column has a value in the options
    or in [DEFAULT_VALUES]. Otherwise building the row raises [KeyError] for
    a name that is missing (after the checkpoint has been evaluated). *)
Theorem output_row_needs_every_column {world : Collaborators}
    (options : gmap string pyval) (checkpoint_path : string)
    (task_headers train_params : list string)
    (result_dict : gmap string pyfloat) (default_value : pyfloat) :
  ((exists row,
       output_row options checkpoint_path task_headers train_params result_dict
         default_value = inr row)
   <-> is_Some (options !! "gan_type") /\ is_Some (options !! "dataset")
       /\ forall param, param ∈ train_params ->
            is_Some (options !! param) \/ is_Some (DEFAULT_VALUES !! param))
  /\ forall e,
       output_row options checkpoint_path task_headers train_params result_dict
         default_value = inl e ->
       exists key, e = KeyError key /\ options !! key = None
                   /\ (key = "gan_type" \/ key = "dataset"
                       \/ (key ∈ train_params /\ DEFAULT_VALUES !! key = None)).
Proof.
  split; [split|].
  - intros (row & Hrow). unfold output_row in Hrow.
    apply result_bind_ok in Hrow as (gan_type & Hgt & Hrow).
    apply result_bind_ok in Hrow as (dataset & Hds & Hrow).
    cbv zeta in Hrow. unfold getitem in Hgt, Hds.
    destruct (options !! "gan_type"); [|done].
    destruct (options !! "dataset"); [|done].
    split; [by eexists|]. split; [by eexists|].
    by eapply param_cells_values.
  - intros ([gan_type Hgt] & [dataset Hds] & Hcols).
    by eapply output_row_run.
  - intros e Hrow. unfold output_row, getitem in Hrow.
    destruct (options !! "gan_type") eqn:Hgt; last first.
    { injection Hrow as <-. exists "gan_type". split; [done|]. split; [done|].
      by left. }
    destruct (options !! "dataset") eqn:Hds; last first.
    { injection Hrow as <-. exists "dataset". split; [done|]. split; [done|].
      right. by left. }
    cbn [mbind result_bind] in Hrow. cbv zeta in Hrow.
    apply param_cells_error in Hrow as (param & -> & Hin & Ho & Hd).
    exists param. split; [done|]. split; [done|]. right. right. done.
Qed.

(** ** The hyperparameter columns *)

Lemma all_params_fold {world : Collaborators} (gans : list string)
    (acc : gset string) (p : string) :
  p ∈ foldl (fun all_params gan_type =>
               foldl (fun (all_params : gset string) (_ : string) =>
                        let q := GetParameters gan_type "wide" in
                        all_params ∪ dom q)
                     all_params ["mnist"; "fashion-mnist"; "cifar10"; "celeba"])
            acc gans
  <-> p ∈ acc \/ exists g, g ∈ gans /\ p ∈ dom (GetParameters g "wide").
Proof.
  revert acc. induction gans as [|g gans IH]; intros acc.
  - cbn [foldl]. split; [by left|]. intros [?|(g & Hg & _)]; [done | inversion Hg].
  - cbn [foldl]. rewrite IH. cbv zeta. rewrite !elem_of_union. split.
    + intros [[[[[Hp|Hp]|Hp]|Hp]|Hp]|(g' & Hg' & Hp)];
        [by left | right; exists g; split; [by left | done] ..
        | right; exists g'; split; [by right | done]].
    + intros [Hp|(g' & Hg' & Hp)]; [by do 5 left|].
      apply elem_of_cons in Hg' as [->|Hg']; [left; by right|].
      right. by exists g'.
Qed.

(** X25. The hyperparameter columns of the table are ["architecture"] and
    every key of the "wide" parameters of a supported model type, each once,
    in sorted order. *)
Theorem GetAllTrainingParams_columns {world : Collaborators} :
  (forall param,
      param ∈ GetAllTrainingParams <->
      param = "architecture"
      \/ exists gan_type, gan_type ∈ SUPPORTED_GANS
                          /\ is_Some (GetParameters gan_type "wide" !! param))
  /\ NoDup GetAllTrainingParams
  /\ StronglySorted string_le GetAllTrainingParams.
Proof.
  split; [|split].
  - intros param. unfold GetAllTrainingParams. cbv zeta.
    rewrite sorted_Permutation, elem_of_elements, all_params_fold.
    rewrite elem_of_singleton. by setoid_rewrite elem_of_dom.
  - unfold GetAllTrainingParams. cbv zeta. rewrite sorted_Permutation.
    apply NoDup_elements.
  - apply sorted_is_sorted.
Qed.

(** ** Rows that are short or blank *)

Section ShortRows.
Implicit Types (d : gmap (option string) cell) (h r : list string).

Lemma zip_insert_dom_take d h r :
  dom (foldl (fun d kv => <[Some kv.1 := CStr kv.2]> d) d (zip h r))
  = dom d ∪ list_to_set (Some <$> take (length r) h).
Proof.
  revert d r. induction h as [|k h IH]; intros d [|v r]; cbn [zip zip_with foldl].
  - cbn. set_solver.
  - cbn. set_solver.
  - cbn. set_solver.
  - rewrite IH. cbn [length take fmap list_fmap list_to_set fst].
    rewrite dom_insert_L. set_solver.
Qed.

Lemma none_insert_dom d h :
  dom (foldl (fun d key => <[Some key := CNone]> d) d h)
  = dom d ∪ list_to_set (Some <$> h).
Proof.
  revert d. induction h as [|k h IH]; intros d; cbn [foldl].
  - cbn. set_solver.
  - rewrite IH, dom_insert_L. cbn. set_solver.
Qed.

Lemma none_insert_lookup_other d h (k : string) :
  k ∉ h ->
  foldl (fun d key => <[Some key := CNone]> d) d h !! Some k = d !! Some k.
Proof.
  revert d. induction h as [|k' h IH]; intros d Hk; [done|].
  apply not_elem_of_cons in Hk as [Hne Hk]. cbn [foldl].
  rewrite IH by done. apply lookup_insert_ne. congruence.
Qed.

(** A row with at least one field and no more fields than the header has
    names: its keys are still all the names of the header, and the first
    name maps to the first field. *)
Lemma DictReader_row_short (k : string) h (v : string) r :
  NoDup (k :: h) -> (length r <= length h)%nat ->
  dom (DictReader_row (k :: h) (v :: r)) = list_to_set (Some <$> k :: h)
  /\ DictReader_row (k :: h) (v :: r) !! Some k = Some (CStr v).
Proof.
  intros Hnodup Hlen.
  destruct (decide (length r = length h)) as [Heq|Hne];
    [by apply DictReader_row_full|].
  apply NoDup_cons in Hnodup as [Hk Hnodup].
  unfold DictReader_row.
  replace (length (k :: h) <? length (v :: r))%nat with false
    by (symmetry; apply Nat.ltb_ge; simpl; lia).
  replace (length (v :: r) <? length (k :: h))%nat with true
    by (symmetry; apply Nat.ltb_lt; simpl; lia).
  split.
  - rewrite none_insert_dom, zip_insert_dom_take, dom_empty_L, (left_id_L ∅ (∪)).
    rewrite <- list_to_set_app_L, <- fmap_app. by rewrite take_drop.
  - rewrite none_insert_lookup_other.
    + cbn [zip zip_with foldl fst snd].
      rewrite zip_insert_lookup_other by done. by rewrite lookup_insert_eq.
    + cbn [length drop]. intros Hin%subseteq_drop. done.
Qed.
End ShortRows.

(** X26. Reading the table back, a record counts as a finished checkpoint
    as soon as it has at least one field and no more fields than the header:
    a short record (its missing fields read as [None]) passes the test of the
    keys, and its first field is taken as the checkpoint path. Blank records
    are skipped. The header is taken to have distinct names, the first being
    ["checkpoint_path"]. *)
Theorem short_rows_count_as_finished (csv_header : list string)
    (records : list (list string)) (finished : gset (option string)) :
  NoDup csv_header ->
  head csv_header = Some "checkpoint_path" ->
  Forall (fun row : list string => (length row <= length csv_header)%nat) records ->
  for_each (Mo := result) (DictReader (csv_header :: records)) (check_row csv_header)
    finished
  = inr (finished
           ∪ list_to_set (head <$> filter (fun row : list string => row <> []) records)).
Proof.
  intros Hnodup Hhead Hrows. revert finished.
  destruct csv_header as [|k h]; [done|]. injection Hhead as ->.
  unfold DictReader.
  induction Hrows as [|row records Hlen _ IH]; intros finished.
  - cbn. f_equal. set_solver.
  - destruct row as [|v r].
    + rewrite filter_cons_False by (intros Hne; by apply Hne). apply IH.
    + rewrite filter_cons_True by done. rewrite fmap_cons. cbn [for_each].
      cbn [length] in Hlen.
      destruct (DictReader_row_short "checkpoint_path" h v r Hnodup ltac:(lia))
        as [Hdom Hlookup].
      rewrite (check_row_ok _ _ _ v Hnodup Hdom Hlookup).
      cbn [mbind result_bind]. rewrite IH. f_equal.
      rewrite fmap_cons, list_to_set_cons. cbn [head].
      by rewrite <- (assoc_L (∪)).
Qed.

Lemma short_rows_count_as_finished_witness :
  let header := csv_header_of (world := toy_world) toy_tasks in
  let records := [["ckpt-1"]; []; ["ckpt-3"; "GAN_PENALTY"]] in
  head header = Some "checkpoint_path"
  /\ Forall (fun row : list string => (length row <= length header)%nat) records
  /\ for_each (Mo := result) (DictReader (header :: records)) (check_row header) ∅
     = inr (∅ ∪ list_to_set
                  (head <$> filter (fun row : list string => row <> []) records)).
Proof.
  intros header records.
  assert (head header = Some "checkpoint_path") as H2 by reflexivity.
  assert (Forall (fun row : list string => (length row <= length header)%nat)
            records) as H3.
  { assert (length header = 25%nat) as -> by (vm_compute; reflexivity).
    repeat constructor; simpl; lia. }
  split; [exact H2|]. split; [exact H3|].
  exact (short_rows_count_as_finished header records ∅ toy_header_NoDup H2 H3).
Defined.

(** ** A header that no longer matches, with rows under it *)

Lemma schema_drift_with_rows_recomputes_witness :
  let header := csv_header_of (world := toy_world) toy_tasks in
  scores_file toy_drifted_start = Some [["a"; "b"]; ["x"; "y"]]
  /\ (list_to_set ["a"; "b"] : gset string) <> list_to_set header
  /\ RunTaskEval (world := toy_world) toy_options toy_drifted_start
     = for_each ["ckpt-1"; "ckpt-nan"; "ckpt-3"]
         (sweep_step (world := toy_world) toy_options toy_tasks
            (task_headers_of (world := toy_world) toy_tasks)
            (GetAllTrainingParams (world := toy_world)) ∅) tt
         (with_file toy_drifted_start [header])
  /\ pending ∅ ["ckpt-1"; "ckpt-nan"; "ckpt-3"] = ["ckpt-1"; "ckpt-nan"; "ckpt-3"].
Proof.
  intros header.
  assert (tasks_for (world := toy_world) toy_options = inr toy_tasks) as H1
    by reflexivity.
  assert (get_checkpoint_state (Collaborators := toy_world)
          = Some ["ckpt-1"; "ckpt-nan"; "ckpt-3"]) as H2 by reflexivity.
  assert (scores_file toy_drifted_start = Some [["a"; "b"]; ["x"; "y"]]) as H3
    by reflexivity.
  assert (["x"; "y"] <> ([] : list string)) as H4 by discriminate.
  assert (length ["x"; "y"] = length ["a"; "b"]) as H5 by reflexivity.
  assert ((list_to_set ["a"; "b"] : gset string) <> list_to_set header) as H6.
  { intros Heq.
    assert ("a" ∈ (list_to_set header : gset string)) as Ha
      by (rewrite <- Heq; apply elem_of_list_to_set; by left).
    apply elem_of_list_to_set in Ha. revert Ha.
    apply (bool_decide_unpack _). vm_compute. reflexivity. }
  split; [exact H3|]. split; [exact H6|].
  exact (schema_drift_with_rows_recomputes (world := toy_world) toy_options
           toy_tasks ["ckpt-1"; "ckpt-nan"; "ckpt-3"] toy_drifted_start
           ["a"; "b"] ["x"; "y"] [] H1 H2 H3 H4 H5 H6).
Defined.

(** ** Fewer test examples than one Inception batch *)

(** X29. When the configured number of test examples is between 0 and 49,
    it is brought down to 0: no real image is read, no batch is generated,
    the [RunInSession] hooks run on an empty array of real images, and
    [np.concatenate] of the empty list of samples then raises [ValueError],
    which the sweep does not catch. *)
Theorem too_few_test_examples_fail {world : Collaborators}
    (checkpoint_path : string) (options : gmap string pyval)
    (tasks_to_run : list EvalTask) (gan_type dataset : pyval)
    (dataset_params : gmap string pyval) (content : ndarray) (m : Z)
    (in_session : gmap string pyfloat) (s s1 : rng) :
  options !! "gan_type" = Some gan_type ->
  val_in gan_type SUPPORTED_GANS = true ->
  options !! "dataset" = Some dataset ->
  GetDatasetParameters dataset = inr dataset_params ->
  default (default (VInt 10000) (dataset_params !! "eval_test_samples"))
    (options !! "eval_test_samples") = VInt m ->
  0 <= m < 50 ->
  load_dataset dataset "test" = inr content ->
  batch_size (restored_gan options checkpoint_path) <> 0 ->
  run_in_session tasks_to_run options (restored_gan options checkpoint_path)
    (scale (Fin 255) (with_rows content [])) ∅ (np_random_seed 42)
  = (inr in_session, s1) ->
  RunCheckpointEval checkpoint_path options tasks_to_run s
  = (inl (ValueError "need at least one array to concatenate"), s1).
Proof.
  intros Hgt Hsup Hds Hparams Hm Hsmall Hload Hbs Hin.
  assert (target_test_examples (dict_update dataset_params options) = inr 0) as Hn.
  { unfold target_test_examples, dict_update, dict_get.
    assert (default (VInt 10000) ((options ∪ dataset_params) !! "eval_test_samples")
            = VInt m) as ->.
    { rewrite <- Hm, lookup_union.
      destruct (options !! "eval_test_samples"),
        (dataset_params !! "eval_test_samples"); done. }
    cbn [as_int mbind result_bind]. unfold INCEPTION_BATCH.
    rewrite (Z.mod_small m 50) by lia.
    destruct (Z.eqb_spec m 0) as [->|Hnz]; cbn [negb]; unfold mret, result_ret;
      f_equal; lia. }
  unfold RunCheckpointEval, eval_populations. apply M_bind_raise.
  rewrite (M_bind_step _ _ s (np_random_seed 42) tt) by done.
  rewrite (M_bind_step _ _ _ (np_random_seed 42) gan_type)
    by (unfold lift, getitem; by rewrite Hgt).
  rewrite (M_bind_step _ _ _ (np_random_seed 42) tt) by (by rewrite Hsup).
  rewrite (M_bind_step _ _ _ (np_random_seed 42) dataset)
    by (unfold lift, getitem; by rewrite Hds).
  rewrite (M_bind_step _ _ _ (np_random_seed 42) dataset_params)
    by (unfold lift; by rewrite Hparams).
  rewrite (M_bind_step _ _ _ (np_random_seed 42) 0)
    by (unfold lift; by rewrite Hn).
  rewrite (M_bind_step _ _ _ (np_random_seed 42) dataset)
    by (unfold lift, getitem; by rewrite Hds).
  rewrite (M_bind_step _ _ _ (np_random_seed 42)
             (scale (Fin 255) (with_rows content []))); last first.
  { unfold lift. by rewrite (GetRealImages_ok _ _ _ _ _ Hload). }
  cbv zeta.
  rewrite (M_bind_step _ _ _ (np_random_seed 42) []); last first.
  { unfold generate_samples, ceildiv.
    destruct (Z.eqb_spec (batch_size (restored_gan options checkpoint_path)) 0);
      [done|].
    by rewrite (M_bind_step _ _ _ (np_random_seed 42) 0). }
  rewrite (M_bind_step _ _ _ _ _ Hin).
  by apply M_bind_raise.
Qed.

Lemma too_few_test_examples_fail_witness :
  toy_small_options !! "gan_type" = Some (VStr "GAN")
  /\ toy_small_options !! "dataset" = Some (VStr "toy")
  /\ default (default (VInt 10000)
                ((∅ : gmap string pyval) !! "eval_test_samples"))
       (toy_small_options !! "eval_test_samples") = VInt 30
  /\ 0 <= 30 < 50
  /\ RunCheckpointEval (world := toy_world) "ckpt-1" toy_small_options toy_tasks
       0%nat
     = (inl (ValueError "need at least one array to concatenate"), 1%nat).
Proof.
  assert (toy_small_options !! "gan_type" = Some (VStr "GAN")) as H1
    by (vm_compute; reflexivity).
  assert (val_in (VStr "GAN") (SUPPORTED_GANS (world := toy_world)) = true) as H2
    by (vm_compute; reflexivity).
  assert (toy_small_options !! "dataset" = Some (VStr "toy")) as H3
    by (vm_compute; reflexivity).
  assert (GetDatasetParameters (Collaborators := toy_world) (VStr "toy") = inr ∅)
    as H4 by reflexivity.
  assert (default (default (VInt 10000)
                     ((∅ : gmap string pyval) !! "eval_test_samples"))
            (toy_small_options !! "eval_test_samples") = VInt 30) as H5
    by (vm_compute; reflexivity).
  assert (0 <= 30 < 50) as H6 by lia.
  assert (load_dataset (Collaborators := toy_world) (VStr "toy") "test"
          = inr (toy_array 130 (Fin 1))) as H7 by reflexivity.
  assert (batch_size (restored_gan (Collaborators := toy_world) toy_small_options
                        "ckpt-1") <> 0) as H8 by (vm_compute; discriminate).
  assert (run_in_session (world := toy_world) toy_tasks toy_small_options
            (restored_gan (Collaborators := toy_world) toy_small_options "ckpt-1")
            (scale (Fin 255) (with_rows (toy_array 130 (Fin 1)) [])) ∅
            (np_random_seed (Collaborators := toy_world) 42)
          = (inr ∅, 1%nat)) as H9 by (vm_compute; reflexivity).
  split; [exact H1|]. split; [exact H3|]. split; [exact H5|]. split; [exact H6|].
  exact (too_few_test_examples_fail (world := toy_world) "ckpt-1" toy_small_options
           toy_tasks (VStr "GAN") (VStr "toy") ∅ (toy_array 130 (Fin 1)) 30 ∅
           0%nat 1%nat H1 H2 H3 H4 H5 H6 H7 H8 H9).
Defined.

(** ** The test images past the last whole batch *)

Lemma py_slice_of_prefix {A : Type} (l : list A) (start stop : Z) :
  0 <= start <= stop -> stop <= Z.of_nat (length l) ->
  py_slice l start stop = drop (Z.to_nat start) (take (Z.to_nat stop) l).
Proof.
  intros Hs He. rewrite py_slice_in by done.
  rewrite take_drop_commute. f_equal. f_equal. lia.
Qed.

Lemma py_slice_agree {A : Type} (l1 l2 : list A) (n start stop : Z) :
  length l1 = length l2 ->
  take (Z.to_nat n) l1 = take (Z.to_nat n) l2 ->
  0 <= start <= stop -> stop <= n -> n <= Z.of_nat (length l1) ->
  py_slice l1 start stop = py_slice l2 start stop.
Proof.
  intros Hlen Htake Hs He Hn.
  rewrite !py_slice_of_prefix by lia. f_equal.
  assert (forall l : list A,
            take (Z.to_nat stop) l = take (Z.to_nat stop) (take (Z.to_nat n) l))
    as Hpre by (intros l; rewrite take_take; f_equal; lia).
  by rewrite (Hpre l1), (Hpre l2), Htake.
Qed.

Lemma for_each_agree {world : Collaborators} {A S : Type} (l : list A)
    (f g : A -> S -> M S) (st : S) (s : rng) :
  (forall x st s, x ∈ l -> f x st s = g x st s) ->
  for_each l f st s = for_each l g st s.
Proof.
  revert st s. induction l as [|x l IH]; intros st s Hfg; [done|].
  cbn [for_each]. unfold mbind, M_bind. rewrite Hfg by (by left).
  destruct (g x st s) as [[e|st'] s']; [done|].
  apply IH. intros y st0 s0 Hy. apply Hfg. by right.
Qed.

Lemma M_bind_agree {world : Collaborators} {A B : Type} (m : M A)
    (f g : A -> M B) (s : rng) :
  (forall x s', f x s' = g x s') -> (m ≫= f) s = (m ≫= g) s.
Proof.
  intros Hfg. unfold mbind, M_bind. destruct (m s) as [[e|x] s']; [done|]. apply Hfg.
Qed.

Lemma M_bind_agree_l {world : Collaborators} {A B : Type} (m1 m2 : M A)
    (f : A -> M B) (s : rng) :
  m1 s = m2 s -> (m1 ≫= f) s = (m2 ≫= f) s.
Proof. intros Hm. unfold mbind, M_bind. by rewrite Hm. Qed.

Section Remainder.
Context {world : Collaborators}.
Variables (gan : GAN rng zsample) (test_images test_images' : ndarray).
Hypothesis Hbs : 0 < batch_size gan.
Hypothesis Hshape : shape test_images = shape test_images'.
Hypothesis Htake :
  take (Z.to_nat (shape0 test_images / batch_size gan * batch_size gan))
    (rows test_images)
  = take (Z.to_nat (shape0 test_images / batch_size gan * batch_size gan))
      (rows test_images').

Lemma test_batch_agree (i : Z) :
  i ∈ range (shape0 test_images / batch_size gan) ->
  slice0 test_images (i * batch_size gan) (i * batch_size gan + batch_size gan)
  = slice0 test_images' (i * batch_size gan) (i * batch_size gan + batch_size gan).
Proof using Hbs Hshape Htake.
  intros Hi%range_elem. unfold shape in Hshape. injection Hshape as Hlen Hh Hw Hc.
  pose proof (Z.mul_div_le (shape0 test_images) (batch_size gan) Hbs) as Hle.
  unfold slice0, with_rows. rewrite Hh, Hw, Hc. f_equal.
  apply (py_slice_agree _ _
           (shape0 test_images / batch_size gan * batch_size gan));
    [done | done | nia | nia | unfold shape0 in *; lia].
Qed.

Lemma batch_step_agree (train_images : ndarray) (train_subset : list image) (i : Z)
    (st : list pyfloat * list pyfloat * list pyfloat * list pyfloat * list pyfloat)
    (s : rng) :
  i ∈ range (shape0 test_images / batch_size gan) ->
  batch_step gan test_images train_images train_subset i st s
  = batch_step gan test_images' train_images train_subset i st s.
Proof using Hbs Hshape Htake.
  intros Hi. unfold batch_step. destruct st as [[[[trp tep] fp] trl] tel].
  by rewrite (test_batch_agree i Hi).
Qed.

Lemma repeat_step_agree (train_images : ndarray) (repeat : Z)
    (st : list pyfloat * list pyfloat * list pyfloat * list pyfloat * list pyfloat)
    (s : rng) :
  repeat_step gan test_images train_images
    (shape0 test_images / batch_size gan) repeat st s
  = repeat_step gan test_images' train_images
      (shape0 test_images / batch_size gan) repeat st s.
Proof using Hbs Hshape Htake.
  assert (shape0 test_images' = shape0 test_images) as Hn.
  { unfold shape in Hshape. injection Hshape as Hlen _ _ _.
    unfold shape0. by rewrite Hlen. }
  unfold repeat_step. destruct st as [[[[tra tea] fa] trl] tel]. rewrite Hn.
  apply M_bind_agree. intros idx s1.
  apply M_bind_agree. intros train_subset s2.
  apply M_bind_agree_l. apply for_each_agree.
  intros i st0 s0 Hi. by apply batch_step_agree.
Qed.
End Remainder.

(** X30. Only the test images of the whole batches are used: two arrays of
    test images of the same shape that agree on their first
    [num_batches * batch_size] images give the same result, whatever the
    remaining images are. *)
Theorem remainder_of_test_images_is_ignored {world : Collaborators}
    (options : gmap string pyval) (gan : GAN rng zsample)
    (test_images test_images' : ndarray) (max_train_examples num_repeat : Z)
    (s : rng) :
  0 < batch_size gan ->
  shape test_images = shape test_images' ->
  take (Z.to_nat (shape0 test_images / batch_size gan * batch_size gan))
    (rows test_images)
  = take (Z.to_nat (shape0 test_images / batch_size gan * batch_size gan))
      (rows test_images') ->
  ComputeAccuracyLoss options gan test_images max_train_examples num_repeat s
  = ComputeAccuracyLoss options gan test_images' max_train_examples num_repeat s.
Proof.
  intros Hbs Hshape Htake.
  assert (shape0 test_images' = shape0 test_images) as Hn.
  { unfold shape in Hshape. injection Hshape as Hlen _ _ _.
    unfold shape0. by rewrite Hlen. }
  unfold ComputeAccuracyLoss. rewrite Hn.
  apply M_bind_agree. intros dataset s1.
  apply M_bind_agree. intros train_images s2.
  apply M_bind_agree. intros [] s3.
  unfold floordiv. destruct (Z.eqb_spec (batch_size gan) 0) as [|_]; [lia|].
  unfold mbind at 1 3, M_bind at 1 3, lift at 1 2.
  cbv zeta. apply M_bind_agree_l. apply for_each_agree.
  intros k st0 s0 _. by apply repeat_step_agree.
Qed.

Lemma remainder_of_test_images_is_ignored_witness :
  let other := NdArray (replicate 64 (toy_image (Fin 255))
                          ++ replicate 36 (toy_image (Fin 0))) 1 1 1 in
  0 < batch_size (toy_gan "ckpt-1")
  /\ shape (toy_test 100) = shape other
  /\ take (Z.to_nat (shape0 (toy_test 100) / batch_size (toy_gan "ckpt-1")
                     * batch_size (toy_gan "ckpt-1"))) (rows (toy_test 100))
     = take (Z.to_nat (shape0 (toy_test 100) / batch_size (toy_gan "ckpt-1")
                       * batch_size (toy_gan "ckpt-1"))) (rows other)
  /\ ComputeAccuracyLoss (world := toy_world) toy_options (toy_gan "ckpt-1")
       (toy_test 100) 50000 5 1%nat
     = ComputeAccuracyLoss (world := toy_world) toy_options (toy_gan "ckpt-1")
         other 50000 5 1%nat.
Proof.
  intros other.
  assert (0 < batch_size (toy_gan "ckpt-1")) as H1 by (vm_compute; reflexivity).
  assert (shape (toy_test 100) = shape other) as H2 by (vm_compute; reflexivity).
  assert (take (Z.to_nat (shape0 (toy_test 100) / batch_size (toy_gan "ckpt-1")
                          * batch_size (toy_gan "ckpt-1"))) (rows (toy_test 100))
          = take (Z.to_nat (shape0 (toy_test 100) / batch_size (toy_gan "ckpt-1")
                            * batch_size (toy_gan "ckpt-1"))) (rows other)) as H3
    by (vm_compute; reflexivity).
  split; [exact H1|]. split; [exact H2|]. split; [exact H3|].
  exact (remainder_of_test_images_is_ignored (world := toy_world) toy_options
           (toy_gan "ckpt-1") (toy_test 100) other 50000 5 1%nat H1 H2 H3).
Defined.

(** ** The losses of the last repeat *)

Lemma range_snoc (n : Z) : 1 <= n -> range n = range (n - 1) ++ [n - 1].
Proof.
  intros Hn. unfold range.
  replace n with ((n - 1) + 1) at 1 by lia.
  rewrite seqZ_app by lia. done.
Qed.

Lemma for_each_app {world : Collaborators} {A S : Type} (l1 l2 : list A)
    (f : A -> S -> M S) (st : S) (s : rng) :
  for_each (l1 ++ l2) f st s
  = match for_each l1 f st s with
    | (inr st1, s1) => for_each l2 f st1 s1
    | (inl e, s1) => (inl e, s1)
    end.
Proof.
  revert st s. induction l1 as [|x l1 IH]; intros st s; [done|].
  cbn [app for_each]. unfold mbind, M_bind.
  destruct (f x st s) as [[e|st'] s1]; [done|]. apply IH.
Qed.

(** The two lists of losses that come out of a repeat, and the random
    state it leaves, do not depend on the lists it is given. *)
Lemma repeat_step_forgets_losses {world : Collaborators} (gan : GAN rng zsample)
    (test_images train_images : ndarray) (num_batches repeat : Z)
    (st st' st0 : list pyfloat * list pyfloat * list pyfloat * list pyfloat
                  * list pyfloat) (s s' : rng) :
  repeat_step gan test_images train_images num_batches repeat st s = (inr st', s') ->
  exists tra tea fa,
    repeat_step gan test_images train_images num_batches repeat st0 s
    = (inr (tra, tea, fa, st'.1.2, st'.2), s').
Proof.
  destruct st as [[[[tra tea] fa] trl] tel].
  destruct st0 as [[[[tra0 tea0] fa0] trl0] tel0].
  unfold repeat_step. intros Hrun.
  apply M_bind_ok in Hrun as (idx & s1 & Hidx & Hrun).
  apply M_bind_ok in Hrun as (train_subset & s2 & Hsub & Hrun).
  apply M_bind_ok in Hrun as ([[[[trp tep] fp] trl1] tel1] & s3 & Hloop & Hrun).
  apply M_bind_ok in Hrun as (a1 & s4 & Ha1 & Hrun).
  apply M_bind_ok in Hrun as (a2 & s5 & Ha2 & Hrun).
  apply M_bind_ok in Hrun as (a3 & s6 & Ha3 & Hrun).
  injection Hrun as <- <-.
  rewrite (M_bind_step _ _ _ _ _ Hidx), (M_bind_step _ _ _ _ _ Hsub),
    (M_bind_step _ _ _ _ _ Hloop), (M_bind_step _ _ _ _ _ Ha1),
    (M_bind_step _ _ _ _ _ Ha2), (M_bind_step _ _ _ _ _ Ha3).
  by eexists _, _, _.
Qed.

(** X28. With at least one repeat, the two losses [ComputeAccuracyLoss]
    reports are those of its last repeat alone. The repeats before the last
    one only leave a random state; run from that state, the last repeat
    ([num_repeat - 1]) produces, whatever lists it is given, the losses of
    the batches it feeds followed by their mean, and the reported
    [train_d_loss] and [test_d_loss] are the means of those two lists. *)
Theorem ComputeAccuracyLoss_reports_last_repeat {world : Collaborators}
    (options : gmap string pyval) (gan : GAN rng zsample) (test_images : ndarray)
    (max_train_examples num_repeat : Z) (result_dict : gmap string pyfloat)
    (s s' : rng) :
  1 <= num_repeat ->
  ComputeAccuracyLoss options gan test_images max_train_examples num_repeat s
    = (inr result_dict, s') ->
  exists (dataset : pyval) (train_images : ndarray)
         (earlier : list pyfloat * list pyfloat * list pyfloat * list pyfloat
                    * list pyfloat)
         (s_last : rng) (train_subset : list image)
         (fed : list (ndarray * ndarray * zsample)),
    let num_batches := shape0 test_images / batch_size gan in
    let train_losses := map (fun b => d_loss gan b.1.2 b.2) fed in
    let test_losses := map (fun b => d_loss gan b.1.1 b.2) fed in
    options !! "dataset" = Some dataset
    /\ GetRealImages dataset "train" max_train_examples false = inr train_images
    (* the repeats before the last one *)
    /\ for_each (range (num_repeat - 1))
         (repeat_step gan test_images train_images num_batches)
         ([], [], [], [], []) s = (inr earlier, s_last)
    (* the last repeat, whatever lists it is given *)
    /\ (forall st0, exists tra tea fa,
          repeat_step gan test_images train_images num_batches (num_repeat - 1)
            st0 s_last
          = (inr (tra, tea, fa, train_losses ++ [np_mean train_losses],
                  test_losses ++ [np_mean test_losses]), s'))
    /\ Forall2 (fed_in_pass gan test_images train_images train_subset)
         (range num_batches) fed
    /\ fed <> []
    (* what is reported *)
    /\ result_dict !! "train_d_loss"
       = Some (np_mean (train_losses ++ [np_mean train_losses]))
    /\ result_dict !! "test_d_loss"
       = Some (np_mean (test_losses ++ [np_mean test_losses])).
Proof.
  intros Hrep Hrun. unfold ComputeAccuracyLoss in Hrun.
  apply M_bind_ok in Hrun as (dataset & s1 & [Hds ->]%lift_ok & Hrun).
  apply M_bind_ok in Hrun as (train_images & s2 & [Htrain ->]%lift_ok & Hrun).
  apply M_bind_ok in Hrun as ([] & s3 & Hcheck & Hrun).
  apply M_bind_ok in Hrun as (num_batches & s4 & [Hnb ->]%lift_ok & Hrun).
  apply M_bind_ok in Hrun as ([[[[tra tea] fa] trl] tel] & s5 & Hloop & Hrun).
  injection Hrun as <- <-.
  assert (s3 = s) as ->.
  { destruct (shape0 train_images <? shape0 test_images); [done|].
    by injection Hcheck as <-. }
  unfold floordiv in Hnb. destruct (batch_size gan =? 0); [done|].
  injection Hnb as <-.
  unfold getitem in Hds. destruct (options !! "dataset") as [d|]; [|done].
  injection Hds as ->.
  rewrite (range_snoc num_repeat Hrep), for_each_app in Hloop.
  destruct (for_each (range (num_repeat - 1))
              (repeat_step gan test_images train_images
                 (shape0 test_images / batch_size gan))
              ([], [], [], [], []) s) as [[e|earlier] s_last] eqn:Hearlier; [done|].
  cbn [for_each] in Hloop.
  apply M_bind_ok in Hloop as (st1 & s6 & Hlast & Hret). injection Hret as -> ->.
  destruct earlier as [[[[tra0 tea0] fa0] trl0] tel0].
  destruct (repeat_step_ok _ _ _ _ _ _ _ _ _ _ _ _ _ Hlast)
    as (train_subset & fed & Hfed & Hne & Hst).
  injection Hst as -> -> -> -> ->.
  exists dataset, train_images, (tra0, tea0, fa0, trl0, tel0), s_last,
    train_subset, fed.
  cbv zeta. split; [done|]. split; [done|]. split; [done|]. split.
  { intros st0.
    destruct (repeat_step_forgets_losses _ _ _ _ _ _ _ st0 _ _ Hlast)
      as (a & b & c & Hany).
    by exists a, b, c. }
  split; [done|]. split; [done|]. split; by simplify_map_eq.
Qed.

Lemma ComputeAccuracyLoss_reports_last_repeat_witness :
  exists (result_dict : gmap string pyfloat) (s' : nat),
    ComputeAccuracyLoss (world := toy_world) toy_options (toy_gan "ckpt-1")
      (toy_test 100) 50000 2 1%nat = (inr result_dict, s')
    /\ exists (train_images : ndarray) (s_last : nat)
              (fed : list (ndarray * ndarray * nat)),
         let gan := toy_gan "ckpt-1" in
         let train_losses := map (fun b => d_loss gan b.1.2 b.2) fed in
         let test_losses := map (fun b => d_loss gan b.1.1 b.2) fed in
         (forall st0, exists tra tea fa,
             repeat_step (world := toy_world) gan (toy_test 100) train_images
               (shape0 (toy_test 100) / batch_size gan) (2 - 1) st0 s_last
             = (inr (tra, tea, fa, train_losses ++ [np_mean train_losses],
                     test_losses ++ [np_mean test_losses]), s'))
         /\ result_dict !! "train_d_loss"
            = Some (np_mean (train_losses ++ [np_mean train_losses]))
         /\ result_dict !! "test_d_loss"
            = Some (np_mean (test_losses ++ [np_mean test_losses])).
Proof.
  assert (is_Some (match (ComputeAccuracyLoss (world := toy_world) toy_options
                            (toy_gan "ckpt-1") (toy_test 100) 50000 2 1%nat).1 with
                   | inr _ => Some tt
                   | inl _ => None
                   end)) as Hok by (vm_compute; eexists; reflexivity).
  destruct (ComputeAccuracyLoss (world := toy_world) toy_options (toy_gan "ckpt-1")
              (toy_test 100) 50000 2 1%nat) as [[e|result_dict] s'] eqn:Hrun;
    cbn [fst] in Hok; [by destruct Hok|].
  exists result_dict, s'. split; [reflexivity|].
  destruct (ComputeAccuracyLoss_reports_last_repeat (world := toy_world)
              toy_options (toy_gan "ckpt-1") (toy_test 100) 50000 2 result_dict
              1%nat s' ltac:(lia) Hrun)
    as (dataset & train_images & earlier & s_last & train_subset & fed & _ & _
        & _ & Hlast & _ & _ & Htrain & Htest).
  exists train_images, s_last, fed. cbv zeta.
  split; [exact Hlast|]. split; [exact Htrain | exact Htest].
Defined.
